(** * IRI model client: a shallow embedding of [iri_model]

    The development follows the three source files of the package:

    - [_downloader.py]: [_run_iri_profile_selenium] (one attempt against the
      remote form) and [run_iri_profile] (the retry wrapper);
    - [_getdata.py]: [extract_iri_profile_data] (the profile parser);
    - [getdata.py]: [getdata] (the series aggregator).

    Python values are modelled as follows.  A [float] is a [pyfloat]: an exact
    rational, an infinity or NaN.  Sums, products and remainders of finite
    values are written without the rounding to binary64, except in the time
    arithmetic of the parser: there the rounding decides which second is
    resolved, and the differences and products are those of the platform
    ([float_sub], [float_mul]).  An [int] is a [Z].  A [str] is a [string] whose
    characters are the code points below 256.  A raised exception is the
    [Raise] branch of [outcome].  Files and the behaviour of the remote form
    make up a [world] that computations transform; what they print, do to the
    browser or sleep is listed as a trace of [event]s. *)

From Stdlib Require Import ZArith QArith Qround Qabs Qpower Lqa Lia Bool List.
From Stdlib Require Import Ascii String.
Import ListNotations.

Local Open Scope Z_scope.

(* ================================================================== *)
(** * Python values *)
(* ================================================================== *)

Inductive exn : Type :=
| ValueError | TypeError | IndexError | OverflowError
| KeyError | FileNotFoundError | WebDriverException | RequestException.

Inductive outcome (A : Type) : Type :=
| Ret (a : A)
| Raise (e : exn).
Arguments Ret {A} a.
Arguments Raise {A} e.

Inductive pyfloat : Type :=
| Fin (q : Q)
| PInf
| NInf
| NaN.

Definition Qltb (a b : Q) : bool := negb (Qle_bool b a).

(** [x < y] on floats: false as soon as one side is NaN. *)
Definition py_ltb (x y : pyfloat) : bool :=
  match x, y with
  | NaN, _ | _, NaN => false
  | Fin a, Fin b => Qltb a b
  | NInf, NInf => false
  | NInf, _ => true
  | _, PInf => match x with PInf => false | _ => true end
  | _, _ => false
  end.

Definition py_gtb (x y : pyfloat) : bool := py_ltb y x.

(** The builtins [min(a, b)] and [max(a, b)]: the first argument is kept
    unless the second one beats it. *)
Definition py_min (a b : pyfloat) : pyfloat := if py_ltb b a then b else a.
Definition py_max (a b : pyfloat) : pyfloat := if py_gtb b a then b else a.

Definition py_add (x y : pyfloat) : pyfloat :=
  match x, y with
  | NaN, _ | _, NaN => NaN
  | Fin a, Fin b => Fin (a + b)%Q
  | PInf, NInf | NInf, PInf => NaN
  | PInf, _ | _, PInf => PInf
  | NInf, _ | _, NInf => NInf
  end.

Definition py_neg (x : pyfloat) : pyfloat :=
  match x with
  | Fin a => Fin (- a)%Q
  | PInf => NInf
  | NInf => PInf
  | NaN => NaN
  end.

Definition py_sub (x y : pyfloat) : pyfloat := py_add x (py_neg y).

Definition py_abs (x : pyfloat) : pyfloat :=
  match x with
  | Fin a => Fin (Qabs a)
  | PInf | NInf => PInf
  | NaN => NaN
  end.

(** [x * c] and [x / c] for a positive finite constant [c]. *)
Definition py_scale (x : pyfloat) (c : Q) : pyfloat :=
  match x with
  | Fin a => Fin (a * c)%Q
  | other => other
  end.

Definition py_div (x : pyfloat) (c : Q) : pyfloat :=
  match x with
  | Fin a => Fin (a / c)%Q
  | other => other
  end.

(** [x % m] for a positive finite [m]: the result has the sign of [m]. *)
Definition Qmod (a m : Q) : Q := (a - m * inject_Z (Qfloor (a / m)))%Q.

Definition py_mod (x : pyfloat) (m : Q) : pyfloat :=
  match x with
  | Fin a => Fin (Qmod a m)
  | _ => NaN
  end.

(** Truncation toward zero. *)
Definition Qtruncate (a : Q) : Z :=
  if Qle_bool 0 a then Qfloor a else Qceiling a.

(** C's [fmod(x, m)], as [np.fmod] computes it: the quotient is truncated. *)
Definition Qfmod (a m : Q) : Q := (a - m * inject_Z (Qtruncate (a / m)))%Q.

Definition np_fmod (x : pyfloat) (m : Q) : pyfloat :=
  match x with
  | Fin a => Fin (Qfmod a m)
  | _ => NaN
  end.

Definition np_isnan (x : pyfloat) : bool :=
  match x with NaN => true | _ => false end.

(** [int(x)]: truncation toward zero. *)
Definition py_int (x : pyfloat) : outcome Z :=
  match x with
  | Fin a => Ret (Qtruncate a)
  | PInf | NInf => Raise OverflowError
  | NaN => Raise ValueError
  end.

(** [round(x)] with no digits: the nearest integer, ties to the even one. *)
Definition Qround_half_even (a : Q) : Z :=
  let f := Qfloor a in
  let d := (a - inject_Z f)%Q in
  match Qcompare d (1 # 2) with
  | Lt => f
  | Gt => f + 1
  | Eq => if Z.even f then f else f + 1
  end.

Definition py_round (x : pyfloat) : outcome Z :=
  match x with
  | Fin a => Ret (Qround_half_even a)
  | PInf | NInf => Raise OverflowError
  | NaN => Raise ValueError
  end.

(** Equality of floats up to the representation of the rational. *)
Definition py_eq (x y : pyfloat) : Prop :=
  match x, y with
  | Fin a, Fin b => (a == b)%Q
  | PInf, PInf | NInf, NInf | NaN, NaN => True
  | _, _ => False
  end.

Record datetime : Type := mk_datetime {
  year : Z; month : Z; day : Z; hour : Z; minute : Z; second : Z
}.

(* ================================================================== *)
(** * Strings *)
(* ================================================================== *)

Local Open Scope string_scope.
Local Open Scope Z_scope.

Definition code (c : ascii) : N := N_of_ascii c.

(** [str.isspace] and the regular expression class [\s], on code points
    below 256. *)
Definition is_space (c : ascii) : bool :=
  let n := code c in
  ((9 <=? n) && (n <=? 13) || (28 <=? n) && (n <=? 32)
   || (n =? 133) || (n =? 160))%N.

(** The class [\d] on code points below 256. *)
Definition is_digit (c : ascii) : bool :=
  let n := code c in ((48 <=? n) && (n <=? 57))%N.

Definition is_empty (s : string) : bool :=
  match s with EmptyString => true | String _ _ => false end.

Fixpoint lstrip (s : string) : string :=
  match s with
  | String c r => if is_space c then lstrip r else s
  | EmptyString => EmptyString
  end.

Fixpoint rstrip (s : string) : string :=
  match s with
  | String c r =>
      let r' := rstrip r in
      if is_space c && is_empty r' then EmptyString else String c r'
  | EmptyString => EmptyString
  end.

(** [s.strip()] *)
Definition strip (s : string) : string := rstrip (lstrip s).

(** [s.lstrip('-')] *)
Fixpoint lstrip_minus (s : string) : string :=
  match s with
  | String c r => if Ascii.eqb c "-" then lstrip_minus r else s
  | EmptyString => EmptyString
  end.

(** [s.split(sep)] for a one-character separator: never the empty list. *)
Fixpoint split_on (sep : ascii) (s : string) : list string :=
  match s with
  | EmptyString => [EmptyString]
  | String c r =>
      if Ascii.eqb c sep then EmptyString :: split_on sep r
      else match split_on sep r with
           | h :: t => String c h :: t
           | [] => [String c EmptyString]
           end
  end.

(** [s.split()]: the maximal runs of characters that are not whitespace. *)
Fixpoint split_ws (s : string) : list string :=
  match s with
  | EmptyString => []
  | String c r =>
      if is_space c then split_ws r
      else match r with
           | EmptyString => [String c EmptyString]
           | String c' _ =>
               if is_space c' then String c EmptyString :: split_ws r
               else match split_ws r with
                    | h :: t => String c h :: t
                    | [] => [String c EmptyString]
                    end
           end
  end.

(** [re.sub(r'\s+', ' ', s)]: every maximal run of whitespace becomes one
    space. *)
Fixpoint re_sub_ws (s : string) : string :=
  match s with
  | EmptyString => EmptyString
  | String c r =>
      if is_space c then
        match r with
        | String c' _ => if is_space c' then re_sub_ws r
                         else String " " (re_sub_ws r)
        | EmptyString => " "
        end
      else String c (re_sub_ws r)
  end.

(** [s.endswith(suffix)] *)
Definition endswith (s suffix : string) : bool :=
  let n := String.length s in
  let k := String.length suffix in
  (k <=? n)%nat && String.eqb (substring (n - k) k s) suffix.

Definition lower_char (c : ascii) : ascii :=
  let n := code c in
  if ((65 <=? n) && (n <=? 90))%N then ascii_of_N (n + 32) else c.

(** [s.lower()] on ASCII letters. *)
Fixpoint lower (s : string) : string :=
  match s with
  | EmptyString => EmptyString
  | String c r => String (lower_char c) (lower r)
  end.

(** Longest prefix of [s] made of characters satisfying [p], and the rest. *)
Fixpoint span (p : ascii -> bool) (s : string) : string * string :=
  match s with
  | String c r =>
      if p c then let '(a, b) := span p r in (String c a, b)
      else (EmptyString, s)
  | EmptyString => (EmptyString, EmptyString)
  end.

Definition digit_value (c : ascii) : Z := Z.of_N (code c) - 48.

Fixpoint digits_value (acc : Z) (s : string) : Z :=
  match s with
  | String c r => digits_value (10 * acc + digit_value c) r
  | EmptyString => acc
  end.

Fixpoint all_digits (s : string) : bool :=
  match s with
  | String c r => is_digit c && all_digits r
  | EmptyString => true
  end.

(** [int(s)] on the strings the parser passes to it, which are runs of
    decimal digits; anything else is a [ValueError]. *)
Definition int_of_str (s : string) : outcome Z :=
  if negb (is_empty s) && all_digits s then Ret (digits_value 0 s)
  else Raise ValueError.

Definition pad2 (n : Z) : string :=
  String (ascii_of_N (Z.to_N (48 + (n / 10) mod 10)))
    (String (ascii_of_N (Z.to_N (48 + n mod 10))) EmptyString).

Definition pad4 (n : Z) : string := pad2 (n / 100) ++ pad2 (n mod 100).

(** [dt.strftime('%Y-%m-%d' + sep + '%H:%M:%S')], the year written with four
    digits (for years below 1000 the padding of [%Y] depends on the platform's
    C library). *)
Definition strftime (sep : string) (dt : datetime) : string :=
  pad4 (year dt) ++ "-" ++ pad2 (month dt) ++ "-" ++ pad2 (day dt) ++ sep
  ++ pad2 (hour dt) ++ ":" ++ pad2 (minute dt) ++ ":" ++ pad2 (second dt).

(* ================================================================== *)
(** * The world: files, console, browser sessions *)
(* ================================================================== *)

(** What [safe_fill] writes into a form field: a float formatted with a
    fixed number of decimals, or a text. *)
Inductive field_value : Type :=
| FNum (decimals : nat) (v : pyfloat)
| FText (s : string).

Definition pow10 (n : nat) : Q := inject_Z (10 ^ Z.of_nat n).

(** [x] rounded to [decimals] decimals, as the format [.{decimals}f] writes
    it. *)
Definition round_to (decimals : nat) (x : Q) : Q :=
  (inject_Z (Qround_half_even (x * pow10 decimals)) / pow10 decimals)%Q.

(** The number a field receives, when it receives a finite one. *)
Definition written (v : field_value) : option Q :=
  match v with
  | FNum decimals (Fin x) => Some (round_to decimals x)
  | _ => None
  end.

Inductive radio_state : Type := RadioFault | RadioMissing | RadioFound.
Inductive button_state : Type := BtnFault | BtnDisabled | BtnEnabled.

(** The parsed result page: the [href] of the first anchor whose text matches
    [Raw Output|Download] (when there is such an anchor and it has the
    attribute), and the text of the first [<pre>] element. *)
Record page : Type := mk_page {
  raw_link : option string;
  pre_text : option string
}.

(** How the remote form behaves during one browser session.  A [false], a
    [None] or a [..Fault] is a call of the automation layer that raises. *)
Record session : Type := mk_session {
  chrome_starts : bool;
  page_loads : bool;
  field_ok : string -> bool;
  version_radio : radio_state;
  time_type_ok : bool;
  coord_type_ok : bool;
  error_shown : nat -> bool;
  button : nat -> button_state;
  click_ok : bool;
  force_ok : bool;
  result_appears : bool;
  reveal_ok : bool;
  result_page : option page;
  fetch : string -> option string
}.

Inductive event : Type :=
| Print (msg : string)
| DisplayError (msg : string)
| DisplayWarning (msg : string)
| ProgressBar (i n : Z)
| ChromeStarted
| PageLoadTimeout (timeout : pyfloat)
| PageLoaded
| Filled (name : string) (v : field_value)
| RadioClicked
| Selected (name text : string)
| PolledErrors
| Clicked
| ForcedSubmit
| ResultShown
| ResultsRevealed
| Fetched (href : string)
| Written (path : string)
| Quit
| Slept (secs : Q)
| Removed (path : string).

Definition files : Type := string -> option string.

Definition write_file (path text : string) (fs : files) : files :=
  fun p => if String.eqb p path then Some text else fs p.

Definition remove_file (path : string) (fs : files) : files :=
  fun p => if String.eqb p path then None else fs p.

Record world : Type := mk_world {
  w_files : files;
  w_sessions : list session    (* the sessions still to come, next first *)
}.

(** Computations that act on the world and may raise; what was done before
    the exception stays done.  Nothing in the package reads back what it has
    printed or done to the browser, so these events are an output: the third
    component lists them, oldest first. *)
Definition M (A : Type) : Type := world -> outcome A * world * list event.

Definition ret {A : Type} (a : A) : M A := fun w => (Ret a, w, []).

Definition throw {A : Type} (e : exn) : M A := fun w => (Raise e, w, []).

Definition bind {A B : Type} (m : M A) (k : A -> M B) : M B :=
  fun w => match m w with
           | (Ret a, w', t1) => let '(r, w'', t2) := k a w' in (r, w'', (t1 ++ t2)%list)
           | (Raise e, w', t1) => (Raise e, w', t1)
           end.

Definition try_except {A : Type} (m : M A) (handler : exn -> M A) : M A :=
  fun w => match m w with
           | (Ret a, w', t1) => (Ret a, w', t1)
           | (Raise e, w', t1) =>
               let '(r, w'', t2) := handler e w' in (r, w'', (t1 ++ t2)%list)
           end.

Declare Scope world_scope.
Delimit Scope world_scope with world.
Notation "x <- m ;; k" := (bind m (fun x => k))
  (at level 61, m at next level, right associativity) : world_scope.
Notation "m ;; k" := (bind m (fun _ => k))
  (at level 61, right associativity) : world_scope.
Local Open Scope world_scope.

Definition emit (e : event) : M unit := fun w => (Ret tt, w, [e]).

Definition say (info : bool) (msg : string) : M unit :=
  if info then emit (Print msg) else ret tt.

Definition sleep (secs : Q) : M unit := emit (Slept secs).

(** A call of the automation layer: goes through, or raises. *)
Definition driver_call (ok : bool) : M unit :=
  if ok then ret tt else throw WebDriverException.

(** [with open(path, 'w') as f: f.write(text)], taken to go through. *)
Definition write (path text : string) : M unit :=
  fun w => (Ret tt, mk_world (write_file path text (w_files w)) (w_sessions w),
            [Written path]).

(* ================================================================== *)
(** * [_downloader.py] *)
(* ================================================================== *)

(** The arguments [run_iri_profile] hands over unchanged to every attempt. *)
Record query : Type := mk_query {
  date_time : datetime;
  longitude : pyfloat;
  latitude : pyfloat;
  min_alt : pyfloat;
  max_alt : pyfloat;
  step_alt : pyfloat;
  model_version : string;
  output_filename : string;
  time_type : string;
  coord_type : string;
  info : bool
}.

(** [if latitude < -90: latitude = -90] / [if latitude > 90: latitude = 90] *)
Definition correct_latitude (latitude : pyfloat) : pyfloat :=
  let latitude := if py_ltb latitude (Fin (-90 # 1)) then Fin (-90 # 1) else latitude in
  if py_gtb latitude (Fin (90 # 1)) then Fin (90 # 1) else latitude.

(** [if longitude < 0: longitude += 360] /
    [if longitude > 360: longitude = longitude % 360] *)
Definition correct_longitude (longitude : pyfloat) : pyfloat :=
  let longitude :=
    if py_ltb longitude (Fin 0) then py_add longitude (Fin (360 # 1)) else longitude in
  if py_gtb longitude (Fin (360 # 1)) then py_mod longitude (360 # 1) else longitude.

Definition lat_val (latitude : pyfloat) : pyfloat :=
  py_max (Fin (-899 # 10)) (py_min (Fin (899 # 10)) latitude).

Definition lon_val (longitude : pyfloat) : pyfloat := py_mod longitude (360 # 1).

Definition min_alt_val (min_alt : pyfloat) : pyfloat :=
  py_max (Fin 0) (py_min (Fin (2000 # 1)) min_alt).

Definition max_alt_val (max_alt : pyfloat) : pyfloat :=
  py_max (Fin 0) (py_min (Fin (2000 # 1)) max_alt).

Definition step_alt_val (step_alt : pyfloat) : pyfloat :=
  py_max (Fin 1) (py_min (Fin (500 # 1)) step_alt).

(** The six calls of [safe_fill], in order: field name and value. *)
Definition form_values (q : query) : list (string * field_value) :=
  [ ("lat", FNum 6 (lat_val (correct_latitude (latitude q))));
    ("lon", FNum 6 (lon_val (correct_longitude (longitude q))));
    ("start", FNum 1 (min_alt_val (min_alt q)));
    ("stop", FNum 1 (max_alt_val (max_alt q)));
    ("step", FNum 1 (step_alt_val (step_alt q)));
    ("datetime", FText (strftime "T" (date_time q))) ].

(** The value the attempt writes into the field [name], if it writes one. *)
Definition submitted (q : query) (name : string) : option field_value :=
  option_map snd (find (fun nv => String.eqb (fst nv) name) (form_values q)).

(** The number the field [name] receives. *)
Definition received (q : query) (name : string) : option Q :=
  match submitted q name with
  | Some v => written v
  | None => None
  end.

(** Clamping [x] to the closed range from [lo] to [hi]: a value inside the
    range is kept, a value outside goes to the nearest bound. *)
Definition clamped (lo hi x y : Q) : Prop :=
  ((lo <= x <= hi)%Q -> (y == x)%Q) /\
  ((x < lo)%Q -> (y == lo)%Q) /\
  ((hi < x)%Q -> (y == hi)%Q).

(** [safe_fill]: it has no handler of its own, a field that cannot be found
    or set raises into the attempt. *)
Definition safe_fill (s : session) (info : bool) (name : string)
    (value : field_value) : M unit :=
  driver_call (field_ok s name) ;;
  emit (Filled name value) ;;
  say info ("  " ++ name ++ " = ...").

Fixpoint fill_all (s : session) (info : bool)
    (fields : list (string * field_value)) : M unit :=
  match fields with
  | [] => ret tt
  | (name, value) :: rest => safe_fill s info name value ;; fill_all s info rest
  end.

Definition select_model_version (s : session) (info : bool) : M unit :=
  try_except
    (match version_radio s with
     | RadioFault => throw WebDriverException
     | RadioFound => emit RadioClicked ;; say info "  model = ..."
     | RadioMissing => say info "  [warn] Error in selecting model"
     end)
    (fun _ => say info "  [warn] Error in selecting model: ...").

Definition coord_text_map (key : string) : string :=
  if String.eqb key "geom" then "Geomagnetic"
  else if String.eqb key "geog" then "Geographic"
  else if String.eqb key "geomagnetic" then "Geomagnetic"
  else if String.eqb key "geographic" then "Geographic"
  else "Geomagnetic".

Definition select_time_and_coordinate (s : session) (q : query) : M unit :=
  try_except
    (driver_call (time_type_ok s) ;;
     emit (Selected "timeType" "Coordinated Universal Time (UTC)") ;;
     say (info q) "  time type = UTC" ;;
     let coord_text := coord_text_map (lower (coord_type q)) in
     driver_call (coord_type_ok s) ;;
     emit (Selected "coordinateType" coord_text) ;;
     say (info q) ("  coordinate = " ++ coord_text))
    (fun _ => say (info q) "  [warn] Error in selecting time or coordinate types").

(** [for _ in range(10)]: leave as soon as no validation error is shown. *)
Fixpoint poll_validation (s : session) (info : bool) (polls : list nat) : M unit :=
  match polls with
  | [] => ret tt
  | i :: rest =>
      emit PolledErrors ;;
      if negb (error_shown s i) then say info "All input parameters are valid."
      else sleep (1 # 2) ;; poll_validation s info rest
  end.

(** [for i in range(30): ... else: ...]: click the button once it is enabled,
    force the submission when it never is. *)
Fixpoint monitor_submit (s : session) (info : bool) (polls : list nat) : M unit :=
  match polls with
  | [] =>
      say info "  [warn] Submit button timeout. Forcing submit via JS." ;;
      driver_call (force_ok s) ;;
      emit ForcedSubmit
  | i :: rest =>
      match button s i with
      | BtnFault => throw WebDriverException
      | BtnEnabled =>
          say info "Submit button enabled. Clicking..." ;;
          driver_call (click_ok s) ;;
          emit Clicked
      | BtnDisabled => sleep 1 ;; monitor_submit s info rest
      end
  end.

Definition result_not_found (info : bool) : M Z :=
  say info "Error: Result content not found." ;; ret 1.

Definition save_from_pre (q : query) (p : page) : M Z :=
  match pre_text p with
  | Some text =>
      if (100 <? String.length (strip text))%nat then
        write (output_filename q) text ;;
        say (info q) "Success: Saved (via pre tag)" ;;
        ret 0
      else result_not_found (info q)
  | None => result_not_found (info q)
  end.

Definition save_result (s : session) (q : query) : M Z :=
  match result_page s with
  | None => throw WebDriverException
  | Some p =>
      match raw_link p with
      | Some href =>
          if negb (is_empty href) then
            say (info q) "Downloading data from: ..." ;;
            emit (Fetched href) ;;
            match fetch s href with
            | None => throw RequestException
            | Some text =>
                write (output_filename q) text ;;
                say (info q) "Success: Saved" ;;
                ret 0
            end
          else save_from_pre q p
      | None => save_from_pre q p
      end
  end.

(** The body of the [try] once the browser is up. *)
Definition drive (s : session) (q : query) (timeout : pyfloat) : M Z :=
  emit (PageLoadTimeout timeout) ;;
  driver_call (page_loads s) ;;
  emit PageLoaded ;;
  say (info q) "--- inputing parameters ---" ;;
  fill_all s (info q) (form_values q) ;;
  select_model_version s (info q) ;;
  select_time_and_coordinate s q ;;
  poll_validation s (info q) (seq 0 10) ;;
  say (info q) "--- Monitoring Submit Button ---" ;;
  monitor_submit s (info q) (seq 0 30) ;;
  say (info q) "Form submitted. Waiting for results..." ;;
  driver_call (result_appears s) ;;
  emit ResultShown ;;
  driver_call (reveal_ok s) ;;
  emit ResultsRevealed ;;
  sleep 2 ;;
  save_result s q.

(** [webdriver.Chrome(...)]: the next session of the world is consumed. *)
Definition start_chrome : M session :=
  fun w =>
    match w_sessions w with
    | [] => (Raise WebDriverException, w, [])
    | s :: rest =>
        if chrome_starts s then (Ret s, mk_world (w_files w) rest, [ChromeStarted])
        else (Raise WebDriverException, mk_world (w_files w) rest, [])
    end.

Definition report_exception (info : bool) : M Z :=
  say info "Exception in _run_iri_profile_selenium: ..." ;; ret 1.

(** One attempt: [0] on success, [1] on failure; never raises.  The
    [finally] clause quits the browser when it had been started. *)
Definition _run_iri_profile_selenium (q : query) (timeout : pyfloat)
    (w : world) : Z * world * list event :=
  let run :=
    say (info q) "--- Downloading IRI model ---" ;;
    try_except
      (s <- start_chrome ;;
       status <- try_except (drive s q timeout) (fun _ => report_exception (info q)) ;;
       emit Quit ;;
       ret status)
      (fun _ => report_exception (info q)) in
  match run w with
  | (Ret status, w', trace) => (status, w', trace)
  | (Raise _, w', trace) => (1, w', trace)
  end.

(** The instrumentation of the retry wrapper: the calls of the attempt
    function with the timeout they receive, and the pauses between them. *)
Inductive retry_event : Type :=
| Attempt (timeout : pyfloat)
| Backoff (secs : Z).

(** [range(n)] *)
Definition py_range (n : Z) : list Z := map Z.of_nat (seq 0 (Z.to_nat n)).

Section RetryWrapper.

(** The wrapper is written against the attempt function it calls (in the
    package, [_run_iri_profile_selenium]) and the host's [time.sleep] and
    [print], acting on a state [S]. *)
Context {S : Type}.
Variable submit : query -> pyfloat -> S -> Z * S.
Variable host_sleep : Z -> S -> S.
Variable host_print : string -> S -> S.

Definition host_say (info : bool) (msg : string) (s : S) : S :=
  if info then host_print msg s else s.

(** The body of [for attempt in range(max_retries)], and [return 1] with
    its message once the range is used up. *)
Fixpoint retry_loop (q : query) (timeout : pyfloat) (max_retries : Z)
    (attempts : list Z) (s : S) (log : list retry_event)
    : Z * S * list retry_event :=
  match attempts with
  | [] => (1, host_say (info q) "[FATAL] Failed to retrieve IRI profile" s, log)
  | attempt :: rest =>
      let s := host_say (info q && (0 <? attempt)) "RETRY ATTEMPT" s in
      let '(status, s) := submit q (py_scale timeout 2) s in
      let log := (log ++ [Attempt (py_scale timeout 2)])%list in
      if status =? 0 then (0, s, log)
      else if attempt <? max_retries - 1 then
        let wait_time := 5 * (attempt + 1) in
        let s := host_say (info q) "Waiting before next attempt..." s in
        retry_loop q timeout max_retries rest (host_sleep wait_time s)
                   (log ++ [Backoff wait_time])%list
      else retry_loop q timeout max_retries rest s log
  end.

Definition run_iri_profile (q : query) (timeout : pyfloat) (max_retries : Z)
    (s : S) : Z * S * list retry_event :=
  retry_loop q timeout max_retries (py_range max_retries) s [].

End RetryWrapper.

(** The host of the package: the world together with the events so far. *)
Definition host : Type := world * list event.

Definition host_emit (e : event) (h : host) : host := (fst h, (snd h ++ [e])%list).

Definition attempt_on_host (q : query) (timeout : pyfloat) (h : host) : Z * host :=
  let '(status, w, trace) := _run_iri_profile_selenium q timeout (fst h) in
  (status, (w, (snd h ++ trace)%list)).

(** [run_iri_profile] as the package runs it: against the browser. *)
Definition run_iri_profile_selenium (q : query) (timeout : pyfloat)
    (max_retries : Z) : M Z :=
  fun w =>
    let '(status, h, _) :=
      run_iri_profile attempt_on_host
        (fun secs => host_emit (Slept (inject_Z secs)))
        (fun msg => host_emit (Print msg))
        q timeout max_retries (w, []) in
    (Ret status, fst h, snd h).

(* ================================================================== *)
(** * Calendar arithmetic of [datetime] *)
(* ================================================================== *)

Definition is_leap (y : Z) : bool :=
  (y mod 4 =? 0) && (negb (y mod 100 =? 0) || (y mod 400 =? 0)).

Definition days_before_year (y : Z) : Z :=
  let p := y - 1 in p * 365 + p / 4 - p / 100 + p / 400.

Definition days_in_month (y m : Z) : Z :=
  if m =? 2 then (if is_leap y then 29 else 28)
  else if (m =? 4) || (m =? 6) || (m =? 9) || (m =? 11) then 30 else 31.

Fixpoint days_before_month_aux (y : Z) (months : list Z) : Z :=
  match months with
  | [] => 0
  | m :: rest => days_in_month y m + days_before_month_aux y rest
  end.

Definition days_before_month (y m : Z) : Z :=
  days_before_month_aux y (map Z.of_nat (seq 1 (Z.to_nat (m - 1)))).

(** The proleptic Gregorian ordinal, 0001-01-01 being day 1. *)
Definition ymd2ord (y m d : Z) : Z :=
  days_before_year y + days_before_month y m + d.

Fixpoint month_of_yday (y : Z) (months : list Z) (n : Z) : Z * Z :=
  match months with
  | [] => (12, n + 1)
  | m :: rest =>
      if n <? days_in_month y m then (m, n + 1)
      else month_of_yday y rest (n - days_in_month y m)
  end.

Definition ord2ymd (ord : Z) : Z * Z * Z :=
  let n := ord - 1 in
  let n400 := n / 146097 in
  let n := n mod 146097 in
  let n100 := n / 36524 in
  let n := n mod 36524 in
  let n4 := n / 1461 in
  let n := n mod 1461 in
  let n1 := n / 365 in
  let n := n mod 365 in
  let y := n400 * 400 + 1 + n100 * 100 + n4 * 4 + n1 in
  if (n1 =? 4) || (n100 =? 4) then (y - 1, 12, 31)
  else let '(m, d) := month_of_yday y (map Z.of_nat (seq 1 11)) n in (y, m, d).

Definition MINYEAR : Z := 1.
Definition MAXYEAR : Z := 9999.
Definition max_ordinal : Z := 3652059.   (* 9999-12-31 *)
Definition max_delta_days : Z := 999999999.

(** [datetime(year, 1, 1)] *)
Definition datetime_jan1 (y : Z) : outcome datetime :=
  if (MINYEAR <=? y) && (y <=? MAXYEAR) then Ret (mk_datetime y 1 1 0 0 0)
  else Raise ValueError.

(** [timedelta(days=.., hours=.., minutes=.., seconds=..)], in seconds. *)
Definition timedelta (days hours minutes seconds : Z) : outcome Z :=
  let total := days * 86400 + hours * 3600 + minutes * 60 + seconds in
  if Z.abs (total / 86400) <=? max_delta_days then Ret total
  else Raise OverflowError.

Definition seconds_of_datetime (dt : datetime) : Z :=
  ymd2ord (year dt) (month dt) (day dt) * 86400
  + hour dt * 3600 + minute dt * 60 + second dt.

Definition datetime_of_seconds (n : Z) : datetime :=
  let '(y, m, d) := ord2ymd (n / 86400) in
  let r := n mod 86400 in
  mk_datetime y m d (r / 3600) ((r mod 3600) / 60) (r mod 60).

(** [dt + delta] *)
Definition datetime_add (dt : datetime) (delta : Z) : outcome datetime :=
  let n := seconds_of_datetime dt + delta in
  if (1 <=? n / 86400) && (n / 86400 <=? max_ordinal) then Ret (datetime_of_seconds n)
  else Raise OverflowError.

(** [dt.replace(hour=0, minute=0, second=0, microsecond=0)] *)
Definition at_midnight (dt : datetime) : datetime :=
  mk_datetime (year dt) (month dt) (day dt) 0 0 0.

(* ================================================================== *)
(** * Builtins and collaborators that are not part of the package *)
(* ================================================================== *)

(** A numpy array of floats: its shape and its elements in row-major order. *)
Record ndarray : Type := mk_ndarray {
  shape : list nat;
  data : list pyfloat
}.

(** [py_float s] is [float(s)], [None] standing for its [ValueError]; numpy
    converts the string elements of an array with the same function.
    [time_convert_unix] and [time_convert_datetime] are [common.time.convert]
    into ['unix'] and into ['datetime']; [geom2rmlatmlt] is the coordinate
    transform, called with [to='geom']: its three result arrays have one
    length and are given entry by entry as (altitude, latitude, longitude).
    [float_sub a b] and [float_mul a b] are [a - b] and [a * b] on two finite
    floats as the platform computes them, that is with the result rounded to
    a float; the parser's time arithmetic goes through them, since there the
    rounding decides which second is resolved. *)
Class Externals : Type := {
  py_float : string -> option pyfloat;
  float_sub : Q -> Q -> Q;
  float_mul : Q -> Q -> Q;
  time_convert_unix : string -> pyfloat;
  time_convert_datetime : list pyfloat -> list datetime;
  geom2rmlatmlt :
    list pyfloat -> ndarray -> ndarray -> ndarray ->
    list (pyfloat * pyfloat * pyfloat)
}.

(** Sequencing of computations that only return or raise. *)
Definition obind {A B : Type} (m : outcome A) (k : A -> outcome B) : outcome B :=
  match m with
  | Ret a => k a
  | Raise e => Raise e
  end.

Notation "x <~ m ;; k" := (obind m (fun x => k))
  (at level 61, m at next level, right associativity).

(* ================================================================== *)
(** * [_getdata.py] *)
(* ================================================================== *)

Definition is_hour_char (c : ascii) : bool := is_digit c || Ascii.eqb c ".".

(** A match of [(\d{4})/\s*(-?\d+)/\s*([\d\.]+)UT] that starts at the first
    character of [s], with its three groups.  Every starred or plussed class
    is followed by a character outside the class, so the greedy reading is
    the only one and no backtracking is needed: [match_header_at_iff] below
    shows that the function finds exactly the prefixes of that shape. *)
Definition match_header_at (s : string) : option (string * string * string) :=
  match s with
  | String y1 (String y2 (String y3 (String y4 (String slash r)))) =>
      if is_digit y1 && is_digit y2 && is_digit y3 && is_digit y4
         && Ascii.eqb slash "/" then
        let year_str := String y1 (String y2 (String y3 (String y4 EmptyString))) in
        let r := snd (span is_space r) in
        let '(sign, r) :=
          match r with
          | String c r' => if Ascii.eqb c "-" then ("-", r') else ("", r)
          | EmptyString => ("", r)
          end in
        let '(digits, r) := span is_digit r in
        if is_empty digits then None
        else match r with
             | String c r =>
                 if Ascii.eqb c "/" then
                   let r := snd (span is_space r) in
                   let '(ut, r) := span is_hour_char r in
                   if is_empty ut then None
                   else match r with
                        | String u (String t _) =>
                            if Ascii.eqb u "U" && Ascii.eqb t "T"
                            then Some (year_str, sign ++ digits, ut)
                            else None
                        | _ => None
                        end
                 else None
             | EmptyString => None
             end
      else None
  | _ => None
  end.

(** [re.search(pattern, header_line)]: the leftmost match. *)
Fixpoint header_search (s : string) : option (string * string * string) :=
  match match_header_at s with
  | Some groups => Some groups
  | None =>
      match s with
      | String _ r => header_search r
      | EmptyString => None
      end
  end.

Section Parser.

Context {ext : Externals}.

(** [x - n] for an [int] [n] and [x * c] for a finite constant [c], computed
    in floating point. *)
Definition float_minus (x : pyfloat) (n : Z) : pyfloat :=
  match x with
  | Fin a => Fin (float_sub a (inject_Z n))
  | other => other
  end.

Definition float_times (x : pyfloat) (c : Q) : pyfloat :=
  match x with
  | Fin a => Fin (float_mul a c)
  | other => other
  end.

Definition float_of_str (s : string) : outcome pyfloat :=
  match py_float s with
  | Some x => Ret x
  | None => Raise ValueError
  end.

(** The body of [if match:], up to [final_datetime]. *)
Definition resolve_datetime (year_str doy_str ut_hour_str : string)
    : outcome datetime :=
  year <~ int_of_str year_str ;;
  doy <~ int_of_str (strip (lstrip_minus doy_str)) ;;
  ut_hour <~ float_of_str ut_hour_str ;;
  jan1 <~ datetime_jan1 year ;;
  days <~ timedelta (doy - 1) 0 0 0 ;;
  date_obj <~ datetime_add jan1 days ;;
  hours <~ py_int ut_hour ;;
  let minutes_float := float_times (float_minus ut_hour hours) (60 # 1) in
  minutes <~ py_int minutes_float ;;
  let seconds_float := float_times (float_minus minutes_float minutes) (60 # 1) in
  seconds <~ py_round seconds_float ;;
  time_delta <~ timedelta 0 hours minutes seconds ;;
  datetime_add (at_midnight date_obj) time_delta.

(** [time_str] after the header block: [None] when there are fewer than
    four lines or the fourth does not match. *)
Definition header_time (lines : list string) : outcome (option string) :=
  if (4 <=? List.length lines)%nat then
    let header_line := nth 3 lines EmptyString in
    match header_search header_line with
    | Some (year_str, doy_str, ut_hour_str) =>
        final_datetime <~ resolve_datetime year_str doy_str ut_hour_str ;;
        Ret (Some (strftime " " final_datetime))
    | None => Ret None
    end
  else Ret None.

(** One turn of [for line in lines]: the tokens of an accepted line. *)
Definition accept_line (line : string) : option (list string) :=
  let cleaned_line := re_sub_ws (strip line) in
  if is_empty cleaned_line then None
  else
    let parts := split_ws cleaned_line in
    if (List.length parts <? 10)%nat then None
    else match py_float (nth 0 parts EmptyString) with
         | Some H => Some parts
         | None => None            (* [except ValueError] *)
         end.

Fixpoint scan_lines (lines : list string) : list (list string) :=
  match lines with
  | [] => []
  | line :: rest =>
      match accept_line line with
      | Some data_row => data_row :: scan_lines rest
      | None => scan_lines rest
      end
  end.

Fixpoint floats_of_row (row : list string) : option (list pyfloat) :=
  match row with
  | [] => Some []
  | tok :: rest =>
      match py_float tok, floats_of_row rest with
      | Some x, Some xs => Some (x :: xs)
      | _, _ => None
      end
  end.

Fixpoint floats_of_rows (rows : list (list string)) : option (list (list pyfloat)) :=
  match rows with
  | [] => Some []
  | row :: rest =>
      match floats_of_row row, floats_of_rows rest with
      | Some r, Some rs => Some (r :: rs)
      | _, _ => None
      end
  end.

Definition width {A : Type} (rows : list (list A)) : nat :=
  match rows with
  | [] => 0
  | row :: _ => List.length row
  end.

Definition rectangular {A : Type} (rows : list (list A)) : bool :=
  forallb (fun row => (List.length row =? width rows)%nat) rows.

(** [np.array(extracted_data, dtype=float)] on a list of lists of strings:
    a [ValueError] for rows of different lengths or an element that is not
    a number. *)
Definition np_array_float (rows : list (list string)) : outcome (list (list pyfloat)) :=
  if rectangular rows then
    match floats_of_rows rows with
    | Some m => Ret m
    | None => Raise ValueError
    end
  else Raise ValueError.

(** [extracted_data[:, i]] *)
Definition column (m : list (list pyfloat)) (i : nat) : outcome (list pyfloat) :=
  if (i <? width m)%nat then Ret (map (fun row => nth i row NaN) m)
  else Raise IndexError.

(** The value [extract_iri_profile_data] returns: the two time entries of
    the dictionary and its fifteen columns, in the order of [keys]. *)
Record ProfileTable : Type := mk_table {
  time_str : string;
  time_unix : pyfloat;
  columns : list (string * list pyfloat)
}.

Definition keys : list string :=
  [ "altitude"; "Ne"; "Ne/NmF2"; "Tn"; "Ti"; "Te";
    "O+"; "N+"; "H+"; "He+"; "O2+"; "NO+"; "Clust"; "TEC"; "t/%" ].

(** [for i, key in enumerate(keys): dict_return[key] = extracted_data[:, i]] *)
Fixpoint take_columns (m : list (list pyfloat)) (i : nat) (ks : list string)
    : outcome (list (string * list pyfloat)) :=
  match ks with
  | [] => Ret []
  | key :: rest =>
      col <~ column m i ;;
      cols <~ take_columns m (S i) rest ;;
      Ret ((key, col) :: cols)
  end.

(** [dict_return[key] = f(dict_return[key])], element by element. *)
Definition on_key (key : string) (f : pyfloat -> pyfloat)
    (cols : list (string * list pyfloat)) : list (string * list pyfloat) :=
  map (fun kc => if String.eqb (fst kc) key then (fst kc, map f (snd kc)) else kc) cols.

Definition e3 : Q := 1000 # 1.
Definition e6 : Q := 1000000 # 1.
Definition e16 : Q := 10000000000000000 # 1.

Definition to_mksa (cols : list (string * list pyfloat)) : list (string * list pyfloat) :=
  let cols := on_key "altitude" (fun x => py_scale x e3) cols in
  let cols := on_key "Ne" (fun x => py_scale x e6) cols in
  let cols := on_key "O+" (fun x => py_div x (10 # 1)) cols in
  let cols := on_key "N+" (fun x => py_div x (10 # 1)) cols in
  let cols := on_key "H+" (fun x => py_div x (10 # 1)) cols in
  let cols := on_key "He+" (fun x => py_div x (10 # 1)) cols in
  let cols := on_key "O2+" (fun x => py_div x (10 # 1)) cols in
  let cols := on_key "NO+" (fun x => py_div x (10 # 1)) cols in
  let cols := on_key "Clust" (fun x => py_scale x e16) cols in
  let cols := on_key "TEC" (fun x => py_scale x e16) cols in
  on_key "t/%" (fun x => py_scale x e16) cols.

Definition newline : ascii := "010"%char.

(** [files] holds, for every path that exists, the text [read()] returns.
    [Ret None] is the bare [return]. *)
Definition extract_iri_profile_data (fs : files) (filepath : string)
    : outcome (option ProfileTable) :=
  match fs filepath with
  | None => Raise ValueError                       (* No such a file *)
  | Some file_content =>
      if negb (endswith filepath "txt") then Raise ValueError
      else
        let lines := split_on newline file_content in
        time_str <~ header_time lines ;;
        match time_str with
        | None => Ret None
        | Some time_str =>
            match scan_lines lines with
            | [] => Ret None
            | extracted_data =>
                let time_unix := time_convert_unix time_str in
                m <~ np_array_float extracted_data ;;
                cols <~ take_columns m 0 keys ;;
                Ret (Some (mk_table time_str time_unix (to_mksa cols)))
            end
        end
  end.

(** [dict_data[key]] on a returned table. *)
Fixpoint lookup (key : string) (cols : list (string * list pyfloat))
    : outcome (list pyfloat) :=
  match cols with
  | [] => Raise KeyError
  | (k, col) :: rest => if String.eqb k key then Ret col else lookup key rest
  end.

End Parser.

(* ================================================================== *)
(** * [getdata.py] *)
(* ================================================================== *)

(** [len(a)] *)
Definition np_len (a : ndarray) : outcome nat :=
  match shape a with
  | [] => Raise TypeError
  | n :: _ => Ret n
  end.

Definition ndim (a : ndarray) : nat := List.length (shape a).

(** [a.shape[1]] *)
Definition shape1 (a : ndarray) : outcome nat :=
  match nth_error (shape a) 1 with
  | Some c => Ret c
  | None => Raise IndexError
  end.

(** [a[:, j]] *)
Definition take_axis1 (a : ndarray) (j : nat) : outcome ndarray :=
  match shape a with
  | n :: c :: rest =>
      if (j <? c)%nat then
        let p := fold_right Nat.mul 1%nat rest in
        Ret (mk_ndarray (n :: rest)
               (flat_map (fun i => firstn p (skipn ((i * c + j) * p) (data a)))
                         (seq 0 n)))
      else Raise IndexError
  | _ => Raise IndexError
  end.

(** [np.argmin]: the first NaN if there is one, else the first minimum. *)
Fixpoint argmin_from (best_i : nat) (best : pyfloat) (i : nat)
    (xs : list pyfloat) : nat :=
  match xs with
  | [] => best_i
  | x :: rest =>
      if np_isnan best then best_i
      else if np_isnan x || py_ltb x best then argmin_from i x (S i) rest
      else argmin_from best_i best (S i) rest
  end.

Definition np_argmin (xs : list pyfloat) : outcome nat :=
  match xs with
  | [] => Raise ValueError
  | x :: rest => Ret (argmin_from 0 x 1 rest)
  end.

(** [xs[i]] *)
Definition index {A : Type} (xs : list A) (i : nat) : outcome A :=
  match nth_error xs i with
  | Some x => Ret x
  | None => Raise IndexError
  end.

Definition lift {A : Type} (r : outcome A) : M A := fun w => (r, w, []).

(** [dict_return[key].append(v)] *)
Definition dict_append (key : string) (v : pyfloat)
    (d : list (string * list pyfloat)) : list (string * list pyfloat) :=
  map (fun kc => if String.eqb (fst kc) key then (fst kc, (snd kc ++ [v])%list) else kc) d.

(** How the [for] loop of [getdata] is left: by running out of timesteps, or
    by the [return] in its body. *)
Inductive loop_exit : Type :=
| Completed (dict_return : list (string * list pyfloat))
| Returned.

Section Aggregator.

Context {ext : Externals}.

Definition max_alt_km : pyfloat := Fin (2000 # 1).
Definition scratch : string := ".temporal_iri_profile_output.txt".
Definition vars : list string := ["Ne"; "O+"; "N+"; "H+"; "He+"; "O2+"; "NO+"].

Definition empty_dict : list (string * list pyfloat) :=
  map (fun k => (k, [])) ("times" :: "altitude" :: vars).

(** [for var in vars: dict_return[var].append(dict_data[var][idx_to_get])] *)
Fixpoint append_vars (vs : list string) (dict_data : ProfileTable) (idx : nat)
    (d : list (string * list pyfloat)) : outcome (list (string * list pyfloat)) :=
  match vs with
  | [] => Ret d
  | var :: rest =>
      col <~ lookup var (columns dict_data) ;;
      v <~ index col idx ;;
      append_vars rest dict_data idx (dict_append var v d)
  end.

(** The rest of the loop body once [run_iri_profile] has returned [0]. *)
Definition record_sample (fs : files) (time_i alt_i : pyfloat)
    (d : list (string * list pyfloat)) : outcome (list (string * list pyfloat)) :=
  dict_data <~ extract_iri_profile_data fs scratch ;;
  let d := dict_append "times" time_i d in
  match dict_data with
  | None => Raise TypeError          (* None is not subscriptable *)
  | Some dict_data =>
      alt_data <~ lookup "altitude" (columns dict_data) ;;
      idx_to_get <~ np_argmin (map (fun a => py_abs (py_sub a alt_i)) alt_data) ;;
      let d := dict_append "altitude" alt_i d in
      append_vars vars dict_data idx_to_get d
  end.

Fixpoint series_loop (times : list pyfloat) (dt_times : list datetime)
    (alt lat lon : list pyfloat) (res_alt : pyfloat) (info : bool)
    (steps : list nat) (d : list (string * list pyfloat)) : M loop_exit :=
  match steps with
  | [] => ret (Completed d)
  | i :: rest =>
      emit (ProgressBar (Z.of_nat i) (Z.of_nat (List.length times))) ;;
      dt_times_i <- lift (index dt_times i) ;;
      lon_i <- lift (index lon i) ;;
      lat_i <- lift (index lat i) ;;
      alt_i <- lift (index alt i) ;;
      if np_isnan alt_i then
        series_loop times dt_times alt lat lon res_alt info rest d
      else
        ret_code <- run_iri_profile_selenium
                      (mk_query dt_times_i lon_i lat_i (Fin 0) (Fin (2000 # 1)) res_alt
                                "IRI 2020" scratch "UTC" "geom" info)
                      (Fin (30 # 1)) 3 ;;
        if negb (ret_code =? 0) then
          emit (DisplayWarning "run_iri_profile failed") ;;
          ret Returned
        else
          time_i <- lift (index times i) ;;
          d <- (fun w => lift (record_sample (w_files w) time_i alt_i d) w) ;;
          series_loop times dt_times alt lat lon res_alt info rest d
  end.

(** [os.remove(path)] *)
Definition os_remove (path : string) : M unit :=
  fun w =>
    match w_files w path with
    | None => (Raise FileNotFoundError, w, [])
    | Some _ =>
        (Ret tt, mk_world (remove_file path (w_files w)) (w_sessions w),
         [Removed path])
    end.

(** [rmlatmlt.ndim != 2 and rmlatmlt.shape[1] != 3]: the second operand is
    evaluated only when the first one holds. *)
Definition shape_guard (rmlatmlt : ndarray) : outcome bool :=
  if negb (ndim rmlatmlt =? 2)%nat
  then (c <~ shape1 rmlatmlt ;; Ret (negb (c =? 3)%nat))
  else Ret false.

(** [np.where(alt > max_alt, np.nan, x)] *)
Definition where_above (alt x : list pyfloat) : list pyfloat :=
  map (fun ax => if py_gtb (fst ax) max_alt_km then NaN else snd ax) (combine alt x).

Definition getdata (times : list pyfloat) (rmlatmlt : ndarray)
    (res_alt : pyfloat) (info : bool)
    : M (option (list (string * list pyfloat))) :=
  n <- lift (np_len rmlatmlt) ;;
  if negb (List.length times =? n)%nat then
    emit (DisplayError "The lengths of times and rmlatmlt must be same") ;;
    ret None
  else
    bad_shape <- lift (shape_guard rmlatmlt) ;;
    if (bad_shape : bool) then
      emit (DisplayError "rmlatmlt shape error") ;;
      ret None
    else
      r <- lift (take_axis1 rmlatmlt 0) ;;
      mlat <- lift (take_axis1 rmlatmlt 1) ;;
      mlt <- lift (take_axis1 rmlatmlt 2) ;;
      let geo := geom2rmlatmlt times r mlat mlt in
      let alt := map (fun e => fst (fst e)) geo in
      let lat := map (fun e => snd (fst e)) geo in
      let lon := map snd geo in
      let alt := where_above alt alt in
      let lat := where_above alt lat in
      let lon := where_above alt lon in
      let alt := map (fun a => py_scale a e3) alt in
      let lon := map (fun l => np_fmod (py_add l (Fin (360 # 1))) (360 # 1)) lon in
      let dt_times := time_convert_datetime times in
      exit <- series_loop times dt_times alt lat lon res_alt info
                          (seq 0 (List.length times)) empty_dict ;;
      match exit with
      | Returned => ret None
      | Completed dict_return =>
          os_remove scratch ;;
          emit (Print "Deleted temporal file") ;;
          ret (Some dict_return)
      end.

End Aggregator.

(* ================================================================== *)
(** * A concrete instance of the collaborators, to run the model *)
(* ================================================================== *)

(** [float(s)] on plain decimal literals: an optional sign, digits, at most
    one point, at least one digit.  Everything else is rejected. *)
Definition dec_float (s : string) : option pyfloat :=
  let '(neg, body) :=
    match s with
    | String c r => if Ascii.eqb c "-" then (true, r)
                    else if Ascii.eqb c "+" then (false, r) else (false, s)
    | EmptyString => (false, s)
    end in
  let '(ip, r) := span is_digit body in
  let '(fp, r) :=
    match r with
    | String c r' => if Ascii.eqb c "." then span is_digit r' else (EmptyString, r)
    | EmptyString => (EmptyString, r)
    end in
  if is_empty r && negb (is_empty ip && is_empty fp) then
    let q := Qmake (digits_value 0 (ip ++ fp)) (Pos.pow 10 (Pos.of_nat (String.length fp))) in
    let q := if is_empty fp then inject_Z (digits_value 0 ip) else q in
    Some (Fin (if neg then Qopp q else q))
  else None.

(** The transform is taken to be the identity on (r, mlat, mlt), the time
    conversions to be constant, and the two float operations of the parser
    to be exact. *)
Definition demo_ext : Externals := {|
  py_float := dec_float;
  float_sub := Qminus;
  float_mul := Qmult;
  time_convert_unix := fun _ => Fin 0;
  time_convert_datetime := map (fun _ => mk_datetime 2012 2 11 10 0 0);
  geom2rmlatmlt := fun _ r mlat mlt =>
    combine (combine (data r) (data mlat)) (data mlt)
|}.

(** The nearest binary64 number to a rational, a tie going to the even
    significand.  Subnormal numbers are covered; overflow is not (the
    numbers of the parser's time arithmetic are far below 2^1024). *)
Definition binary64 (q : Q) : Q :=
  if Qeq_bool q 0 then 0%Q
  else
    let a := Qabs q in
    let e0 := Z.log2 (Qnum a) - Z.log2 (Zpos (Qden a)) in
    let e := if Qle_bool (Qpower (2 # 1) e0) a then e0 else e0 - 1 in
    let ulp := Qpower (2 # 1) (Z.max e (-1022) - 52) in
    let m := (inject_Z (Qround_half_even (a / ulp)) * ulp)%Q in
    if Qle_bool 0 q then m else (- m)%Q.

(** The collaborators of [demo_ext] with the floats of CPython: [float(s)]
    gives the binary64 number nearest to the literal, and a difference or a
    product is rounded to the nearest binary64 number. *)
Definition binary64_ext : Externals := {|
  py_float := fun s =>
    match dec_float s with
    | Some (Fin q) => Some (Fin (binary64 q))
    | other => other
    end;
  float_sub := fun a b => binary64 (a - b);
  float_mul := fun a b => binary64 (a * b);
  time_convert_unix := fun _ => Fin 0;
  time_convert_datetime := map (fun _ => mk_datetime 2012 2 11 10 0 0);
  geom2rmlatmlt := fun _ r mlat mlt =>
    combine (combine (data r) (data mlat)) (data mlt)
|}.

(* ================================================================== *)
(** * Vocabulary of the statements *)
(* ================================================================== *)

(** Every character of [s] satisfies [p]. *)
Fixpoint all_chars (p : ascii -> bool) (s : string) : bool :=
  match s with
  | EmptyString => true
  | String c r => p c && all_chars p r
  end.

(** The declarative reading of the header pattern: [s] starts with a year
    of four digits, a slash, optional whitespace, the day of year (an
    optional minus sign and at least one digit), a slash, optional
    whitespace, the hour (at least one digit or point) and the letters UT. *)
Definition header_shape (s year_str doy_str ut : string) : Prop :=
  exists ws1 sign digits ws2 rest,
    s = year_str ++ "/" ++ ws1 ++ sign ++ digits ++ "/" ++ ws2 ++ ut ++ "UT" ++ rest
    /\ String.length year_str = 4%nat /\ all_chars is_digit year_str = true
    /\ all_chars is_space ws1 = true
    /\ (sign = "" \/ sign = "-")
    /\ digits <> "" /\ all_chars is_digit digits = true
    /\ all_chars is_space ws2 = true
    /\ ut <> "" /\ all_chars is_hour_char ut = true
    /\ doy_str = sign ++ digits.

(** [s] does not start with a character of the class [p]. *)
Definition stops (p : ascii -> bool) (s : string) : Prop :=
  match s with
  | EmptyString => True
  | String c _ => p c = false
  end.

Section TimeOfDay.

Context {ext : Externals}.

(** The hours, minutes and seconds [resolve_datetime] takes from a finite
    fractional hour [h]: [int(h)], [int((h - hours) * 60.0)] and
    [round((minutes_float - minutes) * 60.0)], the differences and products
    being those of the platform's floats. *)
Definition hours_of (h : Q) : Z := Qtruncate h.

Definition minutes_float_of (h : Q) : Q :=
  float_mul (float_sub h (inject_Z (hours_of h))) (60 # 1).

Definition minutes_of (h : Q) : Z := Qtruncate (minutes_float_of h).

Definition seconds_float_of (h : Q) : Q :=
  float_mul (float_sub (minutes_float_of h) (inject_Z (minutes_of h))) (60 # 1).

Definition seconds_of (h : Q) : Z := Qround_half_even (seconds_float_of h).

End TimeOfDay.

(** An instant, in seconds from the midnight before 0001-01-01, that a
    [datetime] can hold. *)
Definition in_datetime_range (n : Z) : Prop := 1 <= n / 86400 <= max_ordinal.

(** A column whose values increase strictly from each row to the next. *)
Fixpoint strictly_increasing (xs : list pyfloat) : bool :=
  match xs with
  | x :: ((y :: _) as rest) => py_ltb x y && strictly_increasing rest
  | _ => true
  end.

(* ================================================================== *)
(** * Properties of [_downloader.py] *)
(* ================================================================== *)

Lemma Qltb_spec (a b : Q) : reflect (a < b)%Q (Qltb a b).
Proof.
  unfold Qltb. destruct (Qle_bool b a) eqn:E; simpl; constructor.
  - apply Qle_bool_iff in E. lra.
  - destruct (Qlt_le_dec a b) as [Hlt|Hge]; [exact Hlt|].
    apply Qle_bool_iff in Hge. congruence.
Qed.

Ltac case_Qltb :=
  repeat match goal with
         | |- context [Qltb ?a ?b] => destruct (Qltb_spec a b)
         end.

Lemma Qmod_360_range (a : Q) : (0 <= Qmod a (360 # 1) < 360 # 1)%Q.
Proof.
  unfold Qmod.
  pose proof (Qfloor_le (a / (360 # 1))) as Hlo.
  pose proof (Qlt_floor (a / (360 # 1))) as Hhi.
  rewrite inject_Z_plus in Hhi.
  set (f := inject_Z (Qfloor (a / (360 # 1)))) in *.
  assert (Ha : (a / (360 # 1) == a * (1 # 360))%Q) by (field).
  rewrite Ha in Hlo, Hhi.
  change (inject_Z 1) with 1%Q in Hhi.
  split; lra.
Qed.

Lemma Qmod_360_id (a : Q) : (0 <= a < 360 # 1)%Q -> (Qmod a (360 # 1) == a)%Q.
Proof.
  intros [H0 H1]. unfold Qmod.
  assert (Hf : Qfloor (a / (360 # 1)) = 0).
  { pose proof (Qfloor_le (a / (360 # 1))) as Hlo.
    pose proof (Qlt_floor (a / (360 # 1))) as Hhi.
    rewrite inject_Z_plus in Hhi. change (inject_Z 1) with 1%Q in Hhi.
    assert (Ha : (a / (360 # 1) == a * (1 # 360))%Q) by (field).
    assert (L : (inject_Z (Qfloor (a / (360 # 1))) < inject_Z 1)%Q).
    { change (inject_Z 1) with 1%Q. lra. }
    assert (R : (inject_Z (-1) < inject_Z (Qfloor (a / (360 # 1))))%Q).
    { change (inject_Z (-1)) with (-1 # 1)%Q. lra. }
    rewrite <- Zlt_Qlt in L, R. lia. }
  rewrite Hf. change (inject_Z 0) with 0%Q. ring.
Qed.

Lemma Qround_half_even_between (a : Q) (lo hi : Z) :
  (inject_Z lo <= a <= inject_Z hi)%Q -> lo <= Qround_half_even a <= hi.
Proof.
  intros [Hlo Hhi]. unfold Qround_half_even.
  pose proof (Qfloor_le a) as Hf. pose proof (Qlt_floor a) as Hc.
  rewrite inject_Z_plus in Hc. change (inject_Z 1) with 1%Q in Hc.
  assert (Hl : lo <= Qfloor a).
  { rewrite <- (Qfloor_Z lo). apply Qfloor_resp_le. exact Hlo. }
  assert (Hh : Qfloor a <= hi).
  { rewrite <- (Qfloor_Z hi). apply Qfloor_resp_le. exact Hhi. }
  assert (Hup : (1 # 2 <= a - inject_Z (Qfloor a))%Q -> Qfloor a + 1 <= hi).
  { intros Hd. assert (L : (inject_Z (Qfloor a) < inject_Z hi)%Q) by lra.
    rewrite <- Zlt_Qlt in L. lia. }
  destruct (Qcompare_spec (a - inject_Z (Qfloor a)) (1 # 2)) as [E|L|G].
  - destruct (Z.even (Qfloor a)); [lia|]. split; [lia|apply Hup; lra].
  - lia.
  - split; [lia|apply Hup; lra].
Qed.

Lemma pow10_pos (n : nat) : (0 < pow10 n)%Q.
Proof.
  unfold pow10. change 0%Q with (inject_Z 0). rewrite <- Zlt_Qlt.
  apply Z.pow_pos_nonneg; lia.
Qed.

Lemma round_to_between (n : nat) (x : Q) (lo hi : Z) :
  (inject_Z lo <= x * pow10 n <= inject_Z hi)%Q ->
  (inject_Z lo / pow10 n <= round_to n x <= inject_Z hi / pow10 n)%Q.
Proof.
  intros H. apply Qround_half_even_between in H. destruct H as [Hlo Hhi].
  pose proof (pow10_pos n) as Hp.
  assert (Hinv : (0 <= / pow10 n)%Q) by (apply Qlt_le_weak, Qinv_lt_0_compat; exact Hp).
  unfold round_to, Qdiv. split; apply Qmult_le_compat_r; try exact Hinv;
    rewrite <- Zle_Qle; assumption.
Qed.

(** Writing with [n] decimals moves a value by at most half a unit of the
    last decimal. *)
Lemma round_to_close (n : nat) (x : Q) :
  (Qabs (round_to n x - x) <= (1 # 2) / pow10 n)%Q.
Proof.
  pose proof (pow10_pos n) as Hp. unfold round_to.
  set (a := (x * pow10 n)%Q).
  assert (Hx : (x == a / pow10 n)%Q) by (unfold a; field; lra).
  assert (Hr : (Qabs (inject_Z (Qround_half_even a) - a) <= 1 # 2)%Q).
  { unfold Qround_half_even.
    pose proof (Qfloor_le a) as Hf. pose proof (Qlt_floor a) as Hc.
    rewrite inject_Z_plus in Hc. change (inject_Z 1) with 1%Q in Hc.
    apply Qabs_Qle_condition.
    destruct (Qcompare_spec (a - inject_Z (Qfloor a)) (1 # 2)) as [E|L|G].
    - destruct (Z.even (Qfloor a)).
      + split; lra.
      + rewrite inject_Z_plus. change (inject_Z 1) with 1%Q. split; lra.
    - split; lra.
    - rewrite inject_Z_plus. change (inject_Z 1) with 1%Q. split; lra. }
  setoid_replace (inject_Z (Qround_half_even a) / pow10 n - x)%Q
    with ((inject_Z (Qround_half_even a) - a) * / pow10 n)%Q
    by (rewrite Hx at 1; field; lra).
  rewrite Qabs_Qmult.
  rewrite (Qabs_pos (/ pow10 n)) by (apply Qlt_le_weak, Qinv_lt_0_compat; exact Hp).
  unfold Qdiv. apply Qmult_le_compat_r; [exact Hr|].
  apply Qlt_le_weak, Qinv_lt_0_compat; exact Hp.
Qed.

Section SubmittedValues.

Variables (dt : datetime) (mv out tt ct : string) (verbose : bool).

(** A query whose five numbers are finite. *)
Definition finite_query (lon lat lo hi st : Q) : query :=
  mk_query dt (Fin lon) (Fin lat) (Fin lo) (Fin hi) (Fin st) mv out tt ct verbose.

Lemma latitude_clamped (lat : Q) :
  exists lat', lat_val (correct_latitude (Fin lat)) = Fin lat'
               /\ clamped (-899 # 10) (899 # 10) lat lat'
               /\ (-899 # 10 <= lat' <= 899 # 10)%Q.
Proof.
  unfold lat_val, correct_latitude, py_max, py_min, py_gtb, py_ltb, clamped.
  case_Qltb; eexists; (split; [reflexivity|]); repeat split; intros; lra.
Qed.

Lemma altitude_clamped (alt : Q) :
  exists alt', min_alt_val (Fin alt) = Fin alt'
               /\ max_alt_val (Fin alt) = Fin alt'
               /\ clamped 0 (2000 # 1) alt alt'
               /\ (0 <= alt' <= 2000 # 1)%Q.
Proof.
  unfold min_alt_val, max_alt_val, py_max, py_min, py_gtb, py_ltb, clamped.
  case_Qltb; eexists; (split; [reflexivity|]); (split; [reflexivity|]);
    repeat split; intros; lra.
Qed.

Lemma step_clamped (st : Q) :
  exists st', step_alt_val (Fin st) = Fin st'
              /\ clamped 1 (500 # 1) st st'
              /\ (1 <= st' <= 500 # 1)%Q.
Proof.
  unfold step_alt_val, py_max, py_min, py_gtb, py_ltb, clamped.
  case_Qltb; eexists; (split; [reflexivity|]); repeat split; intros; lra.
Qed.

Lemma longitude_normalized (lon : Q) :
  exists lon', lon_val (correct_longitude (Fin lon)) = Fin lon'
               /\ (0 <= lon' < 360 # 1)%Q
               /\ ((0 <= lon < 360 # 1)%Q -> (lon' == lon)%Q).
Proof.
  unfold lon_val, correct_longitude, py_gtb, py_ltb, py_add, py_mod.
  case_Qltb; eexists; (split; [reflexivity|]);
    (split; [apply Qmod_360_range|]).
  - intros. lra.
  - intros. lra.
  - intros. lra.
  - intros. apply Qmod_360_id. assumption.
Qed.


End SubmittedValues.

Definition origin : datetime := mk_datetime 2012 2 11 10 0 0.


Section RetryProperties.

Context {S : Type}.
Variable submit : query -> pyfloat -> S -> Z * S.
Variable host_sleep : Z -> S -> S.
Variable host_print : string -> S -> S.
Variable q : query.
Variable timeout : pyfloat.

Let t2 : pyfloat := py_scale timeout 2.
Let loop := retry_loop submit host_sleep host_print q timeout.
Let run := run_iri_profile submit host_sleep host_print q timeout.

(** The state at the head of the loop for attempt number [k] (from 0), and
    the state in which that attempt calls [submit], all earlier attempts
    having failed and not being the last. *)
Fixpoint head_state (k : nat) (s : S) : S :=
  match k with
  | O => s
  | Datatypes.S k' =>
      let called := host_say host_print (info q && (0 <? Z.of_nat k')) "RETRY ATTEMPT"
                             (head_state k' s) in
      host_sleep (5 * (Z.of_nat k' + 1))
        (host_say host_print (info q) "Waiting before next attempt..."
                  (snd (submit q t2 called)))
  end.

Definition call_state (k : nat) (s : S) : S :=
  host_say host_print (info q && (0 <? Z.of_nat k)) "RETRY ATTEMPT" (head_state k s).

(** [count] attempts, the first one being number [a], with the pauses
    between them. *)
Fixpoint schedule_from (a count : nat) : list retry_event :=
  match count with
  | O => []
  | Datatypes.S c =>
      match c with
      | O => [Attempt t2]
      | Datatypes.S _ =>
          Attempt t2 :: Backoff (5 * (Z.of_nat a + 1)) :: schedule_from (Datatypes.S a) c
      end
  end.

Definition fails_at (s : S) (k : nat) : Prop := fst (submit q t2 (call_state k s)) <> 0.

Lemma loop_cons (n attempt : Z) (rest : list Z) (s : S) (log : list retry_event) :
  loop n (attempt :: rest) s log =
  let '(status, s1) :=
    submit q t2 (host_say host_print (info q && (0 <? attempt)) "RETRY ATTEMPT" s) in
  if status =? 0 then (0, s1, (log ++ [Attempt t2])%list)
  else if attempt <? n - 1 then
    loop n rest
         (host_sleep (5 * (attempt + 1))
            (host_say host_print (info q) "Waiting before next attempt..." s1))
         ((log ++ [Attempt t2]) ++ [Backoff (5 * (attempt + 1))])%list
  else loop n rest s1 (log ++ [Attempt t2])%list.
Proof. reflexivity. Qed.

Lemma schedule_from_more (a c : nat) :
  schedule_from a (Datatypes.S (Datatypes.S c)) =
  Attempt t2 :: Backoff (5 * (Z.of_nat a + 1)) :: schedule_from (Datatypes.S a) (Datatypes.S c).
Proof. reflexivity. Qed.

Lemma head_state_next (a : nat) (s s1 : S) (st : Z) :
  submit q t2 (call_state a s) = (st, s1) ->
  host_sleep (5 * (Z.of_nat a + 1))
    (host_say host_print (info q) "Waiting before next attempt..." s1)
  = head_state (Datatypes.S a) s.
Proof.
  intros E. cbn [head_state]. fold (call_state a s). fold t2. rewrite E. reflexivity.
Qed.

Lemma loop_first_success (n : Z) (s : S) (d : nat) :
  forall (a m : nat) (log : list retry_event),
    (Z.of_nat (a + d) < n) -> (d < m)%nat ->
    (forall i, (a <= i < a + d)%nat -> fails_at s i) ->
    fst (submit q t2 (call_state (a + d) s)) = 0 ->
    loop n (map Z.of_nat (seq a m)) (head_state a s) log
    = (0, snd (submit q t2 (call_state (a + d) s)),
       (log ++ schedule_from a (Datatypes.S d))%list).
Proof.
  induction d as [|d IH]; intros a m log Hn Hm Hfail Hok.
  - destruct m as [|m]; [lia|]. rewrite Nat.add_0_r in *.
    cbn [seq map]. rewrite loop_cons. fold (call_state a s).
    destruct (submit q t2 (call_state a s)) as [st s1] eqn:E.
    cbn [fst snd] in *. subst st. reflexivity.
  - destruct m as [|m]; [lia|].
    cbn [seq map]. rewrite loop_cons. fold (call_state a s).
    assert (Ha : fails_at s a) by (apply Hfail; lia).
    unfold fails_at in Ha.
    destruct (submit q t2 (call_state a s)) as [st s1] eqn:E.
    cbn [fst] in Ha. apply Z.eqb_neq in Ha. rewrite Ha.
    assert (Hlt : (Z.of_nat a <? n - 1) = true) by (apply Z.ltb_lt; lia).
    rewrite Hlt, (head_state_next a s s1 st E).
    replace (a + Datatypes.S d)%nat with (Datatypes.S a + d)%nat in * by lia.
    rewrite (IH (Datatypes.S a) m); try assumption; try lia.
    + rewrite schedule_from_more, <- !app_assoc. reflexivity.
    + intros i Hi. apply Hfail. lia.
Qed.

Lemma loop_all_fail (n : Z) (s : S) (m : nat) :
  forall (a : nat) (log : list retry_event),
    Z.of_nat (a + m) = n ->
    (forall i, (a <= i < a + m)%nat -> fails_at s i) ->
    exists s', loop n (map Z.of_nat (seq a m)) (head_state a s) log
               = (1, s', (log ++ schedule_from a m)%list).
Proof.
  induction m as [|m IH]; intros a log Hn Hfail.
  - cbn [seq map schedule_from]. rewrite app_nil_r. eexists. reflexivity.
  - cbn [seq map]. rewrite loop_cons. fold (call_state a s).
    assert (Ha : fails_at s a) by (apply Hfail; lia).
    unfold fails_at in Ha.
    destruct (submit q t2 (call_state a s)) as [st s1] eqn:E.
    cbn [fst] in Ha. apply Z.eqb_neq in Ha. rewrite Ha.
    destruct m as [|m].
    + assert (Hlt : (Z.of_nat a <? n - 1) = false) by (apply Z.ltb_ge; lia).
      rewrite Hlt. cbn [seq map]. eexists. reflexivity.
    + assert (Hlt : (Z.of_nat a <? n - 1) = true) by (apply Z.ltb_lt; lia).
      rewrite Hlt, (head_state_next a s s1 st E).
      destruct (IH (Datatypes.S a)
                   (((log ++ [Attempt t2]) ++ [Backoff (5 * (Z.of_nat a + 1))])%list))
        as [s' Hs']; [lia | intros i Hi; apply Hfail; lia |].
      exists s'. rewrite Hs', schedule_from_more, <- !app_assoc. reflexivity.
Qed.

Lemma loop_timeouts (n : Z) (attempts : list Z) :
  forall (s : S) (log : list retry_event),
    (forall t', In (Attempt t') log -> t' = t2) ->
    forall t', In (Attempt t') (snd (loop n attempts s log)) -> t' = t2.
Proof.
  induction attempts as [|attempt rest IH]; intros s log Hlog t'.
  - apply Hlog.
  - rewrite loop_cons.
    destruct (submit q t2 _) as [st s1].
    assert (Hlog1 : forall t', In (Attempt t') (log ++ [Attempt t2]) -> t' = t2).
    { intros t0 Hin. apply in_app_or in Hin. destruct Hin as [Hin|[Hin|[]]].
      - apply Hlog; assumption.
      - congruence. }
    destruct (st =? 0); [apply Hlog1|].
    destruct (attempt <? n - 1); apply IH; [|assumption].
    intros t0 Hin. apply in_app_or in Hin. destruct Hin as [Hin|[Hin|[]]].
    + apply Hlog1; assumption.
    + discriminate.
Qed.

(** C8: with [max_retries = 3] and an attempt function that always fails,
    [run_iri_profile] returns 1 after exactly three attempts, pausing 5
    seconds after the first and 10 seconds after the second; when attempt
    number [k] is the first to succeed, it returns 0 in the state that
    attempt left, after [k + 1] attempts and nothing more; and every attempt
    is given twice the caller's timeout. *)
Theorem run_iri_profile_retry_contract :
  (forall s : S,
      (forall s', fst (submit q (py_scale timeout 2) s') <> 0) ->
      exists s3,
        run_iri_profile submit host_sleep host_print q timeout 3 s =
        (1, s3, [ Attempt (py_scale timeout 2); Backoff 5;
                  Attempt (py_scale timeout 2); Backoff 10;
                  Attempt (py_scale timeout 2) ]))
  /\ (forall (max_retries : Z) (k : nat) (s : S),
        Z.of_nat k < max_retries ->
        (forall i, (i < k)%nat -> fails_at s i) ->
        fst (submit q (py_scale timeout 2) (call_state k s)) = 0 ->
        run_iri_profile submit host_sleep host_print q timeout max_retries s =
        (0, snd (submit q (py_scale timeout 2) (call_state k s)),
         schedule_from 0 (Datatypes.S k)))
  /\ (forall (max_retries : Z) (s : S) (t' : pyfloat),
        In (Attempt t')
           (snd (run_iri_profile submit host_sleep host_print q timeout max_retries s)) ->
        t' = py_scale timeout 2).
Proof.
  split; [|split].
  - intros s Hfail.
    destruct (loop_all_fail 3 s 3 0 []) as [s3 H3]; [reflexivity| |].
    + intros i _. unfold fails_at. apply Hfail.
    + exists s3. exact H3.
  - intros max_retries k s Hk Hfail Hok.
    unfold run_iri_profile, py_range.
    apply (loop_first_success max_retries s k 0 (Z.to_nat max_retries) []).
    + simpl. exact Hk.
    + lia.
    + intros i Hi. apply Hfail. lia.
    + exact Hok.
  - intros max_retries s t' Hin.
    apply (loop_timeouts max_retries (py_range max_retries) s []); [|exact Hin].
    intros t0 [].
Qed.

End RetryProperties.

Definition demo_query : query :=
  mk_query origin (Fin (135 # 1)) (Fin (35 # 1)) (Fin 0) (Fin (2000 # 1)) (Fin (50 # 1))
           "IRI 2020" "out.txt" "UTC" "geog" false.

(** Mock attempts that count their calls: one that always fails, one that
    succeeds on call number [good] (from 0). *)
Definition failing_submit (q : query) (timeout : pyfloat) (calls : nat) : Z * nat :=
  (1, Datatypes.S calls).

Definition mock_submit (good : nat) (q : query) (timeout : pyfloat) (calls : nat)
    : Z * nat :=
  (if (calls =? good)%nat then 0 else 1, Datatypes.S calls).

Lemma run_iri_profile_retry_contract_witness :
  (exists calls,
      run_iri_profile failing_submit (fun _ c => c) (fun _ c => c)
                      demo_query (Fin (30 # 1)) 3 0%nat =
      (1, calls, [ Attempt (Fin ((30 # 1) * 2)); Backoff 5;
                   Attempt (Fin ((30 # 1) * 2)); Backoff 10;
                   Attempt (Fin ((30 # 1) * 2)) ]))
  /\ run_iri_profile (mock_submit 1) (fun _ c => c) (fun _ c => c)
                      demo_query (Fin (30 # 1)) 3 0%nat =
      (0, 2%nat, [ Attempt (Fin ((30 # 1) * 2)); Backoff 5;
                   Attempt (Fin ((30 # 1) * 2)) ]).
Proof.
  split.
  - apply (proj1 (run_iri_profile_retry_contract failing_submit (fun _ c => c)
                    (fun _ c => c) demo_query (Fin (30 # 1)))).
    intros s'. simpl. discriminate.
  - apply (proj1 (proj2 (run_iri_profile_retry_contract (mock_submit 1) (fun _ c => c)
                    (fun _ c => c) demo_query (Fin (30 # 1)))) 3 1%nat 0%nat).
    + lia.
    + intros i Hi. assert (i = 0%nat) by lia. subst i.
      unfold fails_at. simpl. discriminate.
    + reflexivity.
Defined.

(** Against a site that never loads, the package's own attempt function is
    called three times, each time with a page-load timeout of 60 seconds for
    the caller's 30, with pauses of 5 and 10 seconds. *)
Definition unreachable_site : session :=
  mk_session true false (fun _ => true) RadioFound true true
             (fun _ => false) (fun _ => BtnEnabled) true true true true
             None (fun _ => None).

Example three_attempts_against_the_browser :
  run_iri_profile_selenium demo_query (Fin (30 # 1)) 3
    (mk_world (fun _ => None) [unreachable_site; unreachable_site; unreachable_site])
  = (Ret 1, mk_world (fun _ => None) [],
     [ ChromeStarted; PageLoadTimeout (Fin (60 # 1)); Quit; Slept 5;
       ChromeStarted; PageLoadTimeout (Fin (60 # 1)); Quit; Slept 10;
       ChromeStarted; PageLoadTimeout (Fin (60 # 1)); Quit ]).
Proof. vm_compute. reflexivity. Qed.

(** A session in which every step goes through and the result page links
    to the raw output [text]. *)
Definition cooperative (text : string) : session :=
  mk_session true true (fun _ => true) RadioFound true true
             (fun _ => false) (fun _ => BtnEnabled) true true true true
             (Some (mk_page (Some "raw_output.txt") None)) (fun _ => Some text).

(** [s], except that the field [name] cannot be populated. *)
Definition with_field_fault (name : string) (s : session) : session :=
  mk_session (chrome_starts s) (page_loads s)
             (fun n => negb (String.eqb n name) && field_ok s n)
             (version_radio s) (time_type_ok s) (coord_type_ok s)
             (error_shown s) (button s) (click_ok s) (force_ok s)
             (result_appears s) (reveal_ok s) (result_page s) (fetch s).

(** [s], except for how the three selections turn out. *)
Definition with_selection (s : session) (v : radio_state) (tt ct : bool) : session :=
  mk_session (chrome_starts s) (page_loads s) (field_ok s) v tt ct
             (error_shown s) (button s) (click_ok s) (force_ok s)
             (result_appears s) (reveal_ok s) (result_page s) (fetch s).

(** [s], except for how the submit button behaves. *)
Definition with_button (s : session) (b : nat -> button_state) (click force : bool)
    : session :=
  mk_session (chrome_starts s) (page_loads s) (field_ok s)
             (version_radio s) (time_type_ok s) (coord_type_ok s)
             (error_shown s) b click force
             (result_appears s) (reveal_ok s) (result_page s) (fetch s).

Definition no_files : files := fun _ => None.

(** Two runs that end alike: same value or exception, same world. *)
Definition same_result {A : Type} (r1 r2 : outcome A * world * list event) : Prop :=
  fst r1 = fst r2.

Section BestEffort.

Lemma same_refl {A : Type} (r : outcome A * world * list event) : same_result r r.
Proof. reflexivity. Qed.

Lemma same_bind {A B : Type} (m1 m2 : M A) (k1 k2 : A -> M B) (w : world) :
  same_result (m1 w) (m2 w) ->
  (forall a w', same_result (k1 a w') (k2 a w')) ->
  same_result (bind m1 k1 w) (bind m2 k2 w).
Proof.
  unfold same_result, bind. intros Hm Hk.
  destruct (m1 w) as [[r1 w1] t1], (m2 w) as [[r2 w2] t2].
  simpl in Hm. injection Hm as -> ->.
  destruct r2 as [a|e]; [|reflexivity].
  specialize (Hk a w2).
  destruct (k1 a w2) as [[r1' w1'] t1'], (k2 a w2) as [[r2' w2'] t2'].
  simpl in *. exact Hk.
Qed.

Lemma same_try {A : Type} (m1 m2 : M A) (h1 h2 : exn -> M A) (w : world) :
  same_result (m1 w) (m2 w) ->
  (forall e w', same_result (h1 e w') (h2 e w')) ->
  same_result (try_except m1 h1 w) (try_except m2 h2 w).
Proof.
  unfold same_result, try_except. intros Hm Hh.
  destruct (m1 w) as [[r1 w1] t1], (m2 w) as [[r2 w2] t2].
  simpl in Hm. injection Hm as -> ->.
  destruct r2 as [a|e]; [reflexivity|].
  specialize (Hh e w2).
  destruct (h1 e w2) as [[r1' w1'] t1'], (h2 e w2) as [[r2' w2'] t2'].
  simpl in *. exact Hh.
Qed.

(** Neither selection step ever raises or touches the world. *)
Lemma select_model_version_returns (s : session) (verbose : bool) (w : world) :
  fst (select_model_version s verbose w) = (Ret tt, w).
Proof.
  unfold select_model_version. destruct (version_radio s), verbose; reflexivity.
Qed.

Lemma select_time_and_coordinate_returns (s : session) (q : query) (w : world) :
  fst (select_time_and_coordinate s q w) = (Ret tt, w).
Proof.
  unfold select_time_and_coordinate, try_except, bind, driver_call, say.
  destruct (time_type_ok s), (coord_type_ok s), (info q); reflexivity.
Qed.

Lemma fill_all_ignores_selection (s : session) (v : radio_state) (tt ct : bool)
    (verbose : bool) (fields : list (string * field_value)) :
  fill_all (with_selection s v tt ct) verbose fields = fill_all s verbose fields.
Proof.
  induction fields as [|[name value] rest IH]; [reflexivity|].
  cbn [fill_all]. rewrite IH. reflexivity.
Qed.

Lemma poll_validation_ignores_selection (s : session) (v : radio_state) (tt ct : bool)
    (verbose : bool) (polls : list nat) :
  poll_validation (with_selection s v tt ct) verbose polls = poll_validation s verbose polls.
Proof.
  induction polls as [|i rest IH]; [reflexivity|].
  cbn [poll_validation]. rewrite IH. reflexivity.
Qed.

Lemma monitor_submit_ignores_selection (s : session) (v : radio_state) (tt ct : bool)
    (verbose : bool) (polls : list nat) :
  monitor_submit (with_selection s v tt ct) verbose polls = monitor_submit s verbose polls.
Proof.
  induction polls as [|i rest IH]; [reflexivity|].
  cbn [monitor_submit]. rewrite IH. reflexivity.
Qed.

Lemma drive_ignores_selection (s : session) (v : radio_state) (tt ct : bool)
    (q : query) (timeout : pyfloat) (w : world) :
  same_result (drive (with_selection s v tt ct) q timeout w) (drive s q timeout w).
Proof.
  unfold drive.
  rewrite fill_all_ignores_selection, poll_validation_ignores_selection,
    monitor_submit_ignores_selection.
  change (page_loads (with_selection s v tt ct)) with (page_loads s).
  change (result_appears (with_selection s v tt ct)) with (result_appears s).
  change (reveal_ok (with_selection s v tt ct)) with (reveal_ok s).
  change (save_result (with_selection s v tt ct) q) with (save_result s q).
  apply same_bind; [apply same_refl|intros _ w0].
  apply same_bind; [apply same_refl|intros _ w1].
  apply same_bind; [apply same_refl|intros _ w2].
  apply same_bind; [apply same_refl|intros _ w3].
  apply same_bind; [apply same_refl|intros _ w4].
  apply same_bind.
  { unfold same_result. rewrite !select_model_version_returns. reflexivity. }
  intros _ w5.
  apply same_bind.
  { unfold same_result. rewrite !select_time_and_coordinate_returns. reflexivity. }
  intros _ w6. apply same_refl.
Qed.

(** The attempt, once the session it will meet is known. *)
Lemma attempt_unfold (q : query) (timeout : pyfloat) (fs : files) (s : session)
    (rest : list session) :
  _run_iri_profile_selenium q timeout (mk_world fs (s :: rest)) =
  let banner := if info q then [Print "--- Downloading IRI model ---"] else [] in
  let report := if info q then [Print "Exception in _run_iri_profile_selenium: ..."]
                else [] in
  if chrome_starts s then
    match drive s q timeout (mk_world fs rest) with
    | (Ret status, w, trace) =>
        (status, w, (banner ++ ChromeStarted :: trace ++ [Quit])%list)
    | (Raise _, w, trace) =>
        (1, w, (banner ++ ChromeStarted :: (trace ++ report) ++ [Quit])%list)
    end
  else (1, mk_world fs rest, (banner ++ report)%list).
Proof.
  unfold _run_iri_profile_selenium, bind, try_except, start_chrome, say,
    report_exception, emit, ret.
  destruct (info q), (chrome_starts s) eqn:E; cbn -[drive app]; rewrite ?E;
    cbn -[drive app];
    try (destruct (drive s q timeout (mk_world fs rest)) as [[[st|e] w] tr]);
    cbn [app]; rewrite ?app_nil_r; reflexivity.
Qed.

Lemma trace_bind_l {A B : Type} (m : M A) (k : A -> M B) (w : world) (e : event) :
  In e (snd (m w)) -> In e (snd (bind m k w)).
Proof.
  unfold bind. destruct (m w) as [[[a|x] w1] t1]; [|exact (fun H => H)].
  destruct (k a w1) as [[r w2] t2]. cbn [snd]. intro H. apply in_or_app. left. exact H.
Qed.

Lemma trace_bind_r {A B : Type} (m : M A) (k : A -> M B) (w w1 : world) (a : A)
    (t1 : list event) (e : event) :
  m w = (Ret a, w1, t1) -> In e (snd (k a w1)) -> In e (snd (bind m k w)).
Proof.
  unfold bind. intros -> H. destruct (k a w1) as [[r w2] t2]. cbn [snd] in *.
  apply in_or_app. right. exact H.
Qed.

Lemma bind_ret_eq {A B : Type} (m : M A) (k : A -> M B) (w w1 : world) (a : A)
    (t1 : list event) :
  m w = (Ret a, w1, t1) ->
  bind m k w = (fst (k a w1), (t1 ++ snd (k a w1))%list).
Proof.
  unfold bind. intros ->. destruct (k a w1) as [[r w2] t2]. reflexivity.
Qed.

Lemma bind_raise_eq {A B : Type} (m : M A) (k : A -> M B) (w w1 : world) (e : exn)
    (t1 : list event) :
  m w = (Raise e, w1, t1) -> bind m k w = (Raise e, w1, t1).
Proof. unfold bind. intros ->. reflexivity. Qed.

Lemma safe_fill_ok (s : session) (verbose : bool) (name : string)
    (value : field_value) (w : world) :
  field_ok s name = true ->
  safe_fill s verbose name value w =
  (Ret tt, w, Filled name value
              :: (if verbose then [Print ("  " ++ name ++ " = ...")] else [])).
Proof.
  intros H. unfold safe_fill, bind, driver_call, emit, say, ret.
  rewrite H. destruct verbose; reflexivity.
Qed.

Lemma safe_fill_fault (s : session) (verbose : bool) (name : string)
    (value : field_value) (w : world) :
  field_ok s name = false ->
  safe_fill s verbose name value w = (Raise WebDriverException, w, []).
Proof.
  intros H. unfold safe_fill, bind, driver_call, throw. rewrite H. reflexivity.
Qed.

Lemma fill_all_goes_through (s : session) (verbose : bool)
    (fields : list (string * field_value)) (w : world) :
  (forall name, field_ok s name = true) ->
  exists trace, fill_all s verbose fields w = (Ret tt, w, trace).
Proof.
  intros Hok. induction fields as [|[name value] rest [trace IH]].
  - eexists. reflexivity.
  - cbn [fill_all].
    rewrite (bind_ret_eq _ _ _ _ _ _ (safe_fill_ok s verbose name value w (Hok name))).
    rewrite IH. eexists. reflexivity.
Qed.

(** Events that come before anything is submitted or saved. *)
Definition before_submission (e : event) : Prop :=
  match e with
  | Clicked | ForcedSubmit | ResultShown | ResultsRevealed
  | Fetched _ | Written _ => False
  | _ => True
  end.

Lemma fill_all_fault (s : session) (verbose : bool)
    (fields : list (string * field_value)) (w : world) :
  (exists name, In name (map fst fields) /\ field_ok s name = false) ->
  exists trace,
    fill_all s verbose fields w = (Raise WebDriverException, w, trace)
    /\ Forall before_submission trace.
Proof.
  induction fields as [|[name value] rest IH]; intros (bad & Hin & Hbad).
  - destruct Hin.
  - cbn [fill_all].
    destruct (field_ok s name) eqn:Hname.
    + assert (Hrest : exists name0, In name0 (map fst rest) /\ field_ok s name0 = false).
      { destruct Hin as [Heq|Hin]; [simpl in Heq; congruence|].
        exists bad. split; assumption. }
      destruct (IH Hrest) as (trace & Htrace & Hall).
      rewrite (bind_ret_eq _ _ _ _ _ _ (safe_fill_ok s verbose name value w Hname)).
      rewrite Htrace. eexists. split; [reflexivity|].
      cbn [snd app]. constructor; [exact I|].
      destruct verbose; cbn [app]; [constructor; [exact I|]|]; assumption.
    + rewrite (bind_raise_eq _ _ _ _ _ _ (safe_fill_fault s verbose name value w Hname)).
      eexists. split; [reflexivity|constructor].
Qed.

Lemma attempt_trace_drive (q : query) (timeout : pyfloat) (fs : files) (s : session)
    (rest : list session) (e : event) :
  chrome_starts s = true ->
  In e (snd (drive s q timeout (mk_world fs rest))) ->
  In e (snd (_run_iri_profile_selenium q timeout (mk_world fs (s :: rest)))).
Proof.
  intros Hc Hin. rewrite attempt_unfold. cbv zeta. rewrite Hc.
  destruct (drive s q timeout (mk_world fs rest)) as [[[st|x] w] tr];
    cbn [snd] in *; apply in_or_app; right; right.
  - apply in_or_app. left. exact Hin.
  - apply in_or_app. left. apply in_or_app. left. exact Hin.
Qed.

Lemma with_trace {A : Type} (r : outcome A * world * list event) (a : outcome A)
    (w : world) :
  fst r = (a, w) -> r = (a, w, snd r).
Proof. destruct r as [[a' w'] t]. cbn. intros [= -> ->]. reflexivity. Qed.

Lemma poll_validation_returns (s : session) (verbose : bool) (polls : list nat)
    (w : world) :
  fst (poll_validation s verbose polls w) = (Ret tt, w).
Proof.
  induction polls as [|i rest IH]; [reflexivity|].
  cbn [poll_validation]. unfold bind, sleep, say, emit, ret.
  destruct (error_shown s i); cbn [negb].
  - destruct (poll_validation s verbose rest w) as [[r w1] t1].
    cbn [fst] in IH. injection IH as -> ->. reflexivity.
  - destruct verbose; reflexivity.
Qed.

(** The ways the submission itself can go wrong: the button cannot be
    found, or the click on the enabled button fails, at the first poll that
    does not find the button disabled; or the button stays disabled for the
    thirty polls and the forced submission fails. *)
Definition submission_faults (s : session) : Prop :=
  (exists i, (i < 30)%nat
             /\ (forall j, (j < i)%nat -> button s j = BtnDisabled)
             /\ (button s i = BtnFault
                 \/ (button s i = BtnEnabled /\ click_ok s = false)))
  \/ ((forall j, (j < 30)%nat -> button s j = BtnDisabled) /\ force_ok s = false).

Lemma monitor_submit_disabled (s : session) (verbose : bool) (w : world)
    (n a : nat) :
  (forall j, (a <= j < a + n)%nat -> button s j = BtnDisabled) ->
  monitor_submit s verbose (seq a n) w
  = (fst (monitor_submit s verbose [] w),
     (repeat (Slept 1) n ++ snd (monitor_submit s verbose [] w))%list).
Proof.
  revert a. induction n as [|n IH]; intros a H.
  - cbn [seq repeat app]. destruct (monitor_submit s verbose [] w). reflexivity.
  - cbn [seq monitor_submit]. rewrite (H a) by lia.
    unfold sleep at 1.
    erewrite bind_ret_eq; [|reflexivity].
    rewrite IH by (intros j Hj; apply H; lia). reflexivity.
Qed.

Lemma monitor_submit_forced (s : session) (verbose : bool) (w : world) :
  (forall j, (j < 30)%nat -> button s j = BtnDisabled) ->
  (force_ok s = true ->
   fst (monitor_submit s verbose (seq 0 30) w) = (Ret tt, w)
   /\ In ForcedSubmit (snd (monitor_submit s verbose (seq 0 30) w)))
  /\ (force_ok s = false ->
      fst (monitor_submit s verbose (seq 0 30) w) = (Raise WebDriverException, w)).
Proof.
  intros H.
  rewrite (monitor_submit_disabled s verbose w 30 0) by (intros j Hj; apply H; lia).
  cbn [monitor_submit fst snd].
  unfold bind, say, driver_call, emit, ret, throw.
  split; intros ->.
  - split; [destruct verbose; reflexivity|].
    apply in_or_app. right. destruct verbose; cbn [snd app In]; auto.
  - destruct verbose; reflexivity.
Qed.

Lemma monitor_submit_stops (s : session) (verbose : bool) (w : world)
    (n a i : nat) :
  (a <= i < a + n)%nat ->
  (forall j, (a <= j < i)%nat -> button s j = BtnDisabled) ->
  button s i = BtnFault \/ (button s i = BtnEnabled /\ click_ok s = false) ->
  fst (monitor_submit s verbose (seq a n) w) = (Raise WebDriverException, w).
Proof.
  revert a. induction n as [|n IH]; intros a Hi Hbefore Hat; [lia|].
  cbn [seq monitor_submit].
  destruct (Nat.eq_dec a i) as [->|Hne].
  - destruct Hat as [->|[-> Hclick]]; [reflexivity|].
    unfold bind, say, driver_call, emit, ret, throw. rewrite Hclick.
    destruct verbose; reflexivity.
  - rewrite (Hbefore a) by lia.
    unfold sleep at 1.
    erewrite bind_ret_eq; [|reflexivity].
    cbn [fst]. apply IH; [lia| |exact Hat].
    intros j Hj. apply Hbefore. lia.
Qed.

Lemma monitor_submit_faults (s : session) (verbose : bool) (w : world) :
  submission_faults s ->
  fst (monitor_submit s verbose (seq 0 30) w) = (Raise WebDriverException, w).
Proof.
  intros [(i & Hi & Hbefore & Hat)|[Hdis Hforce]].
  - apply (monitor_submit_stops s verbose w 30 0 i); [lia| |exact Hat].
    intros j Hj. apply Hbefore. lia.
  - exact (proj2 (monitor_submit_forced s verbose w Hdis) Hforce).
Qed.

Ltac through_fields Hpl Hok :=
  unfold drive;
  eapply trace_bind_r; [reflexivity|];
  eapply trace_bind_r; [rewrite Hpl; reflexivity|];
  eapply trace_bind_r; [reflexivity|];
  eapply trace_bind_r; [apply with_trace; unfold say; destruct (info _); reflexivity|];
  eapply trace_bind_r; [apply with_trace;
    match goal with
    | |- fst (fill_all ?s ?v ?f ?w) = _ =>
        destruct (fill_all_goes_through s v f w Hok) as [trace_f Hf]; rewrite Hf; reflexivity
    end|].

Ltac through_model :=
  eapply trace_bind_r; [apply with_trace, select_model_version_returns|].

Ltac through_types :=
  eapply trace_bind_r; [apply with_trace, select_time_and_coordinate_returns|].

Ltac through_polls :=
  eapply trace_bind_r; [apply with_trace, poll_validation_returns|];
  eapply trace_bind_r; [apply with_trace; unfold say; destruct (info _); reflexivity|].

(** C5 (as amended): the selection of the model version and the selection of
    the time and coordinate types are best effort.  However they turn out,
    the attempt ends with the same status and the same world; when they
    fail the warning is printed (with [info] set) and the attempt goes on
    to the validation poll.  Populating a field is not: once the page is
    loaded, a field that cannot be populated ends the attempt with status 1
    before anything is submitted, the world being left as it was.  Nor is
    the submission: a button that stays disabled for the thirty polls does
    not end the attempt (the submission is forced), but a fault of the
    submission itself ends it with status 1, the files being left as they
    were. *)
Theorem selection_is_best_effort_filling_is_not
    (q : query) (timeout : pyfloat) (fs : files) (s : session) (rest : list session) :
  (forall (v : radio_state) (tt ct : bool),
      fst (_run_iri_profile_selenium q timeout
             (mk_world fs (with_selection s v tt ct :: rest)))
      = fst (_run_iri_profile_selenium q timeout (mk_world fs (s :: rest))))
  /\ (info q = true -> chrome_starts s = true -> page_loads s = true ->
      (forall name, field_ok s name = true) ->
      let trace := snd (_run_iri_profile_selenium q timeout (mk_world fs (s :: rest))) in
      (version_radio s = RadioMissing ->
       In (Print "  [warn] Error in selecting model") trace)
      /\ (version_radio s = RadioFault ->
          In (Print "  [warn] Error in selecting model: ...") trace)
      /\ (time_type_ok s && coord_type_ok s = false ->
          In (Print "  [warn] Error in selecting time or coordinate types") trace)
      /\ In PolledErrors trace)
  /\ (chrome_starts s = true -> page_loads s = true ->
      (exists name, In name (map fst (form_values q)) /\ field_ok s name = false) ->
      exists trace,
        _run_iri_profile_selenium q timeout (mk_world fs (s :: rest))
        = (1, mk_world fs rest, trace)
        /\ Forall before_submission trace)
  /\ (chrome_starts s = true -> page_loads s = true ->
      (forall name, field_ok s name = true) ->
      ((forall j, (j < 30)%nat -> button s j = BtnDisabled) ->
       force_ok s = true ->
       In ForcedSubmit
          (snd (_run_iri_profile_selenium q timeout (mk_world fs (s :: rest)))))
      /\ (submission_faults s ->
          fst (_run_iri_profile_selenium q timeout (mk_world fs (s :: rest)))
          = (1, mk_world fs rest))).
Proof.
  split; [|split; [|split]].
  - intros v tt ct. rewrite !attempt_unfold. cbv zeta.
    change (chrome_starts (with_selection s v tt ct)) with (chrome_starts s).
    destruct (chrome_starts s); [|reflexivity].
    pose proof (drive_ignores_selection s v tt ct q timeout (mk_world fs rest)) as H.
    unfold same_result in H.
    destruct (drive (with_selection s v tt ct) q timeout (mk_world fs rest))
      as [[r1 w1] t1], (drive s q timeout (mk_world fs rest)) as [[r2 w2] t2].
    cbn [fst] in H. injection H as -> ->. destruct r2; reflexivity.
  - intros Hinfo Hc Hpl Hok trace. subst trace. repeat split.
    + intros Hv. apply attempt_trace_drive; [exact Hc|].
      through_fields Hpl Hok.
      apply trace_bind_l. unfold select_model_version. rewrite Hv, Hinfo.
      left. reflexivity.
    + intros Hv. apply attempt_trace_drive; [exact Hc|].
      through_fields Hpl Hok.
      apply trace_bind_l. unfold select_model_version. rewrite Hv, Hinfo.
      left. reflexivity.
    + intros Ht. apply attempt_trace_drive; [exact Hc|].
      through_fields Hpl Hok. through_model.
      apply trace_bind_l.
      unfold select_time_and_coordinate, try_except, bind, driver_call, say.
      rewrite Hinfo.
      destruct (time_type_ok s), (coord_type_ok s); try discriminate Ht;
        cbn; auto 6.
    + apply attempt_trace_drive; [exact Hc|].
      through_fields Hpl Hok. through_model. through_types.
      apply trace_bind_l. cbn [seq poll_validation].
      apply trace_bind_l. left. reflexivity.
  - intros Hc Hpl Hbad. rewrite attempt_unfold. cbv zeta. rewrite Hc.
    destruct (fill_all_fault s (info q) (form_values q) (mk_world fs rest) Hbad)
      as (trf & Hf & Hall).
    assert (Hd : exists tr, drive s q timeout (mk_world fs rest)
                            = (Raise WebDriverException, mk_world fs rest, tr)
                            /\ Forall before_submission tr).
    { unfold drive.
      erewrite bind_ret_eq; [|reflexivity].
      erewrite bind_ret_eq; [|rewrite Hpl; reflexivity].
      erewrite bind_ret_eq; [|reflexivity].
      erewrite bind_ret_eq; [|apply with_trace; unfold say; destruct (info q); reflexivity].
      erewrite bind_raise_eq; [|exact Hf].
      eexists. split; [reflexivity|].
      cbn [snd fst app]. constructor; [exact I|]. constructor; [exact I|].
      apply Forall_app. split; [|exact Hall].
      unfold say. destruct (info q); cbn; repeat constructor. }
    destruct Hd as (tr & -> & Htr).
    eexists. split; [reflexivity|].
    apply Forall_app. split; [destruct (info q); repeat constructor|].
    constructor; [exact I|].
    apply Forall_app. split; [|repeat constructor].
    apply Forall_app. split; [exact Htr|destruct (info q); repeat constructor].
  - intros Hc Hpl Hok. split.
    + intros Hdis Hforce. apply attempt_trace_drive; [exact Hc|].
      through_fields Hpl Hok. through_model. through_types. through_polls.
      apply trace_bind_l.
      exact (proj2 (proj1 (monitor_submit_forced s (info q) _ Hdis) Hforce)).
    + intros Hfault. rewrite attempt_unfold. cbv zeta. rewrite Hc.
      destruct (fill_all_goes_through s (info q) (form_values q) (mk_world fs rest) Hok)
        as [trf Hf].
      assert (Hd : fst (drive s q timeout (mk_world fs rest))
                   = (Raise WebDriverException, mk_world fs rest)).
      { unfold drive.
        erewrite bind_ret_eq; [|reflexivity].
        erewrite bind_ret_eq; [|rewrite Hpl; reflexivity].
        erewrite bind_ret_eq; [|reflexivity].
        erewrite bind_ret_eq;
          [|apply with_trace; unfold say; destruct (info q); reflexivity].
        erewrite bind_ret_eq; [|exact Hf].
        erewrite bind_ret_eq; [|apply with_trace, select_model_version_returns].
        erewrite bind_ret_eq; [|apply with_trace, select_time_and_coordinate_returns].
        erewrite bind_ret_eq; [|apply with_trace, poll_validation_returns].
        erewrite bind_ret_eq;
          [|apply with_trace; unfold say; destruct (info q); reflexivity].
        erewrite bind_raise_eq;
          [|apply with_trace, monitor_submit_faults; exact Hfault].
        reflexivity. }
      destruct (drive s q timeout (mk_world fs rest)) as [[r w1] t1].
      cbn [fst] in Hd. injection Hd as -> ->. reflexivity.
Qed.

End BestEffort.

Definition verbose_query : query :=
  mk_query origin (Fin (135 # 1)) (Fin (35 # 1)) (Fin 0) (Fin (2000 # 1)) (Fin (50 # 1))
           "IRI 2020" "out.txt" "UTC" "geog" true.

Lemma selection_is_best_effort_filling_is_not_witness :
  (let s := with_selection (cooperative "raw output") RadioMissing false true in
   let trace := snd (_run_iri_profile_selenium verbose_query (Fin (60 # 1))
                       (mk_world no_files [s])) in
   In (Print "  [warn] Error in selecting model") trace
   /\ In (Print "  [warn] Error in selecting time or coordinate types") trace
   /\ In PolledErrors trace)
  /\ (let s := with_field_fault "step" (cooperative "raw output") in
      exists trace,
        _run_iri_profile_selenium verbose_query (Fin (60 # 1)) (mk_world no_files [s])
        = (1, mk_world no_files [], trace)
        /\ Forall before_submission trace)
  /\ (let s := with_button (cooperative "raw output") (fun _ => BtnDisabled) true true in
      In ForcedSubmit
         (snd (_run_iri_profile_selenium verbose_query (Fin (60 # 1))
                 (mk_world no_files [s]))))
  /\ (let s := with_button (cooperative "raw output")
                 (fun i => if (i <? 2)%nat then BtnDisabled else BtnEnabled)
                 false true in
      fst (_run_iri_profile_selenium verbose_query (Fin (60 # 1)) (mk_world no_files [s]))
      = (1, mk_world no_files [])).
Proof.
  split; [|split; [|split]].
  - cbv zeta.
    destruct (proj1 (proj2 (selection_is_best_effort_filling_is_not
                verbose_query (Fin (60 # 1)) no_files
                (with_selection (cooperative "raw output") RadioMissing false true) []))
                eq_refl eq_refl eq_refl (fun _ => eq_refl))
      as (Hmodel & _ & Htypes & Hpoll).
    split; [exact (Hmodel eq_refl)|]. split; [exact (Htypes eq_refl)|exact Hpoll].
  - cbv zeta.
    apply (proj1 (proj2 (proj2 (selection_is_best_effort_filling_is_not
                verbose_query (Fin (60 # 1)) no_files
                (with_field_fault "step" (cooperative "raw output")) [])))
                eq_refl eq_refl).
    exists "step". split; [simpl; auto 6|reflexivity].
  - cbv zeta.
    apply (proj1 (proj2 (proj2 (proj2 (selection_is_best_effort_filling_is_not
                verbose_query (Fin (60 # 1)) no_files
                (with_button (cooperative "raw output") (fun _ => BtnDisabled) true true)
                []))) eq_refl eq_refl (fun _ => eq_refl)));
      [intros j _; reflexivity|reflexivity].
  - cbv zeta.
    apply (proj2 (proj2 (proj2 (proj2 (selection_is_best_effort_filling_is_not
                verbose_query (Fin (60 # 1)) no_files
                (with_button (cooperative "raw output")
                   (fun i => if (i <? 2)%nat then BtnDisabled else BtnEnabled)
                   false true)
                []))) eq_refl eq_refl (fun _ => eq_refl))).
    left. exists 2%nat. split; [lia|]. split.
    + intros j Hj. cbn [button with_button].
      destruct (Nat.ltb_spec j 2); [reflexivity|lia].
    + right. split; reflexivity.
Defined.

(** C5 fails as stated: in a session where the only thing that goes wrong
    is that the latitude field cannot be populated, the attempt stops right
    there and returns the failure status; no other field is tried and
    nothing is submitted.  With the field in order the same session ends
    with status 0. *)
Lemma unfillable_latitude_ends_the_attempt :
  _run_iri_profile_selenium verbose_query (Fin (60 # 1))
    (mk_world no_files [with_field_fault "lat" (cooperative "raw output")])
  = (1, mk_world no_files [],
     [ Print "--- Downloading IRI model ---"; ChromeStarted;
       PageLoadTimeout (Fin (60 # 1)); PageLoaded;
       Print "--- inputing parameters ---";
       Print "Exception in _run_iri_profile_selenium: ..."; Quit ])
  /\ fst (fst (_run_iri_profile_selenium verbose_query (Fin (60 # 1))
                 (mk_world no_files [cooperative "raw output"]))) = 0.
Proof. split; vm_compute; reflexivity. Qed.

(* ================================================================== *)
(** * Properties of [_getdata.py] *)
(* ================================================================== *)

Section ParserProperties.

Context {ext : Externals}.

(** C4 (as amended): a path that does not exist, or that does not end in
    [txt], makes [extract_iri_profile_data] raise [ValueError]; an existing
    text file of fewer than four lines makes it return [None]. *)
Theorem extract_rejects_non_text_and_skips_short (fs : files) (filepath : string) :
  (fs filepath = None ->
   extract_iri_profile_data fs filepath = Raise ValueError)
  /\ (forall content, fs filepath = Some content ->
      endswith filepath "txt" = false ->
      extract_iri_profile_data fs filepath = Raise ValueError)
  /\ (forall content, fs filepath = Some content ->
      endswith filepath "txt" = true ->
      (List.length (split_on newline content) < 4)%nat ->
      extract_iri_profile_data fs filepath = Ret None).
Proof.
  unfold extract_iri_profile_data. split; [|split].
  - intros ->. reflexivity.
  - intros content -> ->. reflexivity.
  - intros content -> -> Hshort. cbn [negb].
    unfold header_time.
    destruct (4 <=? List.length (split_on newline content))%nat eqn:E.
    + apply Nat.leb_le in E. lia.
    + reflexivity.
Qed.

End ParserProperties.

Definition line_break : string := String newline EmptyString.

Lemma extract_rejects_non_text_and_skips_short_witness :
  extract_iri_profile_data (ext := demo_ext) no_files "profile.txt" = Raise ValueError
  /\ extract_iri_profile_data (ext := demo_ext)
       (write_file "profile.dat" "IRI" no_files) "profile.dat" = Raise ValueError
  /\ extract_iri_profile_data (ext := demo_ext)
       (write_file "profile.txt" ("IRI" ++ line_break ++ "model") no_files) "profile.txt"
     = Ret None.
Proof.
  split; [|split].
  - apply (proj1 (extract_rejects_non_text_and_skips_short no_files "profile.txt")).
    reflexivity.
  - apply (proj1 (proj2 (extract_rejects_non_text_and_skips_short
                           (write_file "profile.dat" "IRI" no_files) "profile.dat"))
             "IRI"); reflexivity.
  - apply (proj2 (proj2 (extract_rejects_non_text_and_skips_short
                           (write_file "profile.txt" ("IRI" ++ line_break ++ "model") no_files)
                           "profile.txt"))
             ("IRI" ++ line_break ++ "model")).
    + reflexivity.
    + reflexivity.
    + simpl. lia.
Defined.

(** C4 fails as stated: for an input that is not a text file, or that does
    not exist, the parser raises instead of returning [None]. *)
Lemma non_text_input_raises :
  extract_iri_profile_data (ext := demo_ext)
    (write_file "profile.dat" "IRI" no_files) "profile.dat" = Raise ValueError
  /\ extract_iri_profile_data (ext := demo_ext)
       (write_file "profile.dat" "IRI" no_files) "profile.dat" <> Ret None
  /\ extract_iri_profile_data (ext := demo_ext) no_files "missing.txt" = Raise ValueError.
Proof.
  split; [reflexivity|]. split; [discriminate|reflexivity].
Qed.

Section TableProperties.

Context {ext : Externals}.

Lemma floats_of_row_none (row : list string) (tok : string) :
  In tok row -> py_float tok = None -> floats_of_row row = None.
Proof.
  induction row as [|t rest IH]; intros Hin Hnone; [destruct Hin|].
  cbn [floats_of_row]. destruct Hin as [->|Hin].
  - rewrite Hnone. reflexivity.
  - rewrite (IH Hin Hnone). destruct (py_float t); reflexivity.
Qed.

Lemma floats_of_rows_none (rows : list (list string)) (row : list string) (tok : string) :
  In row rows -> In tok row -> py_float tok = None -> floats_of_rows rows = None.
Proof.
  induction rows as [|r rest IH]; intros Hrow Htok Hnone; [destruct Hrow|].
  cbn [floats_of_rows]. destruct Hrow as [->|Hrow].
  - rewrite (floats_of_row_none row tok Htok Hnone). reflexivity.
  - rewrite (IH Hrow Htok Hnone). destruct (floats_of_row r); reflexivity.
Qed.

Lemma floats_of_row_length (row : list string) :
  forall r, floats_of_row row = Some r -> List.length r = List.length row.
Proof.
  induction row as [|t rest IH]; intros r H.
  - injection H as <-. reflexivity.
  - cbn [floats_of_row] in H.
    destruct (py_float t); [|discriminate].
    destruct (floats_of_row rest) as [xs|]; [|discriminate].
    injection H as <-. cbn [List.length]. rewrite (IH xs eq_refl). reflexivity.
Qed.

Lemma floats_of_rows_each (rows : list (list string)) :
  forall m, floats_of_rows rows = Some m ->
            Forall2 (fun row r => floats_of_row row = Some r) rows m.
Proof.
  induction rows as [|row rest IH]; intros m H.
  - injection H as <-. constructor.
  - cbn [floats_of_rows] in H.
    destruct (floats_of_row row) as [r|] eqn:Er; [|discriminate].
    destruct (floats_of_rows rest) as [rs|]; [|discriminate].
    injection H as <-. constructor; [exact Er|apply IH; reflexivity].
Qed.

Lemma floats_of_rows_width (rows : list (list string)) (m : list (list pyfloat)) :
  floats_of_rows rows = Some m -> width m = width rows.
Proof.
  intros H. apply floats_of_rows_each in H.
  destruct H as [|row r rows' m' Hr _]; [reflexivity|].
  cbn [width]. apply floats_of_row_length. exact Hr.
Qed.

Lemma take_columns_short (m : list (list pyfloat)) (ks : list string) :
  forall i, (i <= width m)%nat -> (width m < i + List.length ks)%nat ->
            take_columns m i ks = Raise IndexError.
Proof.
  induction ks as [|key rest IH]; intros i Hle Hlt.
  - cbn [List.length] in Hlt. lia.
  - cbn [take_columns]. unfold column.
    destruct (i <? width m)%nat eqn:E.
    + apply Nat.ltb_lt in E. cbn [obind].
      rewrite IH; [reflexivity|lia|cbn [List.length] in Hlt; lia].
    + reflexivity.
Qed.

(** What [scan_lines] keeps: the token lists, in the order of the lines, of
    the lines that have at least ten tokens and a first token that is a
    number. *)
Lemma scan_lines_rows (lines : list string) :
  Forall (fun row => (10 <= List.length row)%nat
                     /\ exists H, py_float (nth 0 row EmptyString) = Some H)
         (scan_lines lines).
Proof.
  induction lines as [|line rest IH]; [constructor|].
  cbn [scan_lines]. destruct (accept_line line) as [row|] eqn:E; [|exact IH].
  constructor; [|exact IH].
  unfold accept_line in E.
  destruct (is_empty (re_sub_ws (strip line))); [discriminate|].
  destruct (List.length (split_ws (re_sub_ws (strip line))) <? 10)%nat eqn:El;
    [discriminate|].
  destruct (py_float (nth 0 (split_ws (re_sub_ws (strip line))) EmptyString))
    as [H|] eqn:Eh; [|discriminate].
  injection E as <-. apply Nat.ltb_ge in El. split; [exact El|].
  exists H. exact Eh.
Qed.

(** C10: for a file with a resolvable time header and at least one accepted
    data line, [extract_iri_profile_data] raises ([ValueError] from the
    conversion to a float array, [IndexError] from the extraction of the
    fifteen columns) as soon as an accepted line holds a token after the
    first that is not a number, or the accepted lines differ in their number
    of tokens, or they all have the same number of tokens, below 15. *)
Theorem extract_raises_on_malformed_rows
    (fs : files) (filepath content time_string : string) :
  fs filepath = Some content ->
  endswith filepath "txt" = true ->
  header_time (split_on newline content) = Ret (Some time_string) ->
  scan_lines (split_on newline content) <> [] ->
  (exists row tok, In row (scan_lines (split_on newline content))
                   /\ In tok (tl row) /\ py_float tok = None)
  \/ rectangular (scan_lines (split_on newline content)) = false
  \/ (rectangular (scan_lines (split_on newline content)) = true
      /\ (width (scan_lines (split_on newline content)) < 15)%nat) ->
  exists e, extract_iri_profile_data fs filepath = Raise e
            /\ (e = ValueError \/ e = IndexError).
Proof.
  intros Hfile Htxt Htime Hrows Hbad.
  unfold extract_iri_profile_data. rewrite Hfile, Htxt, Htime. cbn [negb obind].
  destruct (scan_lines (split_on newline content)) as [|row0 rows] eqn:Escan;
    [contradiction|].
  unfold np_array_float.
  destruct (rectangular (row0 :: rows)) eqn:Erect; cbn [obind];
    [|exists ValueError; split; [reflexivity|left; reflexivity]].
  destruct (floats_of_rows (row0 :: rows)) as [m|] eqn:Em; cbn [obind];
    [|exists ValueError; split; [reflexivity|left; reflexivity]].
  destruct Hbad as [(row & tok & Hrow & Htok & Hnone)|[Hr|[_ Hw]]].
  - assert (Hin : In tok row) by (destruct row; [destruct Htok|right; exact Htok]).
    rewrite (floats_of_rows_none _ _ _ Hrow Hin Hnone) in Em. discriminate.
  - discriminate.
  - rewrite <- (floats_of_rows_width _ _ Em) in Hw.
    rewrite take_columns_short; [|lia|cbn; lia].
    exists IndexError. split; [reflexivity|right; reflexivity].
Qed.

Lemma floats_of_row_first (row : list string) (r : list pyfloat) :
  floats_of_row row = Some r -> (1 <= List.length row)%nat ->
  py_float (nth 0 row EmptyString) = Some (nth 0 r NaN).
Proof.
  destruct row as [|tok rest]; intros H Hlen; [cbn in Hlen; lia|].
  cbn [floats_of_row] in H.
  destruct (py_float tok) as [x|] eqn:Ex; [|discriminate].
  destruct (floats_of_row rest); [|discriminate].
  injection H as <-. exact Ex.
Qed.

Lemma take_columns_first (m : list (list pyfloat)) (i : nat) (key : string)
    (ks : list string) (cols : list (string * list pyfloat)) :
  take_columns m i (key :: ks) = Ret cols ->
  exists rest, cols = (key, map (fun row => nth i row NaN) m) :: rest.
Proof.
  cbn [take_columns]. unfold column.
  destruct (i <? width m)%nat; [|discriminate]. cbn [obind].
  destruct (take_columns m (S i) ks) as [rest|]; [|discriminate]. cbn [obind].
  intros [= <-]. exists rest. reflexivity.
Qed.

Lemma altitude_in_metres (col : list pyfloat) (rest : list (string * list pyfloat)) :
  lookup "altitude" (to_mksa (("altitude", col) :: rest))
  = Ret (map (fun x => py_scale x e3) col).
Proof. reflexivity. Qed.

(** C3 (as amended): the altitude column of a returned table has one entry
    per accepted line of the file, in the order of the lines: 1000 times the
    number its first token stands for.  The parser compares no two
    altitudes. *)
Theorem altitude_column_follows_the_lines
    (fs : files) (filepath : string) (table : ProfileTable) :
  extract_iri_profile_data fs filepath = Ret (Some table) ->
  exists content alt,
    fs filepath = Some content
    /\ lookup "altitude" (columns table) = Ret alt
    /\ Forall2 (fun row a => exists H, py_float (nth 0 row EmptyString) = Some H
                                       /\ a = py_scale H e3)
               (scan_lines (split_on newline content)) alt.
Proof.
  unfold extract_iri_profile_data.
  destruct (fs filepath) as [content|]; [|discriminate].
  destruct (endswith filepath "txt"); [|discriminate]. cbn [negb].
  destruct (header_time (split_on newline content)) as [[ts|]|]; cbn [obind];
    try discriminate.
  pose proof (scan_lines_rows (split_on newline content)) as Hrows.
  destruct (scan_lines (split_on newline content)) as [|row0 rows] eqn:Escan;
    [discriminate|].
  unfold np_array_float.
  destruct (rectangular (row0 :: rows)); [|discriminate].
  destruct (floats_of_rows (row0 :: rows)) as [m|] eqn:Em; [|discriminate].
  cbn [obind].
  destruct (take_columns m 0 keys) as [cols|] eqn:Ecols; [|discriminate].
  cbn [obind]. intros [= <-].
  destruct (take_columns_first m 0 _ _ cols Ecols) as [rest ->].
  exists content. eexists. split; [reflexivity|].
  split; [apply altitude_in_metres|].
  rewrite Escan.
  apply floats_of_rows_each in Em.
  clear Ecols Escan. revert Hrows.
  induction Em as [|row r rows' m' Hr _ IH]; intros Hrows; [constructor|].
  inversion Hrows as [|? ? [Hlen _] Hrest]; subst.
  cbn [map]. constructor; [|apply IH; exact Hrest].
  exists (nth 0 r NaN). split; [|reflexivity].
  apply floats_of_row_first; [exact Hr|lia].
Qed.

End TableProperties.

Definition header_42 : string :=
  "yyyy/mmdd(or -ddd)/hh.h):2012/ -42/10.0UT  geog Lat/Long/Alt=  35.0/ 135.0/ 100.0".

(** Three lines of preamble, then the header on the fourth line. *)
Definition report (header : string) (data_lines : list string) : string :=
  "IRI model output" ++ line_break ++ line_break ++ line_break
  ++ header ++ line_break ++ String.concat line_break data_lines.

Definition row_200 : string :=
  "  200.0 15105 0.012 1030 3869 3869  23   8 900  68   0   0  -1  39.7  63".
Definition row_100 : string :=
  "  100.0 15105 0.012 1030 3869 3869 123   8 900  68   0   0  -1  39.7  63".
Definition row_short : string :=
  "  300.0 15105 0.012 1030 3869 3869  23   8 900  68   0   0".
Definition row_dashes : string :=
  "  400.0 15105 0.012 1030 3869 3869  23   8 900  68   0   0  -1  ---  63".

Definition one_file (text : string) : files := write_file "profile.txt" text no_files.

Definition table_of (r : outcome (option ProfileTable)) : ProfileTable :=
  match r with
  | Ret (Some table) => table
  | _ => mk_table EmptyString NaN []
  end.

(** The table parsed from a report whose two data lines come in descending
    altitude. *)
Definition descending_table : ProfileTable :=
  Eval vm_compute in
    table_of (extract_iri_profile_data (ext := demo_ext)
                (one_file (report header_42 [row_200; row_100])) "profile.txt").

Lemma altitude_column_follows_the_lines_witness :
  exists content alt,
    one_file (report header_42 [row_200; row_100]) "profile.txt" = Some content
    /\ lookup "altitude" (columns descending_table) = Ret alt
    /\ Forall2 (fun row a => exists H, dec_float (nth 0 row EmptyString) = Some H
                                       /\ a = py_scale H e3)
               (scan_lines (ext := demo_ext) (split_on newline content)) alt.
Proof.
  apply (altitude_column_follows_the_lines (ext := demo_ext)
           (one_file (report header_42 [row_200; row_100])) "profile.txt"
           descending_table).
  vm_compute. reflexivity.
Defined.

(** C3 fails as stated: a report whose data lines come with altitudes 200
    and then 100 is parsed into a table whose altitude column is 200000,
    100000; a report that repeats a line is parsed into a table that repeats
    the altitude.  Neither is reported. *)
Lemma disordered_altitudes_are_returned :
  (exists table,
      extract_iri_profile_data (ext := demo_ext)
        (one_file (report header_42 [row_200; row_100])) "profile.txt"
      = Ret (Some table)
      /\ lookup "altitude" (columns table)
         = Ret [Fin (2000000 # 10); Fin (1000000 # 10)]
      /\ strictly_increasing [Fin (2000000 # 10); Fin (1000000 # 10)] = false)
  /\ (exists table,
        extract_iri_profile_data (ext := demo_ext)
          (one_file (report header_42 [row_100; row_100])) "profile.txt"
        = Ret (Some table)
        /\ lookup "altitude" (columns table)
           = Ret [Fin (1000000 # 10); Fin (1000000 # 10)]
        /\ strictly_increasing [Fin (1000000 # 10); Fin (1000000 # 10)] = false).
Proof.
  split; eexists; (split; [vm_compute; reflexivity|]); split; reflexivity.
Qed.

Lemma extract_raises_on_malformed_rows_witness :
  (exists e,
      extract_iri_profile_data (ext := demo_ext)
        (one_file (report header_42 [row_200; row_dashes])) "profile.txt" = Raise e
      /\ (e = ValueError \/ e = IndexError))
  /\ (exists e,
        extract_iri_profile_data (ext := demo_ext)
          (one_file (report header_42 [row_short])) "profile.txt" = Raise e
        /\ (e = ValueError \/ e = IndexError)).
Proof.
  split.
  - apply (extract_raises_on_malformed_rows (ext := demo_ext)
             (one_file (report header_42 [row_200; row_dashes])) "profile.txt"
             (report header_42 [row_200; row_dashes]) "2012-02-11 10:00:00").
    + reflexivity.
    + reflexivity.
    + vm_compute. reflexivity.
    + vm_compute. discriminate.
    + left. exists (split_ws row_dashes), "---".
      split; [vm_compute; auto|]. split; [vm_compute; auto 20|reflexivity].
  - apply (extract_raises_on_malformed_rows (ext := demo_ext)
             (one_file (report header_42 [row_short])) "profile.txt"
             (report header_42 [row_short]) "2012-02-11 10:00:00").
    + reflexivity.
    + reflexivity.
    + vm_compute. reflexivity.
    + vm_compute. discriminate.
    + right. right. split; [vm_compute; reflexivity|vm_compute; lia].
Defined.

Section HeaderProperties.

Context {ext : Externals}.

Lemma digit_is_not_space (c : ascii) : is_digit c = true -> is_space c = false.
Proof.
  destruct c as [[|] [|] [|] [|] [|] [|] [|] [|]]; intros H;
    try discriminate H; reflexivity.
Qed.

Lemma digit_is_not_minus (c : ascii) : is_digit c = true -> Ascii.eqb c "-" = false.
Proof.
  destruct c as [[|] [|] [|] [|] [|] [|] [|] [|]]; intros H;
    try discriminate H; reflexivity.
Qed.

Lemma digit_value_range (c : ascii) : is_digit c = true -> 0 <= digit_value c <= 9.
Proof.
  destruct c as [[|] [|] [|] [|] [|] [|] [|] [|]]; intros H;
    try discriminate H; vm_compute; split; discriminate.
Qed.

(** ** The header pattern *)

Lemma span_sound (p : ascii -> bool) (s : string) :
  forall a b, span p s = (a, b) -> s = a ++ b /\ all_chars p a = true /\ stops p b.
Proof.
  induction s as [|c r IH]; intros a b H.
  - injection H as <- <-. repeat split.
  - cbn [span] in H. destruct (p c) eqn:Hc.
    + destruct (span p r) as [a' b'] eqn:E. injection H as <- <-.
      destruct (IH a' b' eq_refl) as (-> & Ha & Hb).
      repeat split; [|exact Hb]. cbn [all_chars]. rewrite Hc, Ha. reflexivity.
    + injection H as <- <-. repeat split. exact Hc.
Qed.

Lemma span_complete (p : ascii -> bool) (a b : string) :
  all_chars p a = true -> stops p b -> span p (a ++ b) = (a, b).
Proof.
  induction a as [|c r IH]; intros Ha Hb.
  - destruct b as [|c b']; [reflexivity|]. cbn in *. rewrite Hb. reflexivity.
  - cbn [all_chars] in Ha. apply andb_prop in Ha. destruct Ha as [Hc Hr].
    cbn [append span]. rewrite Hc, (IH Hr Hb). reflexivity.
Qed.

Lemma is_empty_false (s : string) : is_empty s = false <-> s <> "".
Proof. destruct s; cbn; split; congruence. Qed.

Lemma match_header_at_sound (s year_str doy_str ut : string) :
  match_header_at s = Some (year_str, doy_str, ut) -> header_shape s year_str doy_str ut.
Proof.
  unfold match_header_at.
  destruct s as [|y1 [|y2 [|y3 [|y4 [|slash r]]]]]; try discriminate.
  destruct (is_digit y1 && is_digit y2 && is_digit y3 && is_digit y4
            && Ascii.eqb slash "/") eqn:Hc; [|discriminate].
  apply andb_prop in Hc. destruct Hc as [Hc Hs]. apply Ascii.eqb_eq in Hs. subst slash.
  destruct (span is_space r) as [ws1 r1] eqn:E1. cbn [snd].
  destruct (span_sound _ _ _ _ E1) as (-> & Hws1 & _).
  assert (K : forall sign r2,
             (sign = "" \/ sign = "-") -> r1 = sign ++ r2 ->
             (let '(digits, r) := span is_digit r2 in
              if is_empty digits then None
              else match r with
                   | String c r =>
                       if Ascii.eqb c "/" then
                         let r := snd (span is_space r) in
                         let '(ut, r) := span is_hour_char r in
                         if is_empty ut then None
                         else match r with
                              | String u (String t _) =>
                                  if Ascii.eqb u "U" && Ascii.eqb t "T"
                                  then Some (String y1 (String y2 (String y3
                                               (String y4 EmptyString))),
                                             sign ++ digits, ut)
                                  else None
                              | _ => None
                              end
                       else None
                   | EmptyString => None
                   end) = Some (year_str, doy_str, ut) ->
             header_shape (String y1 (String y2 (String y3 (String y4 (String "/" (ws1 ++ r1))))))
                          year_str doy_str ut).
  { intros sign r2 Hsign -> H.
    destruct (span is_digit r2) as [digits r3] eqn:E2.
    destruct (span_sound _ _ _ _ E2) as (-> & Hd & _).
    destruct (is_empty digits) eqn:Hne; [discriminate|].
    destruct r3 as [|c r4]; [discriminate|].
    destruct (Ascii.eqb c "/") eqn:Hsl; [|discriminate].
    apply Ascii.eqb_eq in Hsl. subst c.
    destruct (span is_space r4) as [ws2 r5] eqn:E3. cbn [snd] in H.
    destruct (span_sound _ _ _ _ E3) as (-> & Hws2 & _).
    destruct (span is_hour_char r5) as [ut' r6] eqn:E4.
    destruct (span_sound _ _ _ _ E4) as (-> & Hut & _).
    destruct (is_empty ut') eqn:Hune; [discriminate|].
    destruct r6 as [|u [|t r7]]; try discriminate.
    destruct (Ascii.eqb u "U" && Ascii.eqb t "T") eqn:HUT; [|discriminate].
    apply andb_prop in HUT. destruct HUT as [HU HT].
    apply Ascii.eqb_eq in HU, HT. subst u t.
    injection H as <- <- <-.
    exists ws1, sign, digits, ws2, r7.
    split; [|split; [reflexivity|split; [|split; [exact Hws1|split; [exact Hsign|
      split; [apply is_empty_false; exact Hne|split; [exact Hd|split; [exact Hws2|
      split; [apply is_empty_false; exact Hune|split; [exact Hut|reflexivity]]]]]]]]]].
    - reflexivity.
    - apply andb_prop in Hc. destruct Hc as [Hc H4].
      apply andb_prop in Hc. destruct Hc as [Hc H3].
      apply andb_prop in Hc. destruct Hc as [H1 H2].
      cbn [all_chars]. rewrite H1, H2, H3, H4. reflexivity. }
  destruct r1 as [|c r1'].
  - cbn. discriminate.
  - destruct (Ascii.eqb c "-") eqn:Hm.
    + apply Ascii.eqb_eq in Hm. subst c.
      apply (K "-" r1'); [right; reflexivity|reflexivity].
    + apply (K "" (String c r1')); [left; reflexivity|reflexivity].
Qed.

Lemma hour_char_is_not_space (c : ascii) : is_hour_char c = true -> is_space c = false.
Proof.
  destruct c as [[|] [|] [|] [|] [|] [|] [|] [|]]; intros H;
    try discriminate H; reflexivity.
Qed.

Lemma match_header_at_complete (s year_str doy_str ut : string) :
  header_shape s year_str doy_str ut -> match_header_at s = Some (year_str, doy_str, ut).
Proof.
  intros (ws1 & sign & digits & ws2 & rest & -> & Hlen & Hy & Hws1 & Hsign & Hdne & Hd
          & Hws2 & Hune & Hut & ->).
  destruct year_str as [|y1 [|y2 [|y3 [|y4 [|y5 r]]]]]; try discriminate Hlen.
  cbn [all_chars] in Hy.
  apply andb_prop in Hy. destruct Hy as [H1 Hy].
  apply andb_prop in Hy. destruct Hy as [H2 Hy].
  apply andb_prop in Hy. destruct Hy as [H3 Hy].
  apply andb_prop in Hy. destruct Hy as [H4 _].
  destruct digits as [|d0 digits']; [contradiction|].
  destruct ut as [|u0 ut']; [contradiction|].
  pose proof Hd as Hd0. cbn [all_chars] in Hd0. apply andb_prop in Hd0. destruct Hd0 as [Hd0 _].
  pose proof Hut as Hu0. cbn [all_chars] in Hu0. apply andb_prop in Hu0. destruct Hu0 as [Hu0 _].
  set (t4 := "UT" ++ rest).
  set (t3 := String u0 ut' ++ t4).
  set (t2 := ws2 ++ t3).
  set (t1 := String d0 digits' ++ "/" ++ t2).
  assert (E1 : span is_space (ws1 ++ sign ++ t1) = (ws1, sign ++ t1)).
  { apply span_complete; [exact Hws1|].
    destruct Hsign as [-> | ->]; cbn; [apply digit_is_not_space; exact Hd0|reflexivity]. }
  assert (E2 : span is_digit t1 = (String d0 digits', "/" ++ t2)).
  { apply span_complete; [exact Hd|reflexivity]. }
  assert (E3 : span is_space t2 = (ws2, t3)).
  { apply span_complete; [exact Hws2|]. cbn. apply hour_char_is_not_space. exact Hu0. }
  assert (E4 : span is_hour_char t3 = (String u0 ut', t4)).
  { apply span_complete; [exact Hut|reflexivity]. }
  change (String y1 (String y2 (String y3 (String y4 ""))) ++ "/" ++ ws1 ++ sign ++ t1)
    with (String y1 (String y2 (String y3 (String y4 (String "/" (ws1 ++ sign ++ t1)))))).
  unfold match_header_at. rewrite H1, H2, H3, H4, E1.
  cbn [andb Ascii.eqb Bool.eqb snd].
  assert (Et1 : t1 = String d0 (digits' ++ "/" ++ t2)) by reflexivity.
  destruct Hsign as [-> | ->].
  - change ("" ++ t1) with t1. rewrite Et1 at 1. rewrite (digit_is_not_minus d0 Hd0).
    rewrite E2.
    change ("/" ++ t2) with (String "/" t2).
    cbn [is_empty Ascii.eqb Bool.eqb]. rewrite E3. cbn [snd]. rewrite E4.
    reflexivity.
  - change ("-" ++ t1) with (String "-" t1).
    cbn [Ascii.eqb Bool.eqb]. rewrite E2.
    change ("/" ++ t2) with (String "/" t2).
    cbn [is_empty Ascii.eqb Bool.eqb]. rewrite E3. cbn [snd]. rewrite E4.
    reflexivity.
Qed.

(** The matcher finds exactly the prefixes of the pattern's shape. *)
Lemma match_header_at_iff (s year_str doy_str ut : string) :
  match_header_at s = Some (year_str, doy_str, ut) <-> header_shape s year_str doy_str ut.
Proof. split; [apply match_header_at_sound|apply match_header_at_complete]. Qed.

Lemma header_search_here (s : string) (g : string * string * string) :
  match_header_at s = Some g -> header_search s = Some g.
Proof. intros H. destruct s; cbn [header_search]; rewrite H; reflexivity. Qed.

Lemma header_search_next (c : ascii) (r : string) :
  match_header_at (String c r) = None ->
  header_search (String c r) = header_search r.
Proof. intros H. cbn [header_search]. rewrite H. reflexivity. Qed.

(** [header_search] returns the groups of the leftmost match. *)
Lemma header_search_leftmost (s : string) (g : string * string * string) :
  header_search s = Some g <->
  exists pre suf,
    s = pre ++ suf /\ match_header_at suf = Some g
    /\ (forall pre' suf', s = pre' ++ suf' ->
                          (String.length pre' < String.length pre)%nat ->
                          match_header_at suf' = None).
Proof.
  split.
  - induction s as [|c r IH]; intros H.
    + cbn [header_search] in H.
      destruct (match_header_at EmptyString) as [g0|] eqn:E; [|discriminate].
      exists EmptyString, EmptyString. repeat split; [congruence|].
      intros pre' suf' _ Hlt. cbn in Hlt. lia.
    + destruct (match_header_at (String c r)) as [g0|] eqn:E.
      * rewrite (header_search_here _ _ E) in H.
        exists EmptyString, (String c r). repeat split; [congruence|].
        intros pre' suf' _ Hlt. cbn in Hlt. lia.
      * rewrite (header_search_next _ _ E) in H.
        destruct (IH H) as (pre & suf & -> & Hm & Hleft).
        exists (String c pre), suf. repeat split; [exact Hm|].
        intros pre' suf' Heq Hlt. destruct pre' as [|c' pre''].
        -- cbn [append] in Heq. subst suf'. exact E.
        -- cbn [append] in Heq. injection Heq as _ Heq.
           apply (Hleft pre'' suf' Heq). cbn [String.length] in Hlt. lia.
  - intros (pre & suf & -> & Hm & Hleft).
    induction pre as [|c pre IH].
    + apply header_search_here. exact Hm.
    + cbn [append]. rewrite header_search_next.
      * apply IH. intros pre' suf' Heq Hlt.
        apply (Hleft (String c pre') suf'); [cbn [append]; rewrite Heq; reflexivity|].
        cbn [String.length]. lia.
      * apply (Hleft EmptyString (String c (pre ++ suf))); [reflexivity|].
        cbn [String.length]. lia.
Qed.

Lemma digits_value_nonneg (d : string) :
  forall acc, 0 <= acc -> all_digits d = true -> 0 <= digits_value acc d.
Proof.
  induction d as [|c r IH]; intros acc Hacc Hd; [exact Hacc|].
  cbn [all_digits] in Hd. apply andb_prop in Hd. destruct Hd as [Hc Hr].
  cbn [digits_value]. apply IH; [|exact Hr].
  pose proof (digit_value_range c Hc). lia.
Qed.

Lemma strip_digits (d : string) : all_digits d = true -> strip d = d.
Proof.
  intros Hd. unfold strip.
  assert (Hl : lstrip d = d).
  { destruct d as [|c r]; [reflexivity|].
    cbn [all_digits] in Hd. apply andb_prop in Hd. destruct Hd as [Hc _].
    cbn [lstrip]. rewrite (digit_is_not_space c Hc). reflexivity. }
  rewrite Hl. clear Hl.
  induction d as [|c r IH]; [reflexivity|].
  cbn [all_digits] in Hd. apply andb_prop in Hd. destruct Hd as [Hc Hr].
  cbn [rstrip]. rewrite (IH Hr), (digit_is_not_space c Hc). reflexivity.
Qed.

Lemma lstrip_minus_digits (d : string) : all_digits d = true -> lstrip_minus d = d.
Proof.
  destruct d as [|c r]; [reflexivity|]. intros Hd.
  cbn [all_digits] in Hd. apply andb_prop in Hd. destruct Hd as [Hc _].
  cbn [lstrip_minus]. rewrite (digit_is_not_minus c Hc). reflexivity.
Qed.

Lemma span_digits (s : string) :
  forall a b, span is_digit s = (a, b) -> all_digits a = true.
Proof.
  induction s as [|c r IH]; intros a b H.
  - injection H as <- <-. reflexivity.
  - cbn [span] in H. destruct (is_digit c) eqn:Hc.
    + destruct (span is_digit r) as [a' b'] eqn:E. injection H as <- <-.
      cbn [all_digits]. rewrite Hc, (IH a' b' eq_refl). reflexivity.
    + injection H as <- <-. reflexivity.
Qed.

(** The groups of a match: a year of four digits, and a day of year that is
    a non-empty run of digits once its sign is dropped. *)
Definition groups_well_formed (year_str doy_str : string) : Prop :=
  all_digits year_str = true /\ String.length year_str = 4%nat
  /\ all_digits (lstrip_minus doy_str) = true
  /\ is_empty (lstrip_minus doy_str) = false.

Lemma match_header_at_groups (s year_str doy_str ut : string) :
  match_header_at s = Some (year_str, doy_str, ut) ->
  groups_well_formed year_str doy_str.
Proof.
  unfold match_header_at.
  destruct s as [|y1 [|y2 [|y3 [|y4 [|slash r]]]]]; try discriminate.
  destruct (is_digit y1 && is_digit y2 && is_digit y3 && is_digit y4
            && Ascii.eqb slash "/") eqn:Hc; [|discriminate].
  apply andb_prop in Hc. destruct Hc as [Hc _].
  apply andb_prop in Hc. destruct Hc as [Hc H0].
  apply andb_prop in Hc. destruct Hc as [Hc H1].
  apply andb_prop in Hc. destruct Hc as [Hc H2].
  assert (Hsign : forall (sign digits rest : string),
             (sign = "-" \/ sign = "") ->
             span is_digit rest = (digits, snd (span is_digit rest)) ->
             is_empty digits = false ->
             groups_well_formed (String y1 (String y2 (String y3 (String y4 EmptyString))))
                                (sign ++ digits)).
  { intros sign digits rest Hs Hspan Hne.
    pose proof (span_digits _ _ _ Hspan) as Hd.
    repeat split.
    - cbn [all_digits]. rewrite Hc, H2, H1, H0. reflexivity.
    - destruct Hs as [-> | ->]; cbn [append lstrip_minus Ascii.eqb Bool.eqb];
        rewrite (lstrip_minus_digits _ Hd); exact Hd.
    - destruct Hs as [-> | ->]; cbn [append lstrip_minus Ascii.eqb Bool.eqb];
        rewrite (lstrip_minus_digits _ Hd); exact Hne. }
  set (r1 := snd (span is_space r)).
  destruct r1 as [|c r'].
  - cbn. discriminate.
  - destruct (Ascii.eqb c "-").
    + destruct (span is_digit r') as [digits r2] eqn:Es.
      destruct (is_empty digits) eqn:Hne; [discriminate|].
      destruct r2 as [|c2 r3]; [discriminate|].
      destruct (Ascii.eqb c2 "/"); [|discriminate].
      destruct (span is_hour_char (snd (span is_space r3))) as [ut' r4].
      destruct (is_empty ut'); [discriminate|].
      destruct r4 as [|u [|t r5]]; try discriminate.
      destruct (Ascii.eqb u "U" && Ascii.eqb t "T"); [|discriminate].
      intros [= <- <- <-]. apply (Hsign "-" digits r'); [left; reflexivity| |exact Hne].
      rewrite Es. reflexivity.
    + destruct (span is_digit (String c r')) as [digits r2] eqn:Es.
      destruct (is_empty digits) eqn:Hne; [discriminate|].
      destruct r2 as [|c2 r3]; [discriminate|].
      destruct (Ascii.eqb c2 "/"); [|discriminate].
      destruct (span is_hour_char (snd (span is_space r3))) as [ut' r4].
      destruct (is_empty ut'); [discriminate|].
      destruct r4 as [|u [|t r5]]; try discriminate.
      destruct (Ascii.eqb u "U" && Ascii.eqb t "T"); [|discriminate].
      intros [= <- <- <-].
      apply (Hsign "" digits (String c r')); [right; reflexivity| |exact Hne].
      rewrite Es. reflexivity.
Qed.

Lemma header_search_groups (s year_str doy_str ut : string) :
  header_search s = Some (year_str, doy_str, ut) ->
  groups_well_formed year_str doy_str.
Proof.
  induction s as [|c r IH]; cbn [header_search].
  - destruct (match_header_at EmptyString) as [g|] eqn:E; [|discriminate].
    intros [= ->]. apply (match_header_at_groups _ _ _ _ E).
  - destruct (match_header_at (String c r)) as [g|] eqn:E.
    + intros [= ->]. apply (match_header_at_groups _ _ _ _ E).
    + exact IH.
Qed.

Lemma four_digits_bound (year_str : string) :
  all_digits year_str = true -> String.length year_str = 4%nat ->
  0 <= digits_value 0 year_str <= 9999.
Proof.
  destruct year_str as [|a [|b [|c [|d [|e r]]]]]; try discriminate.
  cbn [all_digits]. intros H _.
  apply andb_prop in H. destruct H as [Ha H].
  apply andb_prop in H. destruct H as [Hb H].
  apply andb_prop in H. destruct H as [Hc H].
  apply andb_prop in H. destruct H as [Hd _].
  pose proof (digit_value_range a Ha). pose proof (digit_value_range b Hb).
  pose proof (digit_value_range c Hc). pose proof (digit_value_range d Hd).
  cbn [digits_value]. lia.
Qed.

Lemma days_before_year_nonneg (y : Z) : 1 <= y -> 0 <= days_before_year y.
Proof.
  unfold days_before_year. intros H. cbv zeta.
  assert (Hp : 0 <= y - 1) by lia.
  pose proof (Z.div_pos (y - 1) 4 Hp ltac:(lia)).
  pose proof (Z.div_pos (y - 1) 400 Hp ltac:(lia)).
  assert ((y - 1) / 100 <= y - 1) by (apply Z.div_le_upper_bound; lia).
  lia.
Qed.

(** The calendar: an ordinal, taken to a date and back, is unchanged. *)
Lemma month_of_yday_sound (y n : Z) :
  0 <= n ->
  let '(m, d) := month_of_yday y (map Z.of_nat (seq 1 11)) n in
  days_before_month y m + d = n + 1 /\ 1 <= m <= 12 /\ 1 <= d.
Proof.
  intros Hn. cbn [seq map Z.of_nat Pos.of_succ_nat Pos.succ month_of_yday].
  unfold days_before_month, days_in_month.
  destruct (is_leap y) eqn:E; cbn -[Z.add Z.sub Z.ltb is_leap];
  repeat match goal with
         | |- context [if (?a <? ?b) then _ else _] =>
             destruct (Z.ltb_spec a b)
         end;
  repeat match goal with
         | |- context [Z.to_nat (?a - 1)] =>
             let v := eval vm_compute in (Z.to_nat (a - 1)) in
             change (Z.to_nat (a - 1)) with v
         end;
  cbn [seq map Z.of_nat days_before_month_aux Pos.of_succ_nat Pos.succ];
  unfold days_in_month; cbn [Z.eqb Pos.eqb orb]; rewrite ?E; lia.
Qed.

Lemma is_leap_spec (y : Z) :
  is_leap y = true <-> (y mod 4 = 0 /\ (y mod 100 <> 0 \/ y mod 400 = 0)).
Proof.
  unfold is_leap. rewrite andb_true_iff, orb_true_iff, negb_true_iff.
  rewrite !Z.eqb_eq, Z.eqb_neq. tauto.
Qed.

Lemma days_before_december (y : Z) :
  days_before_month y 12 = if is_leap y then 335 else 334.
Proof.
  unfold days_before_month. change (Z.to_nat (12 - 1)) with 11%nat.
  cbn [seq map Z.of_nat days_before_month_aux Pos.of_succ_nat Pos.succ].
  unfold days_in_month. cbn [Z.eqb Pos.eqb orb].
  destruct (is_leap y); reflexivity.
Qed.

Lemma ord2ymd_ymd2ord (n : Z) :
  1 <= n -> let '(y, m, d) := ord2ymd n in ymd2ord y m d = n.
Proof.
  intros Hn. unfold ord2ymd. cbv zeta.
  set (n0 := n - 1).
  set (n400 := n0 / 146097). set (r400 := n0 mod 146097).
  set (n100 := r400 / 36524). set (r100 := r400 mod 36524).
  set (n4 := r100 / 1461). set (r4 := r100 mod 1461).
  set (n1 := r4 / 365). set (r1 := r4 mod 365).
  assert (H0 : 0 <= n0) by (unfold n0; lia).
  assert (E400 : n0 = 146097 * n400 + r400 /\ 0 <= r400 < 146097)
    by (unfold n400, r400; split; [apply Z.div_mod; lia|apply Z.mod_pos_bound; lia]).
  assert (E100 : r400 = 36524 * n100 + r100 /\ 0 <= r100 < 36524)
    by (unfold n100, r100; split; [apply Z.div_mod; lia|apply Z.mod_pos_bound; lia]).
  assert (E4 : r100 = 1461 * n4 + r4 /\ 0 <= r4 < 1461)
    by (unfold n4, r4; split; [apply Z.div_mod; lia|apply Z.mod_pos_bound; lia]).
  assert (E1 : r4 = 365 * n1 + r1 /\ 0 <= r1 < 365)
    by (unfold n1, r1; split; [apply Z.div_mod; lia|apply Z.mod_pos_bound; lia]).
  assert (B400 : 0 <= n400) by (unfold n400; apply Z.div_pos; lia).
  assert (B100 : 0 <= n100 <= 4) by lia.
  assert (B4 : 0 <= n4 <= 24) by lia.
  assert (B1 : 0 <= n1 <= 4) by lia.
  clearbody n400 r400 n100 r100 n4 r4 n1 r1.
  destruct ((n1 =? 4) || (n100 =? 4)) eqn:Ecase.
  - apply orb_true_iff in Ecase. rewrite !Z.eqb_eq in Ecase.
    unfold ymd2ord, days_before_year. rewrite days_before_december.
    set (y := n400 * 400 + 1 + n100 * 100 + n4 * 4 + n1 - 1).
    assert (Hleap : is_leap y = true).
    { apply is_leap_spec. unfold y. destruct Ecase as [-> | ->].
      - assert (n4 <= 23) by lia.
        split; [|left]; Z.div_mod_to_equations; lia.
      - assert (n4 = 0) by lia. assert (n1 = 0) by lia. subst.
        split; [|right]; Z.div_mod_to_equations; lia. }
    rewrite Hleap. cbv zeta.
    unfold y. destruct Ecase as [-> | ->]; Z.div_mod_to_equations; lia.
  - apply orb_false_iff in Ecase. rewrite !Z.eqb_neq in Ecase.
    pose proof (month_of_yday_sound (n400 * 400 + 1 + n100 * 100 + n4 * 4 + n1) r1
                  ltac:(lia)) as Hm.
    destruct (month_of_yday (n400 * 400 + 1 + n100 * 100 + n4 * 4 + n1)
                (map Z.of_nat (seq 1 11)) r1) as [m d].
    destruct Hm as (Hm & _ & _).
    unfold ymd2ord, days_before_year. cbv zeta. Z.div_mod_to_equations. lia.
Qed.

Lemma midnight_of_seconds (n : Z) :
  1 <= n / 86400 ->
  seconds_of_datetime (at_midnight (datetime_of_seconds n)) = n / 86400 * 86400.
Proof.
  intros Hn. unfold datetime_of_seconds.
  pose proof (ord2ymd_ymd2ord (n / 86400) Hn) as Hrt.
  destruct (ord2ymd (n / 86400)) as [[y m] d]. cbv zeta.
  unfold at_midnight, seconds_of_datetime. cbn [year month day hour minute second].
  rewrite Hrt. lia.
Qed.

Lemma seconds_of_jan1 (y : Z) :
  seconds_of_datetime (mk_datetime y 1 1 0 0 0) = (days_before_year y + 1) * 86400.
Proof.
  unfold seconds_of_datetime, ymd2ord. cbn [year month day hour minute second].
  change (days_before_month y 1) with 0. lia.
Qed.

Lemma timedelta_days (d : Z) :
  Z.abs d <= max_delta_days -> timedelta d 0 0 0 = Ret (d * 86400).
Proof.
  intros H. unfold timedelta.
  replace (d * 86400 + 0 * 3600 + 0 * 60 + 0) with (d * 86400) by lia.
  rewrite Z.div_mul by lia.
  apply Z.leb_le in H. rewrite H. reflexivity.
Qed.

Lemma timedelta_clock (hours minutes seconds : Z) :
  Z.abs ((hours * 3600 + minutes * 60 + seconds) / 86400) <= max_delta_days ->
  timedelta 0 hours minutes seconds = Ret (hours * 3600 + minutes * 60 + seconds).
Proof.
  intros H. unfold timedelta.
  replace (0 * 86400 + hours * 3600 + minutes * 60 + seconds)
    with (hours * 3600 + minutes * 60 + seconds) by lia.
  apply Z.leb_le in H. rewrite H. reflexivity.
Qed.

Lemma datetime_add_in_range (dt : datetime) (delta : Z) :
  in_datetime_range (seconds_of_datetime dt + delta) ->
  datetime_add dt delta = Ret (datetime_of_seconds (seconds_of_datetime dt + delta)).
Proof.
  intros [Hlo Hhi]. unfold datetime_add.
  apply Z.leb_le in Hlo, Hhi. rewrite Hlo, Hhi. reflexivity.
Qed.


End HeaderProperties.



(** With binary64 floats the hour token [0.00125] resolves to 00:00:04: the
    float nearest to 0.00125 lies above it, but the two products by 60.0
    round to 4.5 exactly, which goes to the even second.  Exact arithmetic
    on the same float would give 5 seconds: the rounding of the products
    decides the second. *)
Lemma rounding_decides_the_second :
  resolve_datetime (ext := binary64_ext) "2012" "-42" "0.00125"
  = Ret (mk_datetime 2012 2 11 0 0 4)
  /\ py_float (Externals := binary64_ext) "0.00125" = Some (Fin (binary64 (1 # 800)))
  /\ (1 # 800 < binary64 (1 # 800))%Q
  /\ seconds_of (ext := binary64_ext) (binary64 (1 # 800)) = 4
  /\ seconds_of (ext := demo_ext) (binary64 (1 # 800)) = 5.
Proof. repeat split; vm_compute; reflexivity. Qed.

(* ================================================================== *)
(** * Properties of [getdata.py] *)
(* ================================================================== *)

(** A session that answers with a two-line profile, and one in which the
    browser does not even start. *)
Definition good_session : session := cooperative (report header_42 [row_100; row_200]).

Definition dead_session : session :=
  mk_session false true (fun _ => true) RadioFound true true
             (fun _ => false) (fun _ => BtnEnabled) true true true true
             None (fun _ => None).

(** One coordinate triple per row: r = 300, mlat = 35, mlt = 135. *)
Definition triples (n : nat) : ndarray :=
  mk_ndarray [n; 3%nat]
             (flat_map (fun _ => [Fin (300 # 1); Fin (35 # 1); Fin (135 # 1)]) (seq 0 n)).

Section AggregatorProperties.

Context {ext : Externals}.

Lemma bind_inv {A B : Type} (m : M A) (k : A -> M B) (w w' : world) (b : B)
    (t : list event) :
  bind m k w = (Ret b, w', t) ->
  exists a w1 t1 t2, m w = (Ret a, w1, t1) /\ k a w1 = (Ret b, w', t2)
                     /\ t = (t1 ++ t2)%list.
Proof.
  unfold bind. destruct (m w) as [[[a|e] w1] t1]; [|discriminate].
  destruct (k a w1) as [[r w2] t2] eqn:Ek. intros [= -> -> <-].
  exists a, w1, t1, t2. repeat split; assumption.
Qed.

(** When [getdata] returns its dictionary, the scratch file is gone. *)
Lemma getdata_success_removes_scratch (times : list pyfloat) (rmlatmlt : ndarray)
    (res_alt : pyfloat) (verbose : bool) (w w' : world)
    (d : list (string * list pyfloat)) (trace : list event) :
  getdata times rmlatmlt res_alt verbose w = (Ret (Some d), w', trace) ->
  w_files w' scratch = None /\ In (Removed scratch) trace.
Proof.
  unfold getdata. intros H.
  apply bind_inv in H. destruct H as (n & w1 & t1 & t2 & _ & H & ->).
  destruct (negb (List.length times =? n)%nat).
  { apply bind_inv in H. destruct H as (? & ? & ? & ? & _ & H & _). discriminate H. }
  apply bind_inv in H. destruct H as (bad & w2 & t3 & t4 & _ & H & ->).
  destruct bad.
  { apply bind_inv in H. destruct H as (? & ? & ? & ? & _ & H & _). discriminate H. }
  apply bind_inv in H. destruct H as (r & w3 & t5 & t6 & _ & H & ->).
  apply bind_inv in H. destruct H as (mlat & w4 & t7 & t8 & _ & H & ->).
  apply bind_inv in H. destruct H as (mlt & w5 & t9 & t10 & _ & H & ->).
  cbv zeta in H.
  apply bind_inv in H. destruct H as (exit & w6 & t11 & t12 & _ & H & ->).
  destruct exit as [dict_return|]; [|discriminate H].
  apply bind_inv in H. destruct H as ([] & w7 & t13 & t14 & Hrm & H & ->).
  apply bind_inv in H. destruct H as ([] & w8 & t15 & t16 & Hsay & H & ->).
  unfold emit in Hsay. injection Hsay as <- <-.
  unfold ret in H. injection H as _ <- <-.
  unfold os_remove in Hrm.
  destruct (w_files w6 scratch); [|discriminate].
  injection Hrm as <- <-. split.
  - cbn [w_files]. unfold remove_file. rewrite String.eqb_refl. reflexivity.
  - do 6 (apply in_or_app; right). apply in_or_app. left. left. reflexivity.
Qed.

(** The shape guard lets every two-dimensional array through, whatever its
    number of columns, and raises on a one-dimensional one. *)
Lemma shape_guard_rank_two (rmlatmlt : ndarray) :
  ndim rmlatmlt = 2%nat -> shape_guard rmlatmlt = Ret false.
Proof. unfold shape_guard. intros ->. reflexivity. Qed.

Lemma shape_guard_rank_one (rmlatmlt : ndarray) :
  ndim rmlatmlt = 1%nat -> shape_guard rmlatmlt = Raise IndexError.
Proof.
  unfold shape_guard, ndim, shape1. destruct (shape rmlatmlt) as [|n [|c rest]];
    try discriminate. reflexivity.
Qed.

(** A parse that returns [None] makes the loop body raise. *)
Lemma record_sample_without_table (fs : files) (time_i alt_i : pyfloat)
    (d : list (string * list pyfloat)) :
  extract_iri_profile_data fs scratch = Ret None ->
  record_sample fs time_i alt_i d = Raise TypeError.
Proof. unfold record_sample. intros ->. reflexivity. Qed.

(** When the lengths differ, the failure is reported and nothing else
    happens: no session is consumed, no file is touched. *)
Lemma getdata_length_mismatch (times : list pyfloat) (rmlatmlt : ndarray)
    (res_alt : pyfloat) (verbose : bool) (w : world) (n : nat) :
  np_len rmlatmlt = Ret n -> List.length times <> n ->
  getdata times rmlatmlt res_alt verbose w
  = (Ret None, w, [DisplayError "The lengths of times and rmlatmlt must be same"]).
Proof.
  intros Hn Hne. unfold getdata, bind, lift. rewrite Hn.
  apply Nat.eqb_neq in Hne. rewrite Hne. reflexivity.
Qed.

End AggregatorProperties.

(** C1 is broken by the code: of two timesteps, the first query succeeds and
    writes the scratch file, the second fails all three attempts; [getdata]
    warns and returns [None], and the scratch file is still there. *)
Lemma scratch_file_survives_failed_query :
  let '(r, w', trace) :=
    getdata (ext := demo_ext) [Fin 0; Fin (60 # 1)] (triples 2) (Fin (50 # 1)) false
            (mk_world no_files [good_session; dead_session; dead_session; dead_session]) in
  r = Ret None
  /\ In (DisplayWarning "run_iri_profile failed") trace
  /\ w_files w' scratch = Some (report header_42 [row_100; row_200])
  /\ ~ In (Removed scratch) trace.
Proof.
  vm_compute. split; [reflexivity|]. split; [auto 30|]. split; [reflexivity|].
  intros H. repeat (destruct H as [H|H]; [discriminate H|]). exact H.
Qed.

(** C6 is broken by the code: a coordinate array of shape (1, 4) passes the
    shape check, and a query is sent; a one-dimensional array makes the
    check itself raise [IndexError]. *)
Lemma four_columns_pass_the_shape_check :
  (let '(r, w', trace) :=
     getdata (ext := demo_ext) [Fin 0]
             (mk_ndarray [1; 4]%nat [Fin (300 # 1); Fin (35 # 1); Fin (135 # 1); Fin (7 # 1)])
             (Fin (50 # 1)) false (mk_world no_files [good_session]) in
   (exists d, r = Ret (Some d))
   /\ In ChromeStarted trace
   /\ ~ In (DisplayError "rmlatmlt shape error") trace)
  /\ getdata (ext := demo_ext) [Fin 0; Fin (60 # 1)]
             (mk_ndarray [2%nat] [Fin (300 # 1); Fin (35 # 1)])
             (Fin (50 # 1)) false (mk_world no_files [good_session])
     = (Raise IndexError, mk_world no_files [good_session], []).
Proof.
  split; [|vm_compute; reflexivity].
  vm_compute. split; [eexists; reflexivity|]. split; [auto 30|].
  intros H. repeat (destruct H as [H|H]; [discriminate H|]). exact H.
Qed.

(** C7 is broken by the code: the query succeeds, the text it saves has no
    time header, the parser returns [None], and [getdata] raises
    [TypeError]; the scratch file stays. *)
Lemma unparsable_result_raises_type_error :
  let '(r, w', trace) :=
    getdata (ext := demo_ext) [Fin 0] (triples 1) (Fin (50 # 1)) false
            (mk_world no_files [cooperative "no profile here"]) in
  r = Raise TypeError
  /\ extract_iri_profile_data (ext := demo_ext) (w_files w') scratch = Ret None
  /\ ~ In (DisplayWarning "run_iri_profile failed") trace.
Proof.
  vm_compute. split; [reflexivity|]. split; [reflexivity|].
  intros H. repeat (destruct H as [H|H]; [discriminate H|]). exact H.
Qed.

(* ================================================================== *)
(** * Further properties of [_downloader.py]: one attempt *)
(* ================================================================== *)

(** A computation that leaves the world as it found it, whether it returns
    or raises. *)
Definition keeps_world {A : Type} (m : M A) : Prop :=
  forall w, snd (fst (m w)) = w.

(** A computation all of whose events satisfy [P]. *)
Definition emits_only (P : event -> Prop) {A : Type} (m : M A) : Prop :=
  forall w, Forall P (snd (m w)).

(** The events the body of the [try] can produce for the query [q]. *)
Definition drive_event (q : query) (timeout : pyfloat) (e : event) : Prop :=
  match e with
  | Print _ => info q = true
  | PageLoadTimeout t => t = timeout
  | Filled name v => In (name, v) (form_values q)
  | Written path => path = output_filename q
  | PageLoaded | RadioClicked | Selected _ _ | PolledErrors | Clicked
  | ForcedSubmit | ResultShown | ResultsRevealed | Fetched _ | Slept _ => True
  | _ => False
  end.

(** How the body of the [try] can end, started in the world [w]: with
    status 0 and the output file written, or with status 1 or an exception
    and the world as it was. *)
Definition attempt_end (q : query) (w : world) (r : outcome Z * world) : Prop :=
  match r with
  | (Ret status, w') =>
      (status = 0
       /\ exists text,
            w' = mk_world (write_file (output_filename q) text (w_files w))
                          (w_sessions w))
      \/ (status = 1 /\ w' = w)
  | (Raise _, w') => w' = w
  end.

(** [s], except for the validation errors the form shows at each poll. *)
Definition with_errors (s : session) (errors : nat -> bool) : session :=
  mk_session (chrome_starts s) (page_loads s) (field_ok s)
             (version_radio s) (time_type_ok s) (coord_type_ok s)
             errors (button s) (click_ok s) (force_ok s)
             (result_appears s) (reveal_ok s) (result_page s) (fetch s).

(** The submission goes through: the button is clicked at the first poll
    that finds it enabled, or the submission is forced after thirty polls
    of a disabled button. *)
Definition submission_goes_through (s : session) : Prop :=
  (exists i, (i < 30)%nat
             /\ (forall j, (j < i)%nat -> button s j = BtnDisabled)
             /\ button s i = BtnEnabled /\ click_ok s = true)
  \/ ((forall j, (j < 30)%nat -> button s j = BtnDisabled) /\ force_ok s = true).

(** Everything up to the reading of the result page goes through. *)
Definition reaches_results (q : query) (s : session) : Prop :=
  chrome_starts s = true /\ page_loads s = true
  /\ (forall name, In name (map fst (form_values q)) -> field_ok s name = true)
  /\ submission_goes_through s
  /\ result_appears s = true /\ reveal_ok s = true.

Section AttemptProperties.

Lemma keeps_ret {A : Type} (a : A) : keeps_world (ret a).
Proof. intros w. reflexivity. Qed.

Lemma keeps_throw {A : Type} (e : exn) : keeps_world (@throw A e).
Proof. intros w. reflexivity. Qed.

Lemma keeps_emit (e : event) : keeps_world (emit e).
Proof. intros w. reflexivity. Qed.

Lemma keeps_say (verbose : bool) (msg : string) : keeps_world (say verbose msg).
Proof. intros w. destruct verbose; reflexivity. Qed.

Lemma keeps_sleep (secs : Q) : keeps_world (sleep secs).
Proof. intros w. reflexivity. Qed.

Lemma keeps_driver_call (ok : bool) : keeps_world (driver_call ok).
Proof. intros w. destruct ok; reflexivity. Qed.

Lemma keeps_bind {A B : Type} (m : M A) (k : A -> M B) :
  keeps_world m -> (forall a, keeps_world (k a)) -> keeps_world (bind m k).
Proof.
  intros Hm Hk w. unfold bind. specialize (Hm w).
  destruct (m w) as [[[a|e] w1] t1]; cbn [fst snd] in Hm; subst w1; [|reflexivity].
  specialize (Hk a w). destruct (k a w) as [[r w2] t2]. exact Hk.
Qed.

Lemma keeps_try {A : Type} (m : M A) (h : exn -> M A) :
  keeps_world m -> (forall e, keeps_world (h e)) -> keeps_world (try_except m h).
Proof.
  intros Hm Hh w. unfold try_except. specialize (Hm w).
  destruct (m w) as [[[a|e] w1] t1]; cbn [fst snd] in Hm; subst w1; [reflexivity|].
  specialize (Hh e w). destruct (h e w) as [[r w2] t2]. exact Hh.
Qed.

Lemma keeps_of_returns {A : Type} (m : M A) (a : A) :
  (forall w, fst (m w) = (Ret a, w)) -> keeps_world m.
Proof. intros H w. rewrite H. reflexivity. Qed.

Lemma keeps_fill_all (s : session) (verbose : bool)
    (fields : list (string * field_value)) :
  keeps_world (fill_all s verbose fields).
Proof.
  induction fields as [|[name value] rest IH]; [apply keeps_ret|].
  cbn [fill_all]. apply keeps_bind; [|intros _; exact IH].
  unfold safe_fill. apply keeps_bind; [apply keeps_driver_call|intros _].
  apply keeps_bind; [apply keeps_emit|intros _; apply keeps_say].
Qed.

Lemma keeps_monitor_submit (s : session) (verbose : bool) (polls : list nat) :
  keeps_world (monitor_submit s verbose polls).
Proof.
  induction polls as [|i rest IH]; cbn [monitor_submit].
  - apply keeps_bind; [apply keeps_say|intros _].
    apply keeps_bind; [apply keeps_driver_call|intros _; apply keeps_emit].
  - destruct (button s i).
    + apply keeps_throw.
    + apply keeps_bind; [apply keeps_sleep|intros _; exact IH].
    + apply keeps_bind; [apply keeps_say|intros _].
      apply keeps_bind; [apply keeps_driver_call|intros _; apply keeps_emit].
Qed.

(** What follows a computation that keeps the world starts in that world. *)
Lemma after_keeping {A B : Type} (Q : outcome B * world -> Prop) (m : M A)
    (k : A -> M B) (w : world) :
  keeps_world m -> (forall e, Q (Raise e, w)) -> (forall a, Q (fst (k a w))) ->
  Q (fst (bind m k w)).
Proof.
  intros Hm Hr Hk. unfold bind. specialize (Hm w).
  destruct (m w) as [[[a|e] w1] t1]; cbn [fst snd] in Hm; subst w1.
  - specialize (Hk a). destruct (k a w) as [[r w2] t2]. exact Hk.
  - apply Hr.
Qed.

Lemma save_result_end (s : session) (q : query) (w : world) :
  attempt_end q w (fst (save_result s q w)).
Proof.
  unfold save_result, save_from_pre, result_not_found, bind, say, emit, write,
    throw, ret.
  destruct (result_page s) as [p|]; [|reflexivity].
  destruct (raw_link p) as [href|], (pre_text p) as [text|];
    try destruct (negb (is_empty href));
    try destruct (fetch s href) as [body|];
    try destruct (100 <? String.length (strip text))%nat;
    destruct (info q); cbn; eauto.
Qed.

Lemma drive_end (s : session) (q : query) (timeout : pyfloat) (w : world) :
  attempt_end q w (fst (drive s q timeout w)).
Proof.
  unfold drive.
  apply (after_keeping (attempt_end q w)); [apply keeps_emit|reflexivity|intros _].
  apply (after_keeping (attempt_end q w)); [apply keeps_driver_call|reflexivity|intros _].
  apply (after_keeping (attempt_end q w)); [apply keeps_emit|reflexivity|intros _].
  apply (after_keeping (attempt_end q w)); [apply keeps_say|reflexivity|intros _].
  apply (after_keeping (attempt_end q w)); [apply keeps_fill_all|reflexivity|intros _].
  apply (after_keeping (attempt_end q w));
    [apply (keeps_of_returns _ tt), select_model_version_returns|reflexivity|intros _].
  apply (after_keeping (attempt_end q w));
    [apply (keeps_of_returns _ tt), select_time_and_coordinate_returns
    |reflexivity|intros _].
  apply (after_keeping (attempt_end q w));
    [apply (keeps_of_returns _ tt), poll_validation_returns|reflexivity|intros _].
  apply (after_keeping (attempt_end q w)); [apply keeps_say|reflexivity|intros _].
  apply (after_keeping (attempt_end q w)); [apply keeps_monitor_submit|reflexivity|intros _].
  apply (after_keeping (attempt_end q w)); [apply keeps_say|reflexivity|intros _].
  apply (after_keeping (attempt_end q w)); [apply keeps_driver_call|reflexivity|intros _].
  apply (after_keeping (attempt_end q w)); [apply keeps_emit|reflexivity|intros _].
  apply (after_keeping (attempt_end q w)); [apply keeps_driver_call|reflexivity|intros _].
  apply (after_keeping (attempt_end q w)); [apply keeps_emit|reflexivity|intros _].
  apply (after_keeping (attempt_end q w)); [apply keeps_sleep|reflexivity|intros _].
  apply save_result_end.
Qed.

(** Without a session to start, the attempt reports and returns 1. *)
Lemma attempt_without_browser (q : query) (timeout : pyfloat) (fs : files) :
  _run_iri_profile_selenium q timeout (mk_world fs []) =
  (1, mk_world fs [],
   ((if info q then [Print "--- Downloading IRI model ---"] else [])
    ++ (if info q then [Print "Exception in _run_iri_profile_selenium: ..."]
        else []))%list).
Proof.
  unfold _run_iri_profile_selenium, bind, try_except, start_chrome, say,
    report_exception, emit, ret.
  destruct (info q); reflexivity.
Qed.

(** Status and files of an attempt. *)
Lemma attempt_files (q : query) (timeout : pyfloat) (w w' : world) (status : Z)
    (trace : list event) :
  _run_iri_profile_selenium q timeout w = (status, w', trace) ->
  (status = 0
   /\ exists text, w_files w' = write_file (output_filename q) text (w_files w))
  \/ (status = 1 /\ w_files w' = w_files w).
Proof.
  destruct w as [fs [|s rest]].
  - rewrite attempt_without_browser. intros [= <- <- _]. right. split; reflexivity.
  - rewrite attempt_unfold. cbv zeta.
    destruct (chrome_starts s); [|intros [= <- <- _]; right; split; reflexivity].
    pose proof (drive_end s q timeout (mk_world fs rest)) as H.
    destruct (drive s q timeout (mk_world fs rest)) as [[[st|e] w1] body];
      cbn [fst attempt_end] in H; intros [= <- <- _].
    + destruct H as [[-> [text ->]]|[-> ->]].
      * left. split; [reflexivity|]. exists text. reflexivity.
      * right. split; reflexivity.
    + subst w1. right. split; reflexivity.
Qed.

Lemma write_file_elsewhere (path text : string) (fs : files) (p : string) :
  p <> path -> write_file path text fs p = fs p.
Proof.
  intros Hp. unfold write_file.
  destruct (String.eqb_spec p path) as [->|_]; [contradiction|reflexivity].
Qed.

Lemma write_file_there (path text : string) (fs : files) :
  write_file path text fs path = Some text.
Proof. unfold write_file. rewrite String.eqb_refl. reflexivity. Qed.

(** X1: one attempt returns 0 or 1, and never raises.  Whatever it returns,
    no file other than the output file is created, changed or removed; when
    it returns 0 the output file exists and holds the text that was
    saved. *)
Theorem attempt_touches_only_the_output_file (q : query) (timeout : pyfloat)
    (w : world) :
  let '(status, w', _) := _run_iri_profile_selenium q timeout w in
  (status = 0 \/ status = 1)
  /\ (forall path, path <> output_filename q -> w_files w' path = w_files w path)
  /\ (status = 0 -> exists text, w_files w' (output_filename q) = Some text).
Proof.
  destruct (_run_iri_profile_selenium q timeout w) as [[status w'] trace] eqn:E.
  destruct (attempt_files q timeout w w' status trace E) as [[-> [text H]]|[-> H]].
  - split; [left; reflexivity|]. rewrite H. split.
    + intros path Hpath. apply write_file_elsewhere. exact Hpath.
    + intros _. exists text. apply write_file_there.
  - split; [right; reflexivity|]. rewrite H. split; [reflexivity|discriminate].
Qed.

End AttemptProperties.

Section AttemptTraces.

Variable P : event -> Prop.

Lemma emits_ret {A : Type} (a : A) : emits_only P (ret a).
Proof. intros w. constructor. Qed.

Lemma emits_throw {A : Type} (e : exn) : emits_only P (@throw A e).
Proof. intros w. constructor. Qed.

Lemma emits_driver_call (ok : bool) : emits_only P (driver_call ok).
Proof. intros w. destruct ok; constructor. Qed.

Lemma emits_emit (e : event) : P e -> emits_only P (emit e).
Proof. intros H w. repeat constructor. exact H. Qed.

Lemma emits_say (verbose : bool) (msg : string) :
  (verbose = true -> P (Print msg)) -> emits_only P (say verbose msg).
Proof. intros H w. destruct verbose; repeat constructor. apply H. reflexivity. Qed.

Lemma emits_bind {A B : Type} (m : M A) (k : A -> M B) :
  emits_only P m -> (forall a, emits_only P (k a)) -> emits_only P (bind m k).
Proof.
  intros Hm Hk w. unfold bind. specialize (Hm w).
  destruct (m w) as [[[a|e] w1] t1]; cbn [snd] in *; [|exact Hm].
  specialize (Hk a w1). destruct (k a w1) as [[r w2] t2]. cbn [snd] in *.
  apply Forall_app. split; assumption.
Qed.

Lemma emits_try {A : Type} (m : M A) (h : exn -> M A) :
  emits_only P m -> (forall e, emits_only P (h e)) -> emits_only P (try_except m h).
Proof.
  intros Hm Hh w. unfold try_except. specialize (Hm w).
  destruct (m w) as [[[a|e] w1] t1]; cbn [snd] in *; [exact Hm|].
  specialize (Hh e w1). destruct (h e w1) as [[r w2] t2]. cbn [snd] in *.
  apply Forall_app. split; assumption.
Qed.

End AttemptTraces.

Ltac emits :=
  repeat first
    [ apply emits_ret | apply emits_throw | apply emits_driver_call
    | apply emits_bind | apply emits_try | apply emits_emit | apply emits_say
    | match goal with |- forall _, _ => intro end ].

(** The events that can follow the filling of the fields. *)
Definition tail_event (q : query) (e : event) : Prop :=
  match e with
  | Print _ => info q = true
  | Written path => path = output_filename q
  | RadioClicked | Selected _ _ | PolledErrors | Clicked
  | ForcedSubmit | ResultShown | ResultsRevealed | Fetched _ | Slept _ => True
  | _ => False
  end.

Section TailEvents.

Variables (s : session) (q : query).
Variable P : event -> Prop.
Hypothesis tail_in_P : forall e, tail_event q e -> P e.

Ltac tail := emits; apply tail_in_P; cbn [tail_event]; auto.

Lemma poll_validation_events (polls : list nat) :
  emits_only P (poll_validation s (info q) polls).
Proof.
  induction polls as [|i rest IH]; cbn [poll_validation]; [apply emits_ret|].
  apply emits_bind; [tail|intros _].
  destruct (negb (error_shown s i)); [tail|].
  apply emits_bind; [unfold sleep; tail|intros _; exact IH].
Qed.

Lemma monitor_submit_events (polls : list nat) :
  emits_only P (monitor_submit s (info q) polls).
Proof.
  induction polls as [|i rest IH]; cbn [monitor_submit].
  - tail.
  - destruct (button s i).
    + apply emits_throw.
    + apply emits_bind; [unfold sleep; tail|intros _; exact IH].
    + tail.
Qed.

Lemma save_result_events : emits_only P (save_result s q).
Proof.
  assert (Hw : forall text, emits_only P (write (output_filename q) text)).
  { intros text w. repeat constructor. apply tail_in_P. reflexivity. }
  unfold save_result, save_from_pre, result_not_found.
  destruct (result_page s) as [p|]; [|apply emits_throw].
  destruct (raw_link p) as [href|], (pre_text p) as [text|];
    try destruct (negb (is_empty href));
    try destruct (fetch s href) as [body|];
    try destruct (100 <? String.length (strip text))%nat;
    repeat first
      [ apply Hw | apply emits_ret | apply emits_throw | apply emits_bind
      | apply emits_say | apply emits_emit
      | match goal with |- forall _, _ => intro end ];
    apply tail_in_P; cbn [tail_event]; auto.
Qed.

(** Everything the attempt does after the fields. *)
Lemma tail_events (timeout : pyfloat) :
  emits_only P
    (select_model_version s (info q) ;;
     select_time_and_coordinate s q ;;
     poll_validation s (info q) (seq 0 10) ;;
     say (info q) "--- Monitoring Submit Button ---" ;;
     monitor_submit s (info q) (seq 0 30) ;;
     say (info q) "Form submitted. Waiting for results..." ;;
     driver_call (result_appears s) ;;
     emit ResultShown ;;
     driver_call (reveal_ok s) ;;
     emit ResultsRevealed ;;
     sleep 2 ;;
     save_result s q).
Proof.
  apply emits_bind.
  { unfold select_model_version. destruct (version_radio s); tail. }
  intros _. apply emits_bind.
  { unfold select_time_and_coordinate. tail. }
  intros _. apply emits_bind; [apply poll_validation_events|intros _].
  apply emits_bind; [tail|intros _].
  apply emits_bind; [apply monitor_submit_events|intros _].
  apply emits_bind; [tail|intros _].
  apply emits_bind; [apply emits_driver_call|intros _].
  apply emits_bind; [tail|intros _].
  apply emits_bind; [apply emits_driver_call|intros _].
  apply emits_bind; [tail|intros _].
  apply emits_bind; [unfold sleep; tail|intros _].
  apply save_result_events.
Qed.

End TailEvents.

Section DriveEvents.

Variables (s : session) (q : query) (timeout : pyfloat).

Let ev := drive_event q timeout.

Lemma tail_is_drive_event (e : event) : tail_event q e -> ev e.
Proof.
  unfold ev. destruct e; cbn [tail_event drive_event]; intros H;
    try exact H; try exact I; contradiction.
Qed.

Lemma fill_all_events (fields : list (string * field_value)) :
  (forall nv, In nv fields -> In nv (form_values q)) ->
  emits_only ev (fill_all s (info q) fields).
Proof.
  induction fields as [|[name value] rest IH]; intros Hin; cbn [fill_all].
  - apply emits_ret.
  - apply emits_bind; [|intros _; apply IH; intros nv H; apply Hin; right; exact H].
    unfold safe_fill. emits; [apply Hin; left; reflexivity|assumption].
Qed.

(** Every event of the body of the [try] is one of [drive_event]. *)
Lemma drive_events : emits_only ev (drive s q timeout).
Proof.
  unfold drive.
  apply emits_bind; [apply emits_emit; reflexivity|intros _].
  apply emits_bind; [apply emits_driver_call|intros _].
  apply emits_bind; [apply emits_emit; exact I|intros _].
  apply emits_bind; [apply emits_say; intros H; exact H|intros _].
  apply emits_bind; [apply fill_all_events; intros nv H; exact H|intros _].
  apply (tail_events s q ev tail_is_drive_event timeout).
Qed.

End DriveEvents.

(** The messages around the body of the [try]. *)
Definition banner (q : query) : list event :=
  if info q then [Print "--- Downloading IRI model ---"] else [].

Definition exception_report (q : query) : list event :=
  if info q then [Print "Exception in _run_iri_profile_selenium: ..."] else [].

(** The trace of an attempt: nothing but messages when the browser does not
    start; otherwise the events of the body between the start of the
    browser and its [quit()]. *)
Lemma attempt_trace (q : query) (timeout : pyfloat) (w : world) :
  let trace := snd (_run_iri_profile_selenium q timeout w) in
  trace = (banner q ++ exception_report q)%list
  \/ (exists body,
        trace = ((banner q ++ ChromeStarted :: body ++ exception_report q)
                 ++ [Quit])%list
        /\ Forall (drive_event q timeout) body)
  \/ (exists body,
        trace = ((banner q ++ ChromeStarted :: body) ++ [Quit])%list
        /\ Forall (drive_event q timeout) body).
Proof.
  destruct w as [fs [|s rest]].
  - rewrite attempt_without_browser. left. reflexivity.
  - rewrite attempt_unfold. cbv zeta. fold (banner q) (exception_report q).
    destruct (chrome_starts s); [|left; reflexivity].
    pose proof (drive_events s q timeout (mk_world fs rest)) as H.
    destruct (drive s q timeout (mk_world fs rest)) as [[[status|e] w1] body];
      cbn [snd] in *; right.
    + right. exists body. split; [|exact H].
      rewrite <- (app_assoc (banner q)). reflexivity.
    + left. exists body. split; [|exact H].
      rewrite <- (app_assoc (banner q)). reflexivity.
Qed.

Lemma banner_prints (q : query) (e : event) :
  In e (banner q) -> info q = true /\ exists msg, e = Print msg.
Proof.
  unfold banner. destruct (info q); [|intros []].
  intros [<-|[]]. split; [reflexivity|eexists; reflexivity].
Qed.

Lemma exception_report_prints (q : query) (e : event) :
  In e (exception_report q) -> info q = true /\ exists msg, e = Print msg.
Proof.
  unfold exception_report. destruct (info q); [|intros []].
  intros [<-|[]]. split; [reflexivity|eexists; reflexivity].
Qed.

(** Apart from the start of the browser and its [quit()], every event of an
    attempt is a message printed with [info] set or an event of the body. *)
Lemma attempt_events (q : query) (timeout : pyfloat) (w : world) (e : event) :
  In e (snd (_run_iri_profile_selenium q timeout w)) ->
  e = ChromeStarted \/ e = Quit \/ drive_event q timeout e.
Proof.
  assert (Hp : forall l, (forall e0, In e0 l -> info q = true /\ exists msg, e0 = Print msg) ->
                         In e l -> drive_event q timeout e).
  { intros l Hl Hin. destruct (Hl e Hin) as [Hinfo [msg ->]]. exact Hinfo. }
  intros Hin.
  destruct (attempt_trace q timeout w) as [H|[(body & H & Hall)|(body & H & Hall)]];
    rewrite H in Hin; clear H.
  - right. right. apply in_app_or in Hin.
    destruct Hin as [Hin|Hin];
      [apply (Hp _ (banner_prints q))|apply (Hp _ (exception_report_prints q))];
      exact Hin.
  - apply in_app_or in Hin. destruct Hin as [Hin|[<-|[]]]; [|auto].
    apply in_app_or in Hin. destruct Hin as [Hin|[<-|Hin]]; [|auto|].
    + right. right. apply (Hp _ (banner_prints q)). exact Hin.
    + right. right. apply in_app_or in Hin. destruct Hin as [Hin|Hin].
      * rewrite Forall_forall in Hall. apply Hall. exact Hin.
      * apply (Hp _ (exception_report_prints q)). exact Hin.
  - apply in_app_or in Hin. destruct Hin as [Hin|[<-|[]]]; [|auto].
    apply in_app_or in Hin. destruct Hin as [Hin|[<-|Hin]]; [|auto|].
    + right. right. apply (Hp _ (banner_prints q)). exact Hin.
    + right. right. rewrite Forall_forall in Hall. apply Hall. exact Hin.
Qed.

(** X2: the browser is quit exactly once, as the last thing the attempt
    does, whenever it had been started, however the attempt ends; it is
    never quit when it had not been started. *)
Theorem browser_is_quit_once_and_last (q : query) (timeout : pyfloat) (w : world) :
  let trace := snd (_run_iri_profile_selenium q timeout w) in
  (In ChromeStarted trace ->
   exists before, trace = (before ++ [Quit])%list /\ ~ In Quit before)
  /\ (~ In ChromeStarted trace -> ~ In Quit trace).
Proof.
  cbv zeta.
  assert (Hb : forall e, In e (banner q) -> e <> Quit /\ e <> ChromeStarted).
  { intros e H. destruct (banner_prints q e H) as [_ [msg ->]]. split; discriminate. }
  assert (Hr : forall e, In e (exception_report q) -> e <> Quit /\ e <> ChromeStarted).
  { intros e H. destruct (exception_report_prints q e H) as [_ [msg ->]].
    split; discriminate. }
  assert (Hd : forall body, Forall (drive_event q timeout) body -> ~ In Quit body).
  { intros body Hall Hin. rewrite Forall_forall in Hall. exact (Hall _ Hin). }
  destruct (attempt_trace q timeout w) as [H|[(body & H & Hall)|(body & H & Hall)]];
    rewrite H; clear H.
  - split.
    + intros Hin. apply in_app_or in Hin.
      destruct Hin as [Hin|Hin]; [apply Hb in Hin|apply Hr in Hin];
        destruct Hin as [_ Hin]; contradiction Hin; reflexivity.
    + intros _ Hin. apply in_app_or in Hin.
      destruct Hin as [Hin|Hin]; [apply Hb in Hin|apply Hr in Hin];
        destruct Hin as [Hin _]; contradiction Hin; reflexivity.
  - split.
    + intros _. eexists. split; [reflexivity|].
      intros Hin. apply in_app_or in Hin. destruct Hin as [Hin|[Hin|Hin]].
      * apply Hb in Hin. destruct Hin as [Hin _]. contradiction Hin; reflexivity.
      * discriminate Hin.
      * apply in_app_or in Hin. destruct Hin as [Hin|Hin]; [exact (Hd _ Hall Hin)|].
        apply Hr in Hin. destruct Hin as [Hin _]. contradiction Hin; reflexivity.
    + intros Hno. contradiction Hno.
      apply in_or_app. left. apply in_or_app. right. left. reflexivity.
  - split.
    + intros _. eexists. split; [reflexivity|].
      intros Hin. apply in_app_or in Hin. destruct Hin as [Hin|[Hin|Hin]].
      * apply Hb in Hin. destruct Hin as [Hin _]. contradiction Hin; reflexivity.
      * discriminate Hin.
      * exact (Hd _ Hall Hin).
    + intros Hno. contradiction Hno.
      apply in_or_app. left. apply in_or_app. right. left. reflexivity.
Qed.

Lemma fill_all_ignores_errors (s : session) (errors : nat -> bool) (verbose : bool)
    (fields : list (string * field_value)) :
  fill_all (with_errors s errors) verbose fields = fill_all s verbose fields.
Proof.
  induction fields as [|[name value] rest IH]; [reflexivity|].
  cbn [fill_all]. rewrite IH. reflexivity.
Qed.

Lemma monitor_submit_ignores_errors (s : session) (errors : nat -> bool)
    (verbose : bool) (polls : list nat) :
  monitor_submit (with_errors s errors) verbose polls = monitor_submit s verbose polls.
Proof.
  induction polls as [|i rest IH]; [reflexivity|].
  cbn [monitor_submit]. rewrite IH. reflexivity.
Qed.

Lemma drive_ignores_errors (s : session) (errors : nat -> bool) (q : query)
    (timeout : pyfloat) (w : world) :
  same_result (drive (with_errors s errors) q timeout w) (drive s q timeout w).
Proof.
  unfold drive.
  rewrite fill_all_ignores_errors, monitor_submit_ignores_errors.
  change (page_loads (with_errors s errors)) with (page_loads s).
  change (result_appears (with_errors s errors)) with (result_appears s).
  change (reveal_ok (with_errors s errors)) with (reveal_ok s).
  change (select_model_version (with_errors s errors) (info q))
    with (select_model_version s (info q)).
  change (select_time_and_coordinate (with_errors s errors) q)
    with (select_time_and_coordinate s q).
  change (save_result (with_errors s errors) q) with (save_result s q).
  apply same_bind; [apply same_refl|intros _ w0].
  apply same_bind; [apply same_refl|intros _ w1].
  apply same_bind; [apply same_refl|intros _ w2].
  apply same_bind; [apply same_refl|intros _ w3].
  apply same_bind; [apply same_refl|intros _ w4].
  apply same_bind; [apply same_refl|intros _ w5].
  apply same_bind; [apply same_refl|intros _ w6].
  apply same_bind.
  { unfold same_result. rewrite !poll_validation_returns. reflexivity. }
  intros _ w7. apply same_refl.
Qed.

(** X3: the validation errors the form shows never change how the attempt
    ends.  Whether the form shows errors at none, at some or at all of the
    ten polls, the attempt returns the same status and leaves the same
    files: errors that persist do not stop the submission. *)
Theorem validation_errors_never_stop_the_attempt (q : query) (timeout : pyfloat)
    (fs : files) (s : session) (rest : list session) (errors : nat -> bool) :
  fst (_run_iri_profile_selenium q timeout (mk_world fs (with_errors s errors :: rest)))
  = fst (_run_iri_profile_selenium q timeout (mk_world fs (s :: rest))).
Proof.
  rewrite !attempt_unfold. cbv zeta.
  change (chrome_starts (with_errors s errors)) with (chrome_starts s).
  destruct (chrome_starts s); [|reflexivity].
  pose proof (drive_ignores_errors s errors q timeout (mk_world fs rest)) as H.
  unfold same_result in H.
  destruct (drive (with_errors s errors) q timeout (mk_world fs rest))
    as [[r1 w1] t1], (drive s q timeout (mk_world fs rest)) as [[r2 w2] t2].
  cbn [fst] in H. injection H as -> ->. destruct r2; reflexivity.
Qed.

Lemma fst_bind_ret {A B : Type} (m : M A) (k : A -> M B) (w w1 : world) (a : A) :
  fst (m w) = (Ret a, w1) -> fst (bind m k w) = fst (k a w1).
Proof.
  unfold bind. destruct (m w) as [[r w'] t1]. cbn [fst]. intros [= -> ->].
  destruct (k a w1) as [[r w2] t2]. reflexivity.
Qed.

Lemma fill_all_listed (s : session) (verbose : bool)
    (fields : list (string * field_value)) (w : world) :
  (forall name, In name (map fst fields) -> field_ok s name = true) ->
  fst (fill_all s verbose fields w) = (Ret tt, w).
Proof.
  induction fields as [|[name value] rest IH]; intros Hok; [reflexivity|].
  cbn [fill_all].
  rewrite (fst_bind_ret _ _ w w tt).
  - apply IH. intros n Hn. apply Hok. right. exact Hn.
  - rewrite safe_fill_ok; [reflexivity|]. apply Hok. left. reflexivity.
Qed.

Lemma monitor_submit_clicks (s : session) (verbose : bool) (w : world)
    (n a i : nat) :
  (a <= i < a + n)%nat ->
  (forall j, (a <= j < i)%nat -> button s j = BtnDisabled) ->
  button s i = BtnEnabled -> click_ok s = true ->
  fst (monitor_submit s verbose (seq a n) w) = (Ret tt, w).
Proof.
  revert a. induction n as [|n IH]; intros a Hi Hbefore Hat Hclick; [lia|].
  cbn [seq monitor_submit].
  destruct (Nat.eq_dec a i) as [->|Hne].
  - rewrite Hat. unfold bind, say, driver_call, emit, ret. rewrite Hclick.
    destruct verbose; reflexivity.
  - rewrite (Hbefore a) by lia.
    rewrite (fst_bind_ret _ _ w w tt) by reflexivity.
    apply IH; [lia| |exact Hat|exact Hclick].
    intros j Hj. apply Hbefore. lia.
Qed.

Lemma monitor_submit_through (s : session) (verbose : bool) (w : world) :
  submission_goes_through s ->
  fst (monitor_submit s verbose (seq 0 30) w) = (Ret tt, w).
Proof.
  intros [(i & Hi & Hbefore & Hat & Hclick)|[Hdis Hforce]].
  - apply (monitor_submit_clicks s verbose w 30 0 i); [lia| |exact Hat|exact Hclick].
    intros j Hj. apply Hbefore. lia.
  - exact (proj1 (proj1 (monitor_submit_forced s verbose w Hdis) Hforce)).
Qed.

Lemma say_returns (verbose : bool) (msg : string) (w : world) :
  fst (say verbose msg w) = (Ret tt, w).
Proof. destruct verbose; reflexivity. Qed.

(** When everything up to the result page goes through, the attempt ends as
    the saving of the result does. *)
Lemma drive_reaches_save (s : session) (q : query) (timeout : pyfloat) (w : world) :
  reaches_results q s ->
  fst (drive s q timeout w) = fst (save_result s q w).
Proof.
  intros (_ & Hpl & Hf & Hsub & Hres & Hrev). unfold drive.
  rewrite (fst_bind_ret _ _ w w tt) by reflexivity.
  rewrite (fst_bind_ret _ _ w w tt) by (rewrite Hpl; reflexivity).
  rewrite (fst_bind_ret _ _ w w tt) by reflexivity.
  rewrite (fst_bind_ret _ _ w w tt) by apply say_returns.
  rewrite (fst_bind_ret _ _ w w tt) by (apply fill_all_listed; exact Hf).
  rewrite (fst_bind_ret _ _ w w tt) by apply select_model_version_returns.
  rewrite (fst_bind_ret _ _ w w tt) by apply select_time_and_coordinate_returns.
  rewrite (fst_bind_ret _ _ w w tt) by apply poll_validation_returns.
  rewrite (fst_bind_ret _ _ w w tt) by apply say_returns.
  rewrite (fst_bind_ret _ _ w w tt) by (apply monitor_submit_through; exact Hsub).
  rewrite (fst_bind_ret _ _ w w tt) by apply say_returns.
  rewrite (fst_bind_ret _ _ w w tt) by (rewrite Hres; reflexivity).
  rewrite (fst_bind_ret _ _ w w tt) by reflexivity.
  rewrite (fst_bind_ret _ _ w w tt) by (rewrite Hrev; reflexivity).
  rewrite (fst_bind_ret _ _ w w tt) by reflexivity.
  rewrite (fst_bind_ret _ _ w w tt) by reflexivity.
  reflexivity.
Qed.

(** Status and world of an attempt whose browser starts. *)
Lemma attempt_of_drive (q : query) (timeout : pyfloat) (fs : files) (s : session)
    (rest : list session) :
  chrome_starts s = true ->
  fst (_run_iri_profile_selenium q timeout (mk_world fs (s :: rest))) =
  match fst (drive s q timeout (mk_world fs rest)) with
  | (Ret status, w) => (status, w)
  | (Raise _, w) => (1, w)
  end.
Proof.
  intros Hc. rewrite attempt_unfold. cbv zeta. rewrite Hc.
  destruct (drive s q timeout (mk_world fs rest)) as [[[status|e] w] trace];
    reflexivity.
Qed.

(** X4: what an attempt that reaches the result page saves.  A link to the
    raw output with a non-empty address is followed, and its text is what
    is written; when the download fails the attempt fails, without falling
    back on the text of the page.  Only when there is no such link is the
    [<pre>] text of the page written, as it is, provided it has more than
    100 characters once stripped; otherwise the attempt fails.  A failed
    attempt writes nothing. *)
Theorem link_is_saved_before_page_text (q : query) (timeout : pyfloat) (fs : files)
    (s : session) (rest : list session) :
  reaches_results q s ->
  let result := fst (_run_iri_profile_selenium q timeout (mk_world fs (s :: rest))) in
  let saved text := (0, mk_world (write_file (output_filename q) text fs) rest) in
  let failed := (1, mk_world fs rest) in
  (result_page s = None -> result = failed)
  /\ (forall p, result_page s = Some p ->
      (forall href, raw_link p = Some href -> href <> "" ->
         result = match fetch s href with
                  | Some text => saved text
                  | None => failed
                  end)
      /\ (raw_link p = None \/ raw_link p = Some "" ->
          result = match pre_text p with
                   | Some text =>
                       if (100 <? String.length (strip text))%nat
                       then saved text else failed
                   | None => failed
                   end)).
Proof.
  intros Hreach. cbv zeta.
  rewrite (attempt_of_drive q timeout fs s rest (proj1 Hreach)).
  rewrite (drive_reaches_save s q timeout _ Hreach).
  unfold save_result, save_from_pre, result_not_found, bind, say, emit, write,
    throw, ret.
  split; [intros ->; reflexivity|].
  intros p ->. split.
  - intros href -> Hne. destruct href as [|c href]; [contradiction Hne; reflexivity|].
    cbn [is_empty negb]. destruct (fetch s (String c href)), (info q); reflexivity.
  - intros [->| ->]; cbn [is_empty negb];
      destruct (pre_text p) as [text|];
      try destruct (100 <? String.length (strip text))%nat;
      destruct (info q); reflexivity.
Qed.

(** A page of results that has both a link to the raw output and the text of
    the profile in a [<pre>] element. *)
Definition page_text : string :=
  "   100.0  15105 0.012 1030 3869 3869 23 8 900 68 0 0 -1 39.7 63 "
  ++ "   200.0 125105 0.112 1030 3869 3869 23 8 900 68 0 0 -1 39.7 63".

Definition linked_page (download : option string) : session :=
  mk_session true true (fun _ => true) RadioFound true true
             (fun _ => false) (fun _ => BtnEnabled) true true true true
             (Some (mk_page (Some "raw_output.txt") (Some page_text)))
             (fun _ => download).

Lemma link_is_saved_before_page_text_witness :
  fst (_run_iri_profile_selenium demo_query (Fin (60 # 1))
         (mk_world no_files [linked_page (Some "downloaded")]))
  = (0, mk_world (write_file "out.txt" "downloaded" no_files) [])
  /\ fst (_run_iri_profile_selenium demo_query (Fin (60 # 1))
            (mk_world no_files [linked_page None]))
     = (1, mk_world no_files []).
Proof.
  assert (Hreach : forall download, reaches_results demo_query (linked_page download)).
  { intros download. repeat split; try reflexivity.
    left. exists 0%nat. repeat split; [lia|intros j Hj; lia]. }
  split.
  - exact (proj1 (proj2 (link_is_saved_before_page_text demo_query (Fin (60 # 1))
                    no_files (linked_page (Some "downloaded")) []
                    (Hreach (Some "downloaded")))
                  _ eq_refl)
             "raw_output.txt" eq_refl ltac:(discriminate)).
  - exact (proj1 (proj2 (link_is_saved_before_page_text demo_query (Fin (60 # 1))
                    no_files (linked_page None) [] (Hreach None))
                  _ eq_refl)
             "raw_output.txt" eq_refl ltac:(discriminate)).
Defined.

(* ================================================================== *)
(** * Further properties of [_downloader.py]: the retry wrapper *)
(* ================================================================== *)

(** The number of attempts in a log, and the seconds of pause in it. *)
Fixpoint attempts_in (log : list retry_event) : nat :=
  match log with
  | [] => 0
  | Attempt _ :: rest => Datatypes.S (attempts_in rest)
  | Backoff _ :: rest => attempts_in rest
  end.

Fixpoint pause_in (log : list retry_event) : Z :=
  match log with
  | [] => 0
  | Attempt _ :: rest => pause_in rest
  | Backoff secs :: rest => secs + pause_in rest
  end.

Definition is_pause (e : option retry_event) : bool :=
  match e with
  | Some (Backoff _) => true
  | _ => false
  end.

Lemma schedule_counts (timeout : pyfloat) (k : nat) :
  forall a : nat,
    attempts_in (schedule_from timeout a k) = k
    /\ ((1 <= k)%nat ->
        2 * pause_in (schedule_from timeout a k)
        = 5 * (Z.of_nat k - 1) * (2 * Z.of_nat a + Z.of_nat k))
    /\ is_pause (nth_error (schedule_from timeout a k) (2 * k - 2)) = false
    /\ List.length (schedule_from timeout a k) = (2 * k - 1)%nat.
Proof.
  induction k as [|k IH]; intros a.
  - repeat split; try reflexivity. lia.
  - destruct k as [|k].
    + repeat split; try reflexivity.
    + rewrite schedule_from_more.
      destruct (IH (Datatypes.S a)) as (Hn & Hp & Hl & Hlen).
      cbn [attempts_in pause_in List.length]. rewrite Hn, Hlen. repeat split.
      * intros _. specialize (Hp ltac:(lia)). lia.
      * replace (2 * Datatypes.S (Datatypes.S k) - 2)%nat
          with (Datatypes.S (Datatypes.S (2 * Datatypes.S k - 2))) by lia.
        exact Hl.
      * lia.
Qed.

Section RetryFurther.

Context {S : Type}.
Variable submit : query -> pyfloat -> S -> Z * S.
Variable host_sleep : Z -> S -> S.
Variable host_print : string -> S -> S.
Variable q : query.
Variable timeout : pyfloat.

Let t2 : pyfloat := py_scale timeout 2.

(** What attempt number [k] (from 0) returns, and the state it leaves, when
    the wrapper is started in [s] and gets as far as that attempt. *)
Definition attempt_result (s : S) (k : nat) : Z * S :=
  submit q t2 (call_state submit host_sleep host_print q timeout k s).

(** Below [m], either some attempt is the first to return 0 or all fail. *)
Lemma first_success_or_none (s : S) (m : nat) :
  (exists k, (k < m)%nat
             /\ (forall i, (i < k)%nat -> fst (attempt_result s i) <> 0)
             /\ fst (attempt_result s k) = 0)
  \/ (forall i, (i < m)%nat -> fst (attempt_result s i) <> 0).
Proof.
  induction m as [|m [(k & Hk & Hbefore & Hok)|Hall]].
  - right. intros i Hi. lia.
  - left. exists k. repeat split; [lia|exact Hbefore|exact Hok].
  - destruct (Z.eq_dec (fst (attempt_result s m)) 0) as [Hok|Hbad].
    + left. exists m. repeat split; [lia|intros i Hi; apply Hall; exact Hi|exact Hok].
    + right. intros i Hi.
      destruct (Nat.eq_dec i m) as [->|Hne]; [exact Hbad|apply Hall; lia].
Qed.

(** When every attempt fails the loop ends with the final message, in the
    state the last attempt left: no pause follows the last attempt. *)
Lemma loop_exhausted (n : Z) (s : S) (m : nat) :
  forall (a : nat) (log : list retry_event),
    Z.of_nat (a + m) = n ->
    (forall i, (a <= i < a + m)%nat -> fst (attempt_result s i) <> 0) ->
    retry_loop submit host_sleep host_print q timeout n
               (map Z.of_nat (seq a m))
               (head_state submit host_sleep host_print q timeout a s) log
    = (1,
       host_say host_print (info q) "[FATAL] Failed to retrieve IRI profile"
         match m with
         | O => head_state submit host_sleep host_print q timeout a s
         | Datatypes.S m' => snd (attempt_result s (a + m'))
         end,
       (log ++ schedule_from timeout a m)%list).
Proof.
  induction m as [|m IH]; intros a log Hn Hfail.
  - cbn [seq map schedule_from retry_loop]. rewrite app_nil_r. reflexivity.
  - cbn [seq map]. rewrite loop_cons.
    fold (call_state submit host_sleep host_print q timeout a s).
    assert (Ha : fst (attempt_result s a) <> 0) by (apply Hfail; lia).
    unfold attempt_result, t2 in Ha.
    destruct (submit q (py_scale timeout 2)
                     (call_state submit host_sleep host_print q timeout a s))
      as [st s1] eqn:E.
    cbn [fst] in Ha. apply Z.eqb_neq in Ha. rewrite Ha.
    destruct m as [|m].
    + assert (Hlt : (Z.of_nat a <? n - 1) = false) by (apply Z.ltb_ge; lia).
      rewrite Hlt. cbn [seq map retry_loop schedule_from].
      unfold attempt_result, t2. rewrite Nat.add_0_r, E. reflexivity.
    + assert (Hlt : (Z.of_nat a <? n - 1) = true) by (apply Z.ltb_lt; lia).
      rewrite Hlt, (head_state_next submit host_sleep host_print q timeout a s s1 st E).
      rewrite (IH (Datatypes.S a)); [|lia|intros i Hi; apply Hfail; lia].
      rewrite schedule_from_more, <- !app_assoc.
      replace (Datatypes.S a + m)%nat with (a + Datatypes.S m)%nat by lia.
      reflexivity.
Qed.

(** X5: whatever the attempt function does, [run_iri_profile] makes the
    attempts in turn until one returns 0, at most [max_retries] of them.
    It returns 0 exactly when the last attempt made returned 0, in the
    state that attempt left; it returns 1 when all [max_retries] attempts
    failed (none at all when [max_retries] is not positive), in the state
    the last one left, followed by the final message only.  Every attempt
    before the last one made has failed.  The log is the schedule of the
    attempts made: pauses between attempts only, never after the last one,
    adding up to [5 * made * (made - 1) / 2] seconds. *)
Theorem retry_attempts_and_pauses (max_retries : Z) (s : S) :
  let '(status, s', log) :=
    run_iri_profile submit host_sleep host_print q timeout max_retries s in
  let made := attempts_in log in
  log = schedule_from timeout 0 made
  /\ (made <= Z.to_nat max_retries)%nat
  /\ (forall k, (k + 1 < made)%nat -> fst (attempt_result s k) <> 0)
  /\ (status = 0 /\ (1 <= made)%nat
      /\ fst (attempt_result s (made - 1)) = 0
      /\ s' = snd (attempt_result s (made - 1))
      \/ status = 1 /\ made = Z.to_nat max_retries
         /\ (forall k, (k < made)%nat -> fst (attempt_result s k) <> 0)
         /\ s' = host_say host_print (info q) "[FATAL] Failed to retrieve IRI profile"
                   match made with
                   | O => s
                   | Datatypes.S k => snd (attempt_result s k)
                   end)
  /\ 2 * pause_in log = 5 * Z.of_nat made * (Z.of_nat made - 1)
  /\ is_pause (nth_error log (List.length log - 1)) = false.
Proof.
  unfold run_iri_profile, py_range.
  set (m := Z.to_nat max_retries).
  assert (Hcount : forall k,
             let log := schedule_from timeout 0 k in
             attempts_in log = k
             /\ 2 * pause_in log = 5 * Z.of_nat k * (Z.of_nat k - 1)
             /\ is_pause (nth_error log (List.length log - 1)) = false).
  { intros k. cbv zeta.
    destruct (schedule_counts timeout k 0) as (Hn & Hp & Hl & Hlen).
    split; [exact Hn|]. split.
    - destruct k as [|k]; [reflexivity|]. specialize (Hp ltac:(lia)). lia.
    - rewrite Hlen. replace (2 * k - 1 - 1)%nat with (2 * k - 2)%nat by lia.
      exact Hl. }
  destruct (first_success_or_none s m) as [(k & Hk & Hbefore & Hok)|Hall].
  - assert (E : retry_loop submit host_sleep host_print q timeout max_retries
                            (map Z.of_nat (seq 0 m)) s []
                 = (0, snd (attempt_result s k), schedule_from timeout 0 (Datatypes.S k))).
    { apply (loop_first_success submit host_sleep host_print q timeout
               max_retries s k 0 m []);
        [cbn [Nat.add]; lia|exact Hk|intros i Hi; apply Hbefore; lia|exact Hok]. }
    rewrite E. cbv zeta.
    destruct (Hcount (Datatypes.S k)) as (Hn & Hp & Hl). cbv zeta in Hn, Hp, Hl.
    rewrite Hn. replace (Datatypes.S k - 1)%nat with k by lia.
    split; [reflexivity|]. split; [lia|]. split.
    { intros i Hi. apply Hbefore. lia. }
    split; [|split; [exact Hp|exact Hl]].
    left. repeat split; [lia|exact Hok].
  - destruct (Z_le_gt_dec max_retries 0) as [Hn0|Hpos].
    + assert (Hm : m = 0%nat) by (unfold m; lia).
      rewrite Hm. cbn [seq map retry_loop attempts_in].
      repeat split; try reflexivity; try lia.
      right. repeat split. intros k Hk0. lia.
    + pose proof (loop_exhausted max_retries s m 0 []) as E.
      cbn [app head_state Nat.add] in E.
      rewrite E; [|unfold m; lia|intros i Hi; apply Hall; lia].
      cbv zeta.
      destruct (Hcount m) as (Hn & Hp & Hl). cbv zeta in Hn, Hp, Hl.
      rewrite Hn.
      split; [reflexivity|]. split; [lia|]. split.
      { intros i Hi. apply Hall. lia. }
      split; [|split; [exact Hp|exact Hl]].
      right. repeat split. exact Hall.
Qed.

Lemma host_say_keeps (I : S -> Prop) (b : bool) (msg : string) (s : S) :
  (b = true -> forall m s0, I s0 -> I (host_print m s0)) ->
  I s -> I (host_say host_print b msg s).
Proof. intros H Hs. unfold host_say. destruct b; [apply H; auto|exact Hs]. Qed.

(** The wrapper adds nothing of its own: a property that failed attempts,
    pauses and (with [info] set) messages preserve holds when it returns 1,
    and what a successful attempt establishes holds when it returns 0. *)
Lemma retry_invariant (I G : S -> Prop) :
  (info q = true -> forall msg s, I s -> I (host_print msg s)) ->
  (forall secs s, I s -> I (host_sleep secs s)) ->
  (forall t s, I s ->
     (fst (submit q t s) = 0 -> G (snd (submit q t s)))
     /\ (fst (submit q t s) <> 0 -> I (snd (submit q t s)))) ->
  forall (n : Z) (attempts : list Z) (s : S) (log : list retry_event),
    I s ->
    let r := retry_loop submit host_sleep host_print q timeout n attempts s log in
    (fst (fst r) = 0 /\ G (snd (fst r))) \/ (fst (fst r) = 1 /\ I (snd (fst r))).
Proof.
  intros Hprint Hsleep Hsubmit n attempts.
  induction attempts as [|attempt rest IH]; intros s log Hs; cbv zeta.
  - right. cbn [retry_loop fst snd]. split; [reflexivity|].
    apply host_say_keeps; [exact Hprint|exact Hs].
  - rewrite loop_cons.
    assert (Hcall : I (host_say host_print (info q && (0 <? attempt)) "RETRY ATTEMPT" s)).
    { apply host_say_keeps; [|exact Hs].
      intros Hb. apply Hprint. apply andb_prop in Hb. apply Hb. }
    destruct (Hsubmit (py_scale timeout 2) _ Hcall) as [Hgood Hbad].
    destruct (submit q (py_scale timeout 2) _) as [st s1]. cbn [fst snd] in *.
    destruct (st =? 0) eqn:Est.
    + left. apply Z.eqb_eq in Est. cbn [fst snd]. split; [reflexivity|auto].
    + apply Z.eqb_neq in Est. specialize (Hbad Est).
      destruct (attempt <? n - 1); apply IH; [|exact Hbad].
      apply Hsleep. apply host_say_keeps; [exact Hprint|exact Hbad].
Qed.

End RetryFurther.

(** X6: [run_iri_profile], run against the browser, returns 0 or 1.
    However many attempts it makes, no file other than the output file is
    created, changed or removed; when it returns 0 the output file exists
    and holds a saved text. *)
Theorem run_iri_profile_touches_only_the_output_file (q : query) (timeout : pyfloat)
    (max_retries : Z) (w : world) :
  let '(r, w', _) := run_iri_profile_selenium q timeout max_retries w in
  (r = Ret 0 \/ r = Ret 1)
  /\ (forall path, path <> output_filename q -> w_files w' path = w_files w path)
  /\ (r = Ret 0 -> exists text, w_files w' (output_filename q) = Some text).
Proof.
  unfold run_iri_profile_selenium, run_iri_profile.
  set (others_kept := fun h : host =>
         forall path, path <> output_filename q ->
                      w_files (fst h) path = w_files w path).
  pose proof (retry_invariant attempt_on_host
                (fun secs => host_emit (Slept (inject_Z secs)))
                (fun msg => host_emit (Print msg)) q timeout
                others_kept
                (fun h => others_kept h
                          /\ exists text, w_files (fst h) (output_filename q) = Some text))
    as H.
  specialize (H (fun _ _ _ H => H) (fun _ _ H => H)).
  assert (Hsubmit : forall t (h : host),
             others_kept h ->
             (fst (attempt_on_host q t h) = 0 ->
              others_kept (snd (attempt_on_host q t h))
              /\ exists text,
                   w_files (fst (snd (attempt_on_host q t h))) (output_filename q)
                   = Some text)
             /\ (fst (attempt_on_host q t h) <> 0 ->
                 others_kept (snd (attempt_on_host q t h)))).
  { intros t h Hh. unfold attempt_on_host.
    destruct (_run_iri_profile_selenium q t (fst h)) as [[st w1] tr] eqn:E.
    cbn [fst snd].
    destruct (attempt_files q t (fst h) w1 st tr E) as [[-> [text Ht]]|[-> Ht]].
    - split; [intros _|intros Hne; contradiction Hne; reflexivity].
      unfold others_kept. cbn [fst]. rewrite Ht. split.
      + intros path Hpath. rewrite write_file_elsewhere by exact Hpath.
        apply Hh. exact Hpath.
      + exists text. apply write_file_there.
    - split; [discriminate|]. intros _. unfold others_kept. cbn [fst].
      rewrite Ht. exact Hh. }
  specialize (H Hsubmit max_retries (py_range max_retries) (w, []) []
                (fun _ _ => eq_refl)).
  cbv zeta in H.
  destruct (retry_loop attempt_on_host _ _ q timeout max_retries
                       (py_range max_retries) (w, []) []) as [[status h] log].
  cbn [fst snd] in H.
  destruct H as [[-> [Hk Ht]]|[-> Hk]].
  - split; [left; reflexivity|]. split; [exact Hk|intros _; exact Ht].
  - split; [right; reflexivity|]. split; [exact Hk|discriminate].
Qed.

(** X7: with [info=False] neither the wrapper nor any of its attempts
    prints anything. *)
Theorem nothing_is_printed_without_info (q : query) (timeout : pyfloat)
    (max_retries : Z) (w : world) :
  info q = false ->
  forall msg, ~ In (Print msg)
                   (snd (run_iri_profile_selenium q timeout max_retries w)).
Proof.
  intros Hq. unfold run_iri_profile_selenium, run_iri_profile.
  pose proof (retry_invariant attempt_on_host
                (fun secs => host_emit (Slept (inject_Z secs)))
                (fun msg => host_emit (Print msg)) q timeout
                (fun h => forall msg, ~ In (Print msg) (snd h))
                (fun h => forall msg, ~ In (Print msg) (snd h)))
    as H.
  assert (Hprint : info q = true ->
                   forall (msg : string) (h : host),
                     (forall m, ~ In (Print m) (snd h)) ->
                     forall m, ~ In (Print m) (snd (host_emit (Print msg) h))).
  { rewrite Hq. discriminate. }
  assert (Hsleep : forall (secs : Z) (h : host),
                     (forall m, ~ In (Print m) (snd h)) ->
                     forall m, ~ In (Print m)
                                    (snd (host_emit (Slept (inject_Z secs)) h))).
  { intros secs h Hh m Hin. cbn [host_emit snd] in Hin.
    apply in_app_or in Hin. destruct Hin as [Hin|[Hin|[]]]; [|discriminate Hin].
    exact (Hh m Hin). }
  assert (Hattempt : forall t (h : host),
             (forall m, ~ In (Print m) (snd h)) ->
             forall m, ~ In (Print m) (snd (snd (attempt_on_host q t h)))).
  { intros t h Hh m Hin. unfold attempt_on_host in Hin.
    pose proof (attempt_events q t (fst h) (Print m)) as He.
    destruct (_run_iri_profile_selenium q t (fst h)) as [[st w1] tr].
    cbn [fst snd] in *. apply in_app_or in Hin. destruct Hin as [Hin|Hin].
    - exact (Hh m Hin).
    - destruct (He Hin) as [H0|[H0|H0]]; try discriminate H0.
      cbn [drive_event] in H0. congruence. }
  specialize (H Hprint Hsleep (fun t h Hh => conj (fun _ => Hattempt t h Hh)
                                                    (fun _ => Hattempt t h Hh))
                max_retries (py_range max_retries) (w, [])
                [] (fun m (F : In (Print m) []) => F)).
  cbv zeta in H.
  destruct (retry_loop attempt_on_host _ _ q timeout max_retries
                       (py_range max_retries) (w, []) []) as [[status h] log].
  cbn [fst snd] in *. destruct H as [[_ H]|[_ H]]; exact H.
Qed.

Lemma nothing_is_printed_without_info_witness :
  info demo_query = false
  /\ forall msg,
       ~ In (Print msg)
            (snd (run_iri_profile_selenium demo_query (Fin (30 # 1)) 3
                    (mk_world no_files [unreachable_site; good_session]))).
Proof.
  split; [reflexivity|].
  exact (nothing_is_printed_without_info demo_query (Fin (30 # 1)) 3
           (mk_world no_files [unreachable_site; good_session]) eq_refl).
Defined.

(* ================================================================== *)
(** * Further properties of [_getdata.py] *)
(* ================================================================== *)

(** The next character is whitespace, or there is none. *)
Definition at_gap (s : string) : bool :=
  match s with
  | EmptyString => true
  | String c _ => is_space c
  end.

Lemma split_ws_unfold (c : ascii) (r : string) :
  split_ws (String c r) =
  if is_space c then split_ws r
  else match r with
       | EmptyString => [String c EmptyString]
       | String c' _ =>
           if is_space c' then String c EmptyString :: split_ws r
           else match split_ws r with
                | h :: t => String c h :: t
                | [] => [String c EmptyString]
                end
       end.
Proof. reflexivity. Qed.

Lemma split_ws_cons (c : ascii) (r : string) :
  is_space c = false ->
  split_ws (String c r) =
  if at_gap r then String c EmptyString :: split_ws r
  else match split_ws r with
       | h :: t => String c h :: t
       | [] => [String c EmptyString]
       end.
Proof.
  intros Hc. rewrite split_ws_unfold, Hc.
  destruct r as [|c' r']; [reflexivity|].
  cbn [at_gap]. destruct (is_space c'); reflexivity.
Qed.

Lemma re_sub_ws_unfold (c : ascii) (r : string) :
  re_sub_ws (String c r) =
  if is_space c then
    match r with
    | String c' _ => if is_space c' then re_sub_ws r else String " " (re_sub_ws r)
    | EmptyString => " "
    end
  else String c (re_sub_ws r).
Proof. reflexivity. Qed.

Lemma rstrip_unfold (c : ascii) (r : string) :
  rstrip (String c r) =
  if is_space c && is_empty (rstrip r) then EmptyString else String c (rstrip r).
Proof. reflexivity. Qed.

Lemma space_is_space : is_space " " = true.
Proof. reflexivity. Qed.

Lemma at_gap_re_sub (s : string) : at_gap (re_sub_ws s) = at_gap s.
Proof.
  induction s as [|c r IH]; [reflexivity|].
  rewrite re_sub_ws_unfold. destruct (is_space c) eqn:Hc.
  - destruct r as [|c' r'].
    + cbn [at_gap]. rewrite Hc. reflexivity.
    + destruct (is_space c') eqn:Hc'.
      * rewrite IH. cbn [at_gap]. congruence.
      * cbn [at_gap]. rewrite Hc. reflexivity.
  - cbn [at_gap]. reflexivity.
Qed.

(** Replacing every run of whitespace by one space changes no token. *)
Lemma split_ws_re_sub (s : string) : split_ws (re_sub_ws s) = split_ws s.
Proof.
  induction s as [|c r IH]; [reflexivity|].
  rewrite re_sub_ws_unfold. destruct (is_space c) eqn:Hc.
  - rewrite (split_ws_unfold c r), Hc.
    destruct r as [|c' r']; [reflexivity|].
    destruct (is_space c') eqn:Hc'; [exact IH|].
    rewrite split_ws_unfold, space_is_space. exact IH.
  - rewrite !(split_ws_cons c) by exact Hc.
    rewrite at_gap_re_sub, IH. reflexivity.
Qed.

Lemma split_ws_lstrip (s : string) : split_ws (lstrip s) = split_ws s.
Proof.
  induction s as [|c r IH]; [reflexivity|].
  cbn [lstrip]. destruct (is_space c) eqn:Hc; [|reflexivity].
  rewrite IH, (split_ws_unfold c r), Hc. reflexivity.
Qed.

Lemma at_gap_rstrip (s : string) : at_gap (rstrip s) = at_gap s.
Proof.
  destruct s as [|c r]; [reflexivity|].
  rewrite rstrip_unfold. destruct (is_space c) eqn:Hc.
  - destruct (is_empty (rstrip r)); cbn [andb at_gap]; congruence.
  - cbn [andb at_gap]. reflexivity.
Qed.

Lemma is_empty_eq (s : string) : is_empty s = true -> s = EmptyString.
Proof. destruct s; [reflexivity|discriminate]. Qed.

Lemma split_ws_rstrip (s : string) : split_ws (rstrip s) = split_ws s.
Proof.
  induction s as [|c r IH]; [reflexivity|].
  rewrite rstrip_unfold. destruct (is_space c) eqn:Hc.
  - rewrite (split_ws_unfold c r), Hc.
    destruct (is_empty (rstrip r)) eqn:He; cbn [andb].
    + rewrite <- IH, (is_empty_eq _ He). reflexivity.
    + rewrite split_ws_unfold, Hc. exact IH.
  - cbn [andb]. rewrite !(split_ws_cons c) by exact Hc.
    rewrite at_gap_rstrip, IH. reflexivity.
Qed.

Lemma split_ws_strip (s : string) : split_ws (strip s) = split_ws s.
Proof. unfold strip. rewrite split_ws_rstrip. apply split_ws_lstrip. Qed.

Section DataLines.

Context {ext : Externals}.

(** A line with at least ten tokens, the first of which [float] accepts. *)
Definition data_line (line : string) : bool :=
  let parts := split_ws line in
  negb (List.length parts <? 10)%nat
  && match py_float (nth 0 parts EmptyString) with
     | Some _ => true
     | None => false
     end.

Lemma accept_line_tokens (line : string) :
  accept_line line = if data_line line then Some (split_ws line) else None.
Proof.
  unfold accept_line, data_line. cbv zeta.
  rewrite split_ws_re_sub, split_ws_strip.
  destruct (is_empty (re_sub_ws (strip line))) eqn:He.
  - apply is_empty_eq in He.
    assert (Hnone : split_ws line = []).
    { rewrite <- split_ws_strip, <- split_ws_re_sub, He. reflexivity. }
    rewrite Hnone. reflexivity.
  - destruct (List.length (split_ws line) <? 10)%nat; [reflexivity|].
    cbn [negb andb]. destruct (py_float (nth 0 (split_ws line) "")); reflexivity.
Qed.

(** X8: the rows the parser keeps are the tokens of exactly the lines that
    have at least ten whitespace-separated tokens the first of which
    [float] accepts, in the order of the file.  The stripping and the
    replacement of whitespace runs the loop makes first change none of the
    tokens, and every other line (blank lines included) is skipped. *)
Theorem kept_rows_are_the_data_lines (lines : list string) :
  scan_lines lines = map split_ws (filter data_line lines).
Proof.
  induction lines as [|line rest IH]; [reflexivity|].
  cbn [scan_lines filter]. rewrite accept_line_tokens.
  destruct (data_line line); cbn [map]; rewrite IH; reflexivity.
Qed.

(** X9: when the file exists and is a text file, [None] is returned in
    exactly three cases: the text has fewer than four lines; its fourth
    line holds no header of the expected pattern; or the header resolves to
    a time but no line of the file is kept as a data row.  Data rows never
    make up for a missing header. *)
Theorem none_is_returned_exactly_when (fs : files) (filepath content : string) :
  fs filepath = Some content -> endswith filepath "txt" = true ->
  let lines := split_on newline content in
  extract_iri_profile_data fs filepath = Ret None <->
  (List.length lines < 4)%nat
  \/ header_search (nth 3 lines EmptyString) = None
  \/ ((exists t, header_time lines = Ret (Some t)) /\ scan_lines lines = []).
Proof.
  intros Hfile Htxt lines. unfold extract_iri_profile_data.
  rewrite Hfile, Htxt. cbn [negb]. fold lines.
  assert (Hheader : header_time lines = Ret None <->
                    (List.length lines < 4)%nat
                    \/ header_search (nth 3 lines EmptyString) = None).
  { unfold header_time. destruct (4 <=? List.length lines)%nat eqn:E.
    - apply Nat.leb_le in E.
      destruct (header_search (nth 3 lines "")) as [[[y d] u]|].
      + split.
        * destruct (resolve_datetime y d u); discriminate.
        * intros [H|H]; [lia|discriminate H].
      + split; auto.
    - apply Nat.leb_gt in E. split; auto. }
  split.
  - destruct (header_time lines) as [[t|]|e] eqn:Et; cbn [obind].
    + destruct (scan_lines lines) as [|row rows] eqn:Es.
      * intros _. right. right. split; [exists t|]; reflexivity.
      * destruct (np_array_float (row :: rows)) as [m|e]; cbn [obind];
          [|discriminate].
        destruct (take_columns m 0 keys); discriminate.
    + intros _. destruct (proj1 Hheader eq_refl) as [H|H]; auto.
    + discriminate.
  - intros [H|[H|[[t Ht] Hs]]].
    + rewrite (proj2 Hheader (or_introl H)). reflexivity.
    + rewrite (proj2 Hheader (or_intror H)). reflexivity.
    + rewrite Ht. cbn [obind]. rewrite Hs. reflexivity.
Qed.

(** X10: the header is found exactly when the line contains, somewhere, four
    digits, a slash, optional whitespace, an optional minus sign and
    digits, a slash, optional whitespace, digits or points, and the letters
    UT; the groups are those of the leftmost such place. *)
Theorem header_is_the_leftmost_occurrence (s year_str doy_str ut : string) :
  header_search s = Some (year_str, doy_str, ut) <->
  exists pre suf,
    s = pre ++ suf /\ header_shape suf year_str doy_str ut
    /\ forall pre' suf' y d u,
         s = pre' ++ suf' -> (String.length pre' < String.length pre)%nat ->
         ~ header_shape suf' y d u.
Proof.
  rewrite header_search_leftmost. split.
  - intros (pre & suf & Hs & Hm & Hleft). exists pre, suf.
    split; [exact Hs|]. split; [apply match_header_at_iff; exact Hm|].
    intros pre' suf' y d u Hs' Hlt Hshape.
    apply match_header_at_iff in Hshape.
    rewrite (Hleft pre' suf' Hs' Hlt) in Hshape. discriminate.
  - intros (pre & suf & Hs & Hshape & Hleft). exists pre, suf.
    split; [exact Hs|]. split; [apply match_header_at_iff; exact Hshape|].
    intros pre' suf' Hs' Hlt.
    destruct (match_header_at suf') as [[[y d] u]|] eqn:E; [|reflexivity].
    apply match_header_at_iff in E. contradiction (Hleft pre' suf' y d u Hs' Hlt).
Qed.

End DataLines.

Lemma none_is_returned_exactly_when_witness :
  extract_iri_profile_data (ext := demo_ext)
    (one_file (report "no header on this line" [row_100; row_200])) "profile.txt"
  = Ret None.
Proof.
  apply (proj2 (none_is_returned_exactly_when (ext := demo_ext)
                  (one_file (report "no header on this line" [row_100; row_200]))
                  "profile.txt" (report "no header on this line" [row_100; row_200])
                  eq_refl eq_refl)).
  right. left. vm_compute. reflexivity.
Defined.

(** The change of unit [extract_iri_profile_data] applies to the column
    [key]: kilometres to metres, per cubic centimetre to per cubic metre,
    tenths of a percent to percent, and a factor of 1e16 for the last three
    columns; the other columns are left as they are. *)
Definition unit_scale (key : string) (x : pyfloat) : pyfloat :=
  if String.eqb key "altitude" then py_scale x e3
  else if String.eqb key "Ne" then py_scale x e6
  else if existsb (String.eqb key) ["O+"; "N+"; "H+"; "He+"; "O2+"; "NO+"]
       then py_div x (10 # 1)
  else if existsb (String.eqb key) ["Clust"; "TEC"; "t/%"] then py_scale x e16
  else x.

Section TableFurther.

Context {ext : Externals}.

Lemma take_columns_all (m : list (list pyfloat)) (ks : list string) :
  forall i cols,
    take_columns m i ks = Ret cols ->
    cols = map (fun jk => (snd jk, map (fun row => nth (fst jk) row NaN) m))
               (combine (seq i (List.length ks)) ks)
    /\ (ks <> [] -> (i + List.length ks <= width m)%nat).
Proof.
  induction ks as [|key rest IH]; intros i cols H.
  - injection H as <-. split; [reflexivity|]. intros Hne. contradiction Hne. reflexivity.
  - cbn [take_columns] in H. unfold column in H.
    destruct (i <? width m)%nat eqn:Ei; [|discriminate]. cbn [obind] in H.
    destruct (take_columns m (S i) rest) as [cols'|] eqn:Er; [|discriminate].
    cbn [obind] in H. injection H as <-.
    destruct (IH (S i) cols' Er) as [-> Hw]. split; [reflexivity|].
    intros _. apply Nat.ltb_lt in Ei. cbn [List.length].
    destruct rest as [|k rest']; [cbn [List.length]; lia|].
    specialize (Hw ltac:(discriminate)). lia.
Qed.

(** One step of [to_mksa] on one entry of the dictionary. *)
Definition scale_entry (key : string) (f : pyfloat -> pyfloat)
    (kc : string * list pyfloat) : string * list pyfloat :=
  if String.eqb (fst kc) key then (fst kc, map f (snd kc)) else kc.

Lemma on_key_map (key : string) (f : pyfloat -> pyfloat)
    (cols : list (string * list pyfloat)) :
  on_key key f cols = map (scale_entry key f) cols.
Proof. reflexivity. Qed.

Lemma scale_entry_hit (key : string) (f : pyfloat -> pyfloat) (c : list pyfloat) :
  scale_entry key f (key, c) = (key, map f c).
Proof. unfold scale_entry. cbn [fst snd]. rewrite String.eqb_refl. reflexivity. Qed.

Lemma scale_entry_miss (key : string) (f : pyfloat -> pyfloat) (k : string)
    (c : list pyfloat) :
  k <> key -> scale_entry key f (k, c) = (k, c).
Proof.
  intros H. unfold scale_entry. cbn [fst snd].
  rewrite (proj2 (String.eqb_neq k key) H). reflexivity.
Qed.

Ltac scale_step :=
  match goal with
  | |- context [scale_entry ?key ?f (?k, ?c)] =>
      let Heq := fresh "Heq" in
      let Hne := fresh "Hne" in
      destruct (String.eqb_spec k key) as [Heq|Hne];
      [ try discriminate Heq; try subst k; rewrite scale_entry_hit
      | rewrite (scale_entry_miss key f k c Hne) ]
  end.

(** The changes of unit touch each column once: every column of the
    dictionary is scaled by the factor of its key. *)
Lemma to_mksa_pointwise (cols : list (string * list pyfloat)) :
  to_mksa cols = map (fun kc => (fst kc, map (unit_scale (fst kc)) (snd kc))) cols.
Proof.
  unfold to_mksa. cbv zeta. rewrite !on_key_map, !map_map.
  apply map_ext. intros [k c]. cbn [fst snd].
  scale_step; [repeat scale_step; reflexivity|].
  scale_step; [repeat scale_step; reflexivity|].
  scale_step; [repeat scale_step; reflexivity|].
  scale_step; [repeat scale_step; reflexivity|].
  scale_step; [repeat scale_step; reflexivity|].
  scale_step; [repeat scale_step; reflexivity|].
  scale_step; [repeat scale_step; reflexivity|].
  scale_step; [repeat scale_step; reflexivity|].
  scale_step; [repeat scale_step; reflexivity|].
  scale_step; [repeat scale_step; reflexivity|].
  scale_step; [repeat scale_step; reflexivity|].
  f_equal. rewrite <- (map_id c) at 1. apply map_ext. intros x.
  unfold unit_scale. cbn [existsb].
  repeat match goal with
         | H : k <> ?key |- _ =>
             rewrite (proj2 (String.eqb_neq k key) H); clear H
         end.
  reflexivity.
Qed.

Lemma to_mksa_columns (m : list (list pyfloat)) :
  to_mksa (map (fun jk => (snd jk, map (fun row => nth (fst jk) row NaN) m))
               (combine (seq 0 (List.length keys)) keys))
  = map (fun jk => (snd jk,
                    map (fun row => unit_scale (snd jk) (nth (fst jk) row NaN)) m))
        (combine (seq 0 (List.length keys)) keys).
Proof.
  rewrite to_mksa_pointwise, map_map. apply map_ext. intros [j k].
  cbn [fst snd]. rewrite map_map. reflexivity.
Qed.

Lemma lookup_in_columns (G : nat -> string -> list pyfloat) (ks : list string) :
  forall (start i : nat) (key : string),
    nth_error ks i = Some key ->
    forallb (fun k => negb (String.eqb k key)) (firstn i ks) = true ->
    lookup key (map (fun jk => (snd jk, G (fst jk) (snd jk)))
                    (combine (seq start (List.length ks)) ks))
    = Ret (G (start + i)%nat key).
Proof.
  induction ks as [|k0 rest IH]; intros start i key Hkey Hfirst.
  - destruct i; discriminate Hkey.
  - cbn [List.length seq combine map lookup fst snd].
    destruct i as [|i].
    + injection Hkey as ->. rewrite String.eqb_refl, Nat.add_0_r. reflexivity.
    + cbn [firstn forallb] in Hfirst. apply andb_prop in Hfirst.
      destruct Hfirst as [Hk0 Hfirst].
      apply negb_true_iff in Hk0. rewrite Hk0.
      rewrite (IH (Datatypes.S start) i key Hkey Hfirst).
      f_equal. f_equal. lia.
Qed.

Lemma floats_of_row_nth (row : list string) :
  forall (r : list pyfloat) (i : nat),
    floats_of_row row = Some r -> (i < List.length row)%nat ->
    py_float (nth i row EmptyString) = Some (nth i r NaN).
Proof.
  induction row as [|tok rest IH]; intros r i H Hi; [cbn in Hi; lia|].
  cbn [floats_of_row] in H.
  destruct (py_float tok) as [x|] eqn:Ex; [|discriminate].
  destruct (floats_of_row rest) as [xs|] eqn:Er; [|discriminate].
  injection H as <-. destruct i as [|i]; [exact Ex|].
  cbn [nth]. apply IH; [reflexivity|cbn [List.length] in Hi; lia].
Qed.

Lemma rectangular_rows {A : Type} (rows : list (list A)) (row : list A) :
  rectangular rows = true -> In row rows -> List.length row = width rows.
Proof.
  unfold rectangular. rewrite forallb_forall. intros H Hin.
  apply Nat.eqb_eq. apply H. exact Hin.
Qed.

Lemma Forall2_nth_error {A B : Type} (R : A -> B -> Prop) (xs : list A) (ys : list B) :
  Forall2 R xs ys ->
  forall i x, nth_error xs i = Some x -> exists y, nth_error ys i = Some y /\ R x y.
Proof.
  induction 1 as [|x0 y0 xs' ys' Hxy _ IH]; intros i x Hi.
  - destruct i; discriminate.
  - destruct i as [|i].
    + injection Hi as <-. exists y0. split; [reflexivity|exact Hxy].
    + apply (IH i x Hi).
Qed.

(** X11: every value of a returned table is the number at the same place of
    the file, in the column's unit.  The table has the fifteen columns of
    [keys], each with one entry per kept line; the entry of column number
    [i] for kept line number [r] is the value [float] gives token [i] of
    that line, scaled by the column's factor ([unit_scale]).  Tokens after
    the fifteenth are not used. *)
Theorem table_values_follow_the_tokens
    (fs : files) (filepath content : string) (table : ProfileTable) :
  fs filepath = Some content ->
  extract_iri_profile_data fs filepath = Ret (Some table) ->
  let rows := scan_lines (split_on newline content) in
  map fst (columns table) = keys
  /\ forall i key,
       nth_error keys i = Some key ->
       exists col,
         lookup key (columns table) = Ret col
         /\ List.length col = List.length rows
         /\ forall r row,
              nth_error rows r = Some row ->
              exists x, py_float (nth i row EmptyString) = Some x
                        /\ nth_error col r = Some (unit_scale key x).
Proof.
  intros Hfile. unfold extract_iri_profile_data. rewrite Hfile.
  destruct (endswith filepath "txt"); [|discriminate]. cbn [negb].
  destruct (header_time (split_on newline content)) as [[ts|]|]; cbn [obind];
    try discriminate.
  destruct (scan_lines (split_on newline content)) as [|row0 rows'] eqn:Escan;
    [discriminate|].
  set (rows := row0 :: rows') in *.
  unfold np_array_float.
  destruct (rectangular rows) eqn:Hrect; [|discriminate].
  destruct (floats_of_rows rows) as [m|] eqn:Em; [|discriminate].
  cbn [obind].
  destruct (take_columns m 0 keys) as [cols|] eqn:Ecols; [|discriminate].
  cbn [obind]. intros [= <-]. cbv zeta. cbn [columns].
  destruct (take_columns_all m keys 0 cols Ecols) as [-> Hwide].
  specialize (Hwide ltac:(discriminate)).
  rewrite to_mksa_columns.
  pose proof (floats_of_rows_each rows m Em) as Hm.
  assert (Hlen : List.length m = List.length rows).
  { symmetry. apply (Forall2_length Hm). }
  assert (Hw : width m = width rows) by (apply floats_of_rows_width; exact Em).
  split; [reflexivity|].
  intros i key Hkey.
  assert (Hi : (i < 15)%nat).
  { apply (proj1 (nth_error_Some keys i)). rewrite Hkey. discriminate. }
  assert (Hcell : forall r row,
             nth_error rows r = Some row ->
             exists x, py_float (nth i row EmptyString) = Some x
                       /\ nth_error (map (fun row0 => unit_scale key (nth i row0 NaN)) m) r
                          = Some (unit_scale key x)).
  { intros r row Hr.
    destruct (Forall2_nth_error _ _ _ Hm r row Hr) as (mr & Hmr & Hrow).
    exists (nth i mr NaN). split.
    - apply floats_of_row_nth; [exact Hrow|].
      rewrite (rectangular_rows rows row Hrect (nth_error_In _ _ Hr)), <- Hw.
      cbn [List.length keys] in Hwide. lia.
    - rewrite nth_error_map, Hmr. reflexivity. }
  assert (Hfirst : forallb (fun k => negb (String.eqb k key)) (firstn i keys) = true).
  { clear - Hkey.
    do 15 (destruct i as [|i]; [injection Hkey as <-; vm_compute; reflexivity|]).
    destruct i; discriminate Hkey. }
  exists (map (fun row => unit_scale key (nth i row NaN)) m).
  split; [|split; [rewrite length_map; exact Hlen|exact Hcell]].
  exact (lookup_in_columns
           (fun j k => map (fun row => unit_scale k (nth j row NaN)) m)
           keys 0 i key Hkey Hfirst).
Qed.

End TableFurther.

Lemma table_values_follow_the_tokens_witness :
  map fst (columns descending_table) = keys
  /\ exists col,
       lookup "O+" (columns descending_table) = Ret col
       /\ List.length col = 2%nat
       /\ nth_error col 1 = Some (unit_scale "O+" (Fin (123 # 1))).
Proof.
  assert (Hparse : extract_iri_profile_data (ext := demo_ext)
                     (one_file (report header_42 [row_200; row_100])) "profile.txt"
                   = Ret (Some descending_table)) by (vm_compute; reflexivity).
  assert (Hrow : nth_error (scan_lines (ext := demo_ext)
                              (split_on newline (report header_42 [row_200; row_100])))
                           1
                 = Some (split_ws row_100)) by (vm_compute; reflexivity).
  assert (Hrows : List.length (scan_lines (ext := demo_ext)
                                 (split_on newline (report header_42 [row_200; row_100])))
                  = 2%nat) by (vm_compute; reflexivity).
  assert (Htok : dec_float (nth 6 (split_ws row_100) EmptyString)
                 = Some (Fin (123 # 1))) by (vm_compute; reflexivity).
  destruct (table_values_follow_the_tokens (ext := demo_ext)
              (one_file (report header_42 [row_200; row_100])) "profile.txt"
              (report header_42 [row_200; row_100]) descending_table
              eq_refl Hparse) as [Hkeys Hcols].
  split; [exact Hkeys|].
  destruct (Hcols 6%nat "O+" eq_refl) as (col & Hlook & Hlen & Hcell).
  exists col. split; [exact Hlook|]. split; [rewrite Hlen; exact Hrows|].
  destruct (Hcell 1%nat (split_ws row_100) Hrow) as (x & Hx & Hcol).
  change (@py_float demo_ext) with dec_float in Hx.
  rewrite Htok in Hx. injection Hx as <-. exact Hcol.
Defined.

Lemma Qround_half_even_close (a : Q) :
  (Qabs (inject_Z (Qround_half_even a) - a) <= 1 # 2)%Q.
Proof.
  unfold Qround_half_even.
  pose proof (Qfloor_le a) as Hf. pose proof (Qlt_floor a) as Hc.
  rewrite inject_Z_plus in Hc. change (inject_Z 1) with 1%Q in Hc.
  apply Qabs_Qle_condition.
  destruct (Qcompare_spec (a - inject_Z (Qfloor a)) (1 # 2)) as [E|L|G].
  - destruct (Z.even (Qfloor a)).
    + split; lra.
    + rewrite inject_Z_plus. change (inject_Z 1) with 1%Q. split; lra.
  - split; lra.
  - rewrite inject_Z_plus. change (inject_Z 1) with 1%Q. split; lra.
Qed.

(** Truncation moves a number by less than one, toward zero. *)
Lemma Qtruncate_close (a : Q) :
  (a - 1 < inject_Z (Qtruncate a) < a + 1)%Q
  /\ ((-1 < a)%Q -> 0 <= Qtruncate a).
Proof.
  unfold Qtruncate. destruct (Qle_bool 0 a) eqn:E.
  - apply Qle_bool_iff in E.
    pose proof (Qfloor_le a) as Hf. pose proof (Qlt_floor a) as Hc.
    rewrite inject_Z_plus in Hc. change (inject_Z 1) with 1%Q in Hc.
    split; [split; lra|]. intros _.
    change 0 with (Qfloor 0). apply Qfloor_resp_le. exact E.
  - pose proof (Qle_ceiling a) as Hc. pose proof (Qceiling_lt a) as Hc'.
    unfold Z.sub in Hc'. rewrite inject_Z_plus, inject_Z_opp in Hc'.
    change (inject_Z 1) with 1%Q in Hc'.
    split; [split; lra|]. intros Ha.
    assert (L : (inject_Z (-1) < inject_Z (Qceiling a))%Q).
    { change (inject_Z (-1)) with (-1 # 1)%Q. lra. }
    rewrite <- Zlt_Qlt in L. lia.
Qed.

Lemma Qround_half_even_nonneg (a : Q) :
  (-1 # 2 < a)%Q -> 0 <= Qround_half_even a.
Proof.
  intros Ha. pose proof (Qround_half_even_close a) as Hc.
  apply Qabs_Qle_condition in Hc.
  assert (L : (inject_Z (-1) < inject_Z (Qround_half_even a))%Q).
  { change (inject_Z (-1)) with (-1 # 1)%Q. lra. }
  rewrite <- Zlt_Qlt in L. lia.
Qed.

Lemma obind_ret {A B : Type} (m : outcome A) (k : A -> outcome B) (b : B) :
  obind m k = Ret b -> exists a, m = Ret a /\ k a = Ret b.
Proof. destruct m as [a|e]; [|discriminate]. intros H. exists a. auto. Qed.

Section TimeFurther.

Context {ext : Externals}.

(** The two float operations of the parser are accurate within [err] as
    long as the exact result is below 64 in magnitude (for binary64 numbers
    rounded to nearest, [err] is 2^-48: see [binary64_floats_accurate]). *)
Definition floats_accurate_within (err : Q) : Prop :=
  (forall a b, (Qabs (a - b) < 64 # 1)%Q ->
               (Qabs (float_sub a b - (a - b)) <= err)%Q)
  /\ (forall a b, (Qabs (a * b) < 64 # 1)%Q ->
                  (Qabs (float_mul a b - a * b) <= err)%Q).

(** X12: the instant the header resolves to is a midnight plus a whole
    number of seconds that follows the fractional hour [h] of the header:
    with float operations accurate within [err], it differs from [3600 * h]
    by at most half a second and [3721 * err].  The hour is not bounded: an
    hour of 24 or more, or seconds that round up to 60, carry into the
    following minute, hour or day. *)
Theorem resolved_time_follows_the_fractional_hour
    (year_str doy_str ut_hour_str : string) (h err : Q) (dt : datetime) :
  floats_accurate_within err -> (err <= 1 # 8000)%Q ->
  py_float ut_hour_str = Some (Fin h) -> (0 <= h)%Q ->
  resolve_datetime year_str doy_str ut_hour_str = Ret dt ->
  exists day delta : Z,
    dt = datetime_of_seconds (day * 86400 + delta)
    /\ 0 <= delta
    /\ (Qabs (inject_Z delta - (3600 # 1) * h) <= (1 # 2) + (3721 # 1) * err)%Q.
Proof.
  intros [Hsub Hmul] Herr Hfloat Hh. unfold resolve_datetime, float_of_str.
  rewrite Hfloat. intros H.
  apply obind_ret in H. destruct H as (y & _ & H).
  apply obind_ret in H. destruct H as (doy & _ & H).
  cbn [obind] in H.
  apply obind_ret in H. destruct H as (jan1 & _ & H).
  apply obind_ret in H. destruct H as (days & _ & H).
  apply obind_ret in H. destruct H as (date_obj & _ & H).
  cbn [py_int obind float_minus float_times py_round] in H.
  set (hours := Qtruncate h) in *.
  set (s1 := float_sub h (inject_Z hours)) in *.
  set (mf := float_mul s1 (60 # 1)) in *.
  set (minutes := Qtruncate mf) in *.
  set (s2 := float_sub mf (inject_Z minutes)) in *.
  set (sf := float_mul s2 (60 # 1)) in *.
  set (seconds := Qround_half_even sf) in *.
  apply obind_ret in H. destruct H as (time_delta & Hdelta & H).
  unfold timedelta in Hdelta.
  destruct (Z.abs _ <=? max_delta_days); [|discriminate].
  injection Hdelta as <-.
  unfold datetime_add in H.
  destruct ((1 <=? _) && (_ <=? max_ordinal)); [|discriminate].
  injection H as <-.
  assert (Herr0 : (0 <= err)%Q).
  { apply Qle_trans with (Qabs (float_sub 0 0 - (0 - 0))); [apply Qabs_nonneg|].
    apply Hsub. reflexivity. }
  (* the hours *)
  destruct (Qtruncate_close h) as [[Hh1 Hh2] Hh0]. fold hours in Hh1, Hh2, Hh0.
  assert (Hhours : 0 <= hours) by (apply Hh0; lra).
  assert (Hh3 : (inject_Z hours <= h)%Q).
  { unfold hours, Qtruncate. rewrite (proj2 (Qle_bool_iff 0 h) Hh). apply Qfloor_le. }
  (* the first difference and product *)
  assert (E1 : (Qabs (s1 - (h - inject_Z hours)) <= err)%Q).
  { apply Hsub. apply Qabs_case; intros; lra. }
  apply Qabs_Qle_condition in E1.
  assert (E2 : (Qabs (mf - s1 * (60 # 1)) <= err)%Q).
  { apply Hmul. apply Qabs_case; intros; lra. }
  apply Qabs_Qle_condition in E2.
  (* the minutes *)
  destruct (Qtruncate_close mf) as [[Hm1 Hm2] Hm0]. fold minutes in Hm1, Hm2, Hm0.
  assert (Hminutes : 0 <= minutes) by (apply Hm0; lra).
  assert (Hm3 : (inject_Z minutes <= mf)%Q \/ ((mf < 0)%Q /\ minutes = 0)).
  { destruct (Qlt_le_dec mf 0) as [L|G].
    - right. split; [exact L|].
      assert (L' : (inject_Z minutes < inject_Z 1)%Q).
      { change (inject_Z 1) with 1%Q. lra. }
      rewrite <- Zlt_Qlt in L'. lia.
    - left. unfold minutes, Qtruncate.
      rewrite (proj2 (Qle_bool_iff 0 mf) G). apply Qfloor_le. }
  (* the second difference and product *)
  assert (E3 : (Qabs (s2 - (mf - inject_Z minutes)) <= err)%Q).
  { apply Hsub. apply Qabs_case; intros; lra. }
  apply Qabs_Qle_condition in E3.
  assert (Hs2 : (- (62 # 1) * err <= s2)%Q).
  { destruct Hm3 as [Hm3|[Hm3 Hz]].
    - lra.
    - rewrite Hz in E3. change (inject_Z 0) with 0%Q in E3. lra. }
  assert (E4 : (Qabs (sf - s2 * (60 # 1)) <= err)%Q).
  { apply Hmul. apply Qabs_case; intros; lra. }
  apply Qabs_Qle_condition in E4.
  (* the seconds *)
  pose proof (Qround_half_even_close sf) as Hclose. fold seconds in Hclose.
  apply Qabs_Qle_condition in Hclose.
  assert (Hseconds : 0 <= seconds).
  { apply Qround_half_even_nonneg. lra. }
  exists (ymd2ord (year (at_midnight date_obj)) (month (at_midnight date_obj))
                  (day (at_midnight date_obj))),
         (hours * 3600 + minutes * 60 + seconds).
  split; [|split].
  - unfold seconds_of_datetime. cbn [hour minute second at_midnight].
    f_equal. lia.
  - lia.
  - rewrite !inject_Z_plus, !inject_Z_mult.
    change (inject_Z 3600) with (3600 # 1)%Q. change (inject_Z 60) with (60 # 1)%Q.
    apply Qabs_Qle_condition.
    clearbody sf s2 mf s1.
    set (qh := inject_Z hours) in *. set (qm := inject_Z minutes) in *.
    set (qs := inject_Z seconds) in *. clearbody qh qm qs.
    split; lra.
Qed.

End TimeFurther.

Lemma Qdiv_le_cross (A B N : Z) (D : positive) :
  0 < B -> A * Zpos D <= N * B ->
  (inject_Z A / inject_Z B <= N # D)%Q.
Proof.
  intros HB H.
  assert (HBq : (0 < inject_Z B)%Q) by (change 0%Q with (inject_Z 0); rewrite <- Zlt_Qlt; exact HB).
  apply Qle_shift_div_r; [exact HBq|].
  unfold Qle, Qmult, inject_Z. cbn [Qnum Qden].
  rewrite Z.mul_1_r. rewrite Pos.mul_1_r. exact H.
Qed.

(** The exponent [binary64] takes for a positive [a] is not above [a]. *)
Lemma binary_exponent_below (a : Q) :
  (0 < a)%Q ->
  let e0 := Z.log2 (Qnum a) - Z.log2 (Zpos (Qden a)) in
  let e := if Qle_bool (Qpower (2 # 1) e0) a then e0 else e0 - 1 in
  (Qpower (2 # 1) e <= a)%Q.
Proof.
  intros Ha e0 e. subst e. destruct (Qle_bool (Qpower (2 # 1) e0) a) eqn:E.
  - apply Qle_bool_iff. exact E.
  - destruct a as [n d]. unfold Qlt in Ha. cbn [Qnum Qden] in *.
    rewrite Z.mul_1_r in Ha. change (0 * Zpos d) with 0 in Ha.
    subst e0.
    destruct (Z.log2_spec n Ha) as [Hn _].
    destruct (Z.log2_spec (Zpos d) (Pos2Z.is_pos d)) as [_ Hd].
    pose proof (Z.log2_nonneg n) as Hln. pose proof (Z.log2_nonneg (Zpos d)) as Hld.
    replace (Z.log2 n - Z.log2 (Zpos d) - 1) with (Z.log2 n - Z.succ (Z.log2 (Zpos d))) by lia.
    rewrite Qpower_minus by discriminate.
    change (2 # 1)%Q with (inject_Z 2).
    rewrite <- !Zpower_Qpower by lia.
    apply Qdiv_le_cross.
    + apply Z.pow_pos_nonneg; lia.
    + nia.
Qed.

Lemma binary64_close (x : Q) :
  (Qabs x < 64 # 1)%Q -> (Qabs (binary64 x - x) <= 1 # 281474976710656)%Q.
Proof.
  intros Hx. unfold binary64.
  destruct (Qeq_bool x 0) eqn:E0.
  - apply Qeq_bool_iff in E0. apply Qabs_Qle_condition. split; lra.
  - assert (Hne : ~ (x == 0)%Q) by (intros H; apply Qeq_bool_iff in H; congruence).
    assert (Ha : (0 < Qabs x)%Q).
    { pose proof (Qabs_nonneg x) as H0.
      destruct (Qlt_le_dec 0 (Qabs x)) as [L|G]; [exact L|].
      exfalso. apply Hne. apply Qabs_Qle_condition in G. lra. }
    pose proof (binary_exponent_below (Qabs x) Ha) as He. cbv zeta in He.
    set (e := if Qle_bool _ (Qabs x) then _ else _) in *.
    assert (He6 : e < 6).
    { apply (Qpower_lt_compat_l_inv (2 # 1)); [|reflexivity].
      apply Qle_lt_trans with (Qabs x); [exact He|].
      assert (E6 : (Qpower (2 # 1) 6 == 64 # 1)%Q) by reflexivity.
      rewrite E6. exact Hx. }
    set (ulp := Qpower (2 # 1) (Z.max e (-1022) - 52)).
    assert (Hulp0 : (0 < ulp)%Q) by (apply Qpower_0_lt; reflexivity).
    assert (Hulp : (ulp <= 1 # 140737488355328)%Q).
    { assert (E47 : (Qpower (2 # 1) (-47) == 1 # 140737488355328)%Q) by reflexivity.
      rewrite <- E47. apply Qpower_le_compat_l; [lia|discriminate]. }
    set (r := (Qabs x / ulp)%Q).
    pose proof (Qround_half_even_close r) as Hr.
    set (t := (inject_Z (Qround_half_even r) - r)%Q) in *.
    assert (Hm : (inject_Z (Qround_half_even r) * ulp - Qabs x == t * ulp)%Q).
    { unfold t, r. field. lra. }
    assert (Hbound : (Qabs (t * ulp) <= 1 # 281474976710656)%Q).
    { rewrite Qabs_Qmult, (Qabs_pos ulp) by lra.
      apply Qle_trans with ((1 # 2) * (1 # 140737488355328))%Q; [|discriminate].
      apply Qmult_le_compat_nonneg.
      - split; [apply Qabs_nonneg|exact Hr].
      - split; [lra|exact Hulp]. }
    destruct (Qle_bool 0 x) eqn:Es.
    + apply Qle_bool_iff in Es.
      assert (Eabs : (Qabs x == x)%Q) by (apply Qabs_pos; exact Es).
      setoid_replace (inject_Z (Qround_half_even r) * ulp - x)%Q
        with (inject_Z (Qround_half_even r) * ulp - Qabs x)%Q
        by (rewrite Eabs; reflexivity).
      rewrite Hm. exact Hbound.
    + assert (Hneg : (x < 0)%Q).
      { destruct (Qlt_le_dec x 0) as [L|G]; [exact L|].
        apply Qle_bool_iff in G. congruence. }
      assert (Eabs : (Qabs x == - x)%Q) by (apply Qabs_neg; lra).
      setoid_replace (- (inject_Z (Qround_half_even r) * ulp) - x)%Q
        with (- (inject_Z (Qround_half_even r) * ulp - Qabs x))%Q
        by (rewrite Eabs; ring).
      rewrite Qabs_opp, Hm. exact Hbound.
Qed.

(** The binary64 operations are accurate within 2^-48 below 64. *)
Lemma binary64_floats_accurate :
  floats_accurate_within (ext := binary64_ext) (1 # 281474976710656).
Proof.
  split; intros a b H; cbn [float_sub float_mul binary64_ext];
    apply binary64_close; exact H.
Qed.

Lemma resolved_time_follows_the_fractional_hour_witness :
  exists day delta : Z,
    mk_datetime 2012 2 11 11 0 0 = datetime_of_seconds (day * 86400 + delta)
    /\ 0 <= delta
    /\ (Qabs (inject_Z delta - (3600 # 1) * binary64 (1099999 # 100000))
        <= (1 # 2) + (3721 # 1) * (1 # 281474976710656))%Q.
Proof.
  apply (resolved_time_follows_the_fractional_hour (ext := binary64_ext)
           "2012" "-42" "10.99999" (binary64 (1099999 # 100000))
           (1 # 281474976710656) (mk_datetime 2012 2 11 11 0 0)).
  - exact binary64_floats_accurate.
  - discriminate.
  - reflexivity.
  - vm_compute. discriminate.
  - vm_compute. reflexivity.
Defined.

(* ================================================================== *)
(** * Further properties of [getdata.py] *)
(* ================================================================== *)

Lemma py_gtb_nan (y : pyfloat) : py_gtb NaN y = false.
Proof. destruct y; reflexivity. Qed.

(** X13: only the altitude is ever masked.  The altitude array has already
    been masked when the latitude and the longitude are compared with it,
    and a NaN is not above 2000: the second and third [np.where] return
    the latitude and the longitude as they are, also for the samples above
    2000 km. *)
Theorem latitude_and_longitude_are_never_masked (alt x : list pyfloat) :
  List.length x = List.length alt ->
  where_above (where_above alt alt) x = x.
Proof.
  revert x. induction alt as [|a alt IH]; intros [|x0 x] Hlen;
    try discriminate Hlen; [reflexivity|].
  unfold where_above in *. cbn [combine map fst snd].
  injection Hlen as Hlen. rewrite (IH x Hlen).
  destruct (py_gtb a max_alt_km) eqn:Ea.
  - rewrite py_gtb_nan. reflexivity.
  - rewrite Ea. reflexivity.
Qed.

Lemma latitude_and_longitude_are_never_masked_witness :
  where_above (where_above [Fin (300 # 1); Fin (3000 # 1)]
                           [Fin (300 # 1); Fin (3000 # 1)])
              [Fin (35 # 1); Fin (36 # 1)]
  = [Fin (35 # 1); Fin (36 # 1)].
Proof.
  apply (latitude_and_longitude_are_never_masked
           [Fin (300 # 1); Fin (3000 # 1)] [Fin (35 # 1); Fin (36 # 1)]).
  reflexivity.
Defined.

(** X14: the longitude [getdata] passes on, [np.fmod(lon + 360, 360)], lies
    in [0, 360) whenever [lon] is at least -360; for a longitude below -360
    it is not brought into that range: it is negative or zero, above
    -360. *)
Theorem fmod_normalizes_from_minus_360 (lon : Q) :
  exists x,
    np_fmod (py_add (Fin lon) (Fin (360 # 1))) (360 # 1) = Fin x
    /\ ((-360 # 1 <= lon)%Q -> (0 <= x < 360 # 1)%Q)
    /\ ((lon < -360 # 1)%Q -> (-360 # 1 < x <= 0)%Q).
Proof.
  cbn [py_add np_fmod]. eexists. split; [reflexivity|].
  unfold Qfmod.
  set (a := (lon + (360 # 1))%Q).
  assert (Hdiv : (a / (360 # 1) == a * (1 # 360))%Q) by field.
  split; unfold Qtruncate.
  - intros Hlon.
    assert (Ha : Qle_bool 0 (a / (360 # 1)) = true).
    { apply Qle_bool_iff. rewrite Hdiv. unfold a. lra. }
    rewrite Ha.
    pose proof (Qfloor_le (a / (360 # 1))) as Hf.
    pose proof (Qlt_floor (a / (360 # 1))) as Hf'.
    rewrite inject_Z_plus in Hf'. change (inject_Z 1) with 1%Q in Hf'.
    set (f := inject_Z (Qfloor (a / (360 # 1)))) in *.
    rewrite Hdiv in Hf, Hf'. unfold a in *. split; lra.
  - intros Hlon.
    assert (Ha : Qle_bool 0 (a / (360 # 1)) = false).
    { destruct (Qle_bool 0 (a / (360 # 1))) eqn:E; [|reflexivity].
      apply Qle_bool_iff in E. rewrite Hdiv in E. unfold a in E. lra. }
    rewrite Ha.
    pose proof (Qle_ceiling (a / (360 # 1))) as Hc.
    pose proof (Qceiling_lt (a / (360 # 1))) as Hc'.
    unfold Z.sub in Hc'. rewrite inject_Z_plus, inject_Z_opp in Hc'.
    change (inject_Z 1) with 1%Q in Hc'.
    set (c := inject_Z (Qceiling (a / (360 # 1)))) in *.
    rewrite Hdiv in Hc, Hc'. unfold a in *. split; lra.
Qed.

Lemma argmin_from_spec (qs : list Q) :
  forall (best_i : nat) (best : Q) (i : nat),
    let k := argmin_from best_i (Fin best) i (map Fin qs) in
    (k = best_i /\ forall j, (j < List.length qs)%nat -> (best <= nth j qs 0)%Q)
    \/ exists j,
         k = (i + j)%nat /\ (j < List.length qs)%nat
         /\ (nth j qs 0 < best)%Q
         /\ (forall j', (j' < List.length qs)%nat -> (nth j qs 0 <= nth j' qs 0)%Q)
         /\ (forall j', (j' < j)%nat -> (nth j qs 0 < nth j' qs 0)%Q).
Proof.
  induction qs as [|q rest IH]; intros best_i best i; cbv zeta.
  - left. split; [reflexivity|]. intros j Hj. cbn in Hj. lia.
  - cbn [map argmin_from np_isnan orb py_ltb].
    destruct (Qltb_spec q best) as [Hlt|Hge].
    + right. destruct (IH i q (Datatypes.S i)) as [[-> Hall]|(j & -> & Hj & Hq & Hmin & Hfirst)].
      * exists 0%nat. repeat split.
        -- lia.
        -- cbn [List.length]. lia.
        -- exact Hlt.
        -- intros [|j'] Hj'; cbn [nth]; [lra|].
           apply Hall. cbn [List.length] in Hj'. lia.
        -- intros j' Hj'. lia.
      * exists (Datatypes.S j). cbn [nth List.length]. repeat split.
        -- lia.
        -- lia.
        -- lra.
        -- intros [|j'] Hj'; [lra|]. apply Hmin. lia.
        -- intros [|j'] Hj'; [exact Hq|]. apply Hfirst. lia.
    + assert (Hge' : (best <= q)%Q) by lra.
      destruct (IH best_i best (Datatypes.S i))
        as [[-> Hall]|(j & -> & Hj & Hq & Hmin & Hfirst)].
      * left. split; [reflexivity|].
        intros [|j] Hj; cbn [nth]; [exact Hge'|].
        apply Hall. cbn [List.length] in Hj. lia.
      * right. exists (Datatypes.S j). cbn [nth List.length]. repeat split.
        -- lia.
        -- lia.
        -- exact Hq.
        -- intros [|j'] Hj'; [lra|]. apply Hmin. lia.
        -- intros [|j'] Hj'; [lra|]. apply Hfirst. lia.
Qed.


Lemma bind_lift {A B : Type} (a : A) (k : A -> M B) (w : world) :
  bind (lift (Ret a)) k w = k a w.
Proof. unfold bind, lift. destruct (k a w) as [[r w2] t2]. reflexivity. Qed.

Lemma bind_emit {B : Type} (e : event) (k : unit -> M B) (w : world) :
  bind (emit e) k w = (fst (k tt w), e :: snd (k tt w)).
Proof. unfold bind, emit. destruct (k tt w) as [[r w2] t2]. reflexivity. Qed.

Lemma index_lt {A : Type} (xs : list A) (i : nat) :
  (i < List.length xs)%nat -> exists x, index xs i = Ret x.
Proof.
  intros H. unfold index. destruct (nth_error xs i) as [x|] eqn:E.
  - exists x. reflexivity.
  - apply nth_error_None in E. lia.
Qed.

Lemma index_nth {A : Type} (xs : list A) (i : nat) (x d : A) :
  index xs i = Ret x -> nth i xs d = x /\ (i < List.length xs)%nat.
Proof.
  unfold index. destruct (nth_error xs i) as [y|] eqn:E; [|discriminate].
  intros [= <-]. split; [apply nth_error_nth; exact E|].
  apply nth_error_Some. rewrite E. discriminate.
Qed.

Section SkippedSamples.

Context {ext : Externals}.

Variables (times : list pyfloat) (dt_times : list datetime)
          (alt lat lon : list pyfloat) (res_alt : pyfloat) (verbose : bool).

(** A timestep whose altitude is NaN is passed over: the progress bar is
    drawn and nothing else happens. *)
Lemma series_loop_skips (steps : list nat) (d : list (string * list pyfloat))
    (w : world) :
  (forall i, In i steps ->
             (i < List.length dt_times)%nat /\ (i < List.length lon)%nat
             /\ (i < List.length lat)%nat /\ index alt i = Ret NaN) ->
  series_loop times dt_times alt lat lon res_alt verbose steps d w
  = (Ret (Completed d), w,
     map (fun i => ProgressBar (Z.of_nat i) (Z.of_nat (List.length times))) steps).
Proof.
  induction steps as [|i rest IH]; intros H; [reflexivity|].
  destruct (H i (or_introl eq_refl)) as (Hdt & Hlon & Hlat & Halt).
  destruct (index_lt dt_times i Hdt) as [dt_i Edt].
  destruct (index_lt lon i Hlon) as [lon_i Elon].
  destruct (index_lt lat i Hlat) as [lat_i Elat].
  cbn [series_loop]. rewrite bind_emit.
  rewrite Edt, bind_lift, Elon, bind_lift, Elat, bind_lift, Halt, bind_lift.
  cbn [np_isnan]. rewrite IH by (intros j Hj; apply H; right; exact Hj).
  reflexivity.
Qed.

End SkippedSamples.

Lemma where_above_length (alt x : list pyfloat) :
  List.length (where_above alt x) = Nat.min (List.length alt) (List.length x).
Proof. unfold where_above. rewrite length_map. apply length_combine. Qed.

Section NothingToFetch.

Context {ext : Externals}.

(** X16: when every sample lies above 2000 km (in particular when there is
    no sample at all), [getdata] sends no query and starts no browser; it
    then removes the scratch file, which it has not written: when no such
    file is left from an earlier run, it raises [FileNotFoundError] instead
    of returning its empty dictionary. *)
Theorem nothing_to_fetch_ends_in_file_not_found
    (times : list pyfloat) (rmlatmlt r mlat mlt : ndarray) (res_alt : pyfloat)
    (verbose : bool) (w : world) :
  shape rmlatmlt = [List.length times; 3%nat] ->
  take_axis1 rmlatmlt 0 = Ret r ->
  take_axis1 rmlatmlt 1 = Ret mlat ->
  take_axis1 rmlatmlt 2 = Ret mlt ->
  List.length (geom2rmlatmlt times r mlat mlt) = List.length times ->
  Forall (fun e => py_gtb (fst (fst e)) max_alt_km = true)
         (geom2rmlatmlt times r mlat mlt) ->
  List.length (time_convert_datetime times) = List.length times ->
  let progress :=
    map (fun i => ProgressBar (Z.of_nat i) (Z.of_nat (List.length times)))
        (seq 0 (List.length times)) in
  getdata times rmlatmlt res_alt verbose w =
  match w_files w scratch with
  | None => (Raise FileNotFoundError, w, progress)
  | Some _ =>
      (Ret (Some empty_dict),
       mk_world (remove_file scratch (w_files w)) (w_sessions w),
       (progress ++ [Removed scratch; Print "Deleted temporal file"])%list)
  end.
Proof.
  intros Hshape Hr Hmlat Hmlt Hgeo Habove Hdt progress. unfold getdata.
  assert (Hn : np_len rmlatmlt = Ret (List.length times)).
  { unfold np_len. rewrite Hshape. reflexivity. }
  assert (Hg : shape_guard rmlatmlt = Ret false).
  { unfold shape_guard, ndim. rewrite Hshape. reflexivity. }
  rewrite Hn, bind_lift, Nat.eqb_refl. cbn [negb].
  rewrite Hg, bind_lift, Hr, bind_lift, Hmlat, bind_lift, Hmlt, bind_lift.
  cbv zeta.
  set (geo := geom2rmlatmlt times r mlat mlt) in *.
  set (alt0 := map (fun e => fst (fst e)) geo).
  assert (Hlen0 : List.length alt0 = List.length times).
  { unfold alt0. rewrite length_map. exact Hgeo. }
  assert (Hmasked : forall i, (i < List.length times)%nat ->
                              index (map (fun a => py_scale a e3)
                                         (where_above alt0 alt0)) i = Ret NaN).
  { intros i Hi. unfold index, where_above.
    rewrite nth_error_map. rewrite nth_error_map.
    destruct (nth_error (combine alt0 alt0) i) as [[a a']|] eqn:E.
    - cbn [option_map fst snd].
      assert (Ha : py_gtb a max_alt_km = true).
      { apply nth_error_In in E. apply in_combine_l in E.
        unfold alt0 in E. apply in_map_iff in E. destruct E as (e & <- & He).
        rewrite Forall_forall in Habove. apply Habove. exact He. }
      rewrite Ha. reflexivity.
    - apply nth_error_None in E. rewrite length_combine in E. lia. }
  unfold bind at 1.
  rewrite (series_loop_skips times (time_convert_datetime times) _ _ _ res_alt
             verbose (seq 0 (List.length times)) empty_dict w).
  - fold progress. unfold os_remove, bind, emit, ret.
    destruct (w_files w scratch); rewrite ?app_nil_r; reflexivity.
  - intros i Hi. apply in_seq in Hi.
    split; [lia|].
    repeat rewrite ?length_map, ?where_above_length, ?Hlen0, ?Hgeo.
    split; [lia|]. split; [lia|]. apply Hmasked. lia.
Qed.

End NothingToFetch.

Lemma nothing_to_fetch_ends_in_file_not_found_witness :
  getdata (ext := demo_ext) [Fin 0]
          (mk_ndarray [1; 3]%nat [Fin (3000 # 1); Fin (35 # 1); Fin (135 # 1)])
          (Fin (50 # 1)) false (mk_world no_files [good_session])
  = (Raise FileNotFoundError, mk_world no_files [good_session], [ProgressBar 0 1]).
Proof.
  apply (nothing_to_fetch_ends_in_file_not_found (ext := demo_ext) [Fin 0]
           (mk_ndarray [1; 3]%nat [Fin (3000 # 1); Fin (35 # 1); Fin (135 # 1)])
           (mk_ndarray [1%nat] [Fin (3000 # 1)])
           (mk_ndarray [1%nat] [Fin (35 # 1)])
           (mk_ndarray [1%nat] [Fin (135 # 1)])
           (Fin (50 # 1)) false (mk_world no_files [good_session])
           eq_refl eq_refl eq_refl eq_refl eq_refl).
  - repeat constructor.
  - reflexivity.
Defined.

(** The dictionary of [getdata]: the list of times, the list of altitudes
    and the seven lists of [vars], under their keys and in this order. *)
Definition dict_of (ts al : list pyfloat) (cs : list (list pyfloat))
    : list (string * list pyfloat) :=
  ("times", ts) :: ("altitude", al) :: combine vars cs.

(** One more entry at the end of each list. *)
Definition snoc_each (cs : list (list pyfloat)) (xs : list pyfloat)
    : list (list pyfloat) :=
  map (fun cx => (fst cx ++ [snd cx])%list) (combine cs xs).

Lemma snoc_each_length (cs : list (list pyfloat)) :
  forall (xs : list pyfloat) (n : nat),
    List.length xs = List.length cs ->
    Forall (fun c => List.length c = n) cs ->
    Forall (fun c => List.length c = Datatypes.S n) (snoc_each cs xs)
    /\ List.length (snoc_each cs xs) = List.length cs.
Proof.
  induction cs as [|c cs IH]; intros [|x xs] n Hlen Hall; try discriminate Hlen.
  - split; [constructor|reflexivity].
  - injection Hlen as Hlen. inversion Hall as [|? ? Hc Hcs]; subst.
    destruct (IH xs (List.length c) Hlen Hcs) as [Hs Hl].
    unfold snoc_each in *. cbn [combine map fst snd List.length]. split.
    + constructor; [rewrite length_app; cbn [List.length]; lia|exact Hs].
    + rewrite Hl. reflexivity.
Qed.

Lemma appended_to_every_list (ts al c1 c2 c3 c4 c5 c6 c7 : list pyfloat)
    (t a x1 x2 x3 x4 x5 x6 x7 : pyfloat) :
  dict_append "NO+" x7
    (dict_append "O2+" x6
       (dict_append "He+" x5
          (dict_append "H+" x4
             (dict_append "N+" x3
                (dict_append "O+" x2
                   (dict_append "Ne" x1
                      (dict_append "altitude" a
                         (dict_append "times" t
                            (dict_of ts al [c1; c2; c3; c4; c5; c6; c7])))))))))
  = dict_of (ts ++ [t]) (al ++ [a])
            (snoc_each [c1; c2; c3; c4; c5; c6; c7] [x1; x2; x3; x4; x5; x6; x7]).
Proof. vm_compute. reflexivity. Qed.

Section OutputShape.

Context {ext : Externals}.

(** A recorded sample adds one entry to each of the nine lists. *)
Lemma record_sample_dict (fs : files) (t a : pyfloat) (ts al : list pyfloat)
    (cs : list (list pyfloat)) (d' : list (string * list pyfloat)) :
  List.length cs = 7%nat ->
  record_sample fs t a (dict_of ts al cs) = Ret d' ->
  exists xs, List.length xs = 7%nat
             /\ d' = dict_of (ts ++ [t]) (al ++ [a]) (snoc_each cs xs).
Proof.
  intros Hlen.
  destruct cs as [|c1 [|c2 [|c3 [|c4 [|c5 [|c6 [|c7 [|c8 cs]]]]]]]];
    try discriminate Hlen.
  unfold record_sample.
  destruct (extract_iri_profile_data fs scratch) as [[table|]|]; cbn [obind];
    try discriminate.
  destruct (lookup "altitude" (columns table)) as [alt_data|]; cbn [obind];
    try discriminate.
  destruct (np_argmin _) as [idx|]; cbn [obind]; try discriminate.
  unfold vars at 1. cbn [append_vars].
  destruct (lookup "Ne" (columns table)) as [k1|]; cbn [obind]; try discriminate.
  destruct (index k1 idx) as [x1|]; cbn [obind]; try discriminate.
  destruct (lookup "O+" (columns table)) as [k2|]; cbn [obind]; try discriminate.
  destruct (index k2 idx) as [x2|]; cbn [obind]; try discriminate.
  destruct (lookup "N+" (columns table)) as [k3|]; cbn [obind]; try discriminate.
  destruct (index k3 idx) as [x3|]; cbn [obind]; try discriminate.
  destruct (lookup "H+" (columns table)) as [k4|]; cbn [obind]; try discriminate.
  destruct (index k4 idx) as [x4|]; cbn [obind]; try discriminate.
  destruct (lookup "He+" (columns table)) as [k5|]; cbn [obind]; try discriminate.
  destruct (index k5 idx) as [x5|]; cbn [obind]; try discriminate.
  destruct (lookup "O2+" (columns table)) as [k6|]; cbn [obind]; try discriminate.
  destruct (index k6 idx) as [x6|]; cbn [obind]; try discriminate.
  destruct (lookup "NO+" (columns table)) as [k7|]; cbn [obind]; try discriminate.
  destruct (index k7 idx) as [x7|]; cbn [obind]; try discriminate.
  intros [= <-]. exists [x1; x2; x3; x4; x5; x6; x7].
  split; [reflexivity|]. apply appended_to_every_list.
Qed.

Variables (times : list pyfloat) (dt_times : list datetime)
          (alt lat lon : list pyfloat) (res_alt : pyfloat) (verbose : bool).

Let fetched (steps : list nat) : list nat :=
  filter (fun i => negb (np_isnan (nth i alt NaN))) steps.

(** The loop, when it runs to its end, has recorded the timesteps whose
    altitude is not NaN, one entry each in every list, in order. *)
Lemma series_loop_dict (steps : list nat) :
  forall (ts al : list pyfloat) (cs : list (list pyfloat)) (n : nat)
         (w w' : world) (d' : list (string * list pyfloat)) (trace : list event),
    List.length cs = 7%nat ->
    Forall (fun c => List.length c = n) cs ->
    series_loop times dt_times alt lat lon res_alt verbose steps (dict_of ts al cs) w
    = (Ret (Completed d'), w', trace) ->
    exists cs',
      List.length cs' = 7%nat
      /\ Forall (fun c => List.length c = (n + List.length (fetched steps))%nat) cs'
      /\ d' = dict_of (ts ++ map (fun i => nth i times NaN) (fetched steps))
                      (al ++ map (fun i => nth i alt NaN) (fetched steps)) cs'.
Proof.
  induction steps as [|i rest IH]; intros ts al cs n w w' d' trace Hlen Hall H.
  - cbn [series_loop] in H. unfold ret in H. injection H as <- _ _.
    exists cs. cbn [fetched filter map List.length]. rewrite !app_nil_r, Nat.add_0_r.
    repeat split; assumption.
  - cbn [series_loop] in H.
    apply bind_inv in H. destruct H as ([] & w1 & t1 & t2 & _ & H & _).
    apply bind_inv in H. destruct H as (dt_i & w2 & t3 & t4 & _ & H & _).
    apply bind_inv in H. destruct H as (lon_i & w3 & t5 & t6 & _ & H & _).
    apply bind_inv in H. destruct H as (lat_i & w4 & t7 & t8 & _ & H & _).
    apply bind_inv in H. destruct H as (alt_i & w5 & t9 & t10 & Halt & H & _).
    unfold lift in Halt. injection Halt as Halt _ _.
    destruct (index_nth alt i alt_i NaN Halt) as [Hnth _].
    unfold fetched. cbn [filter]. rewrite Hnth. fold (fetched rest).
    destruct (np_isnan alt_i); cbn [negb].
    + apply (IH ts al cs n _ _ _ _ Hlen Hall H).
    + apply bind_inv in H. destruct H as (ret_code & w6 & t11 & t12 & _ & H & _).
      destruct (negb (ret_code =? 0)).
      * apply bind_inv in H. destruct H as ([] & w7 & t13 & t14 & _ & H & _).
        discriminate H.
      * apply bind_inv in H. destruct H as (time_i & w7 & t13 & t14 & Htime & H & _).
        unfold lift in Htime. injection Htime as Htime _ _.
        destruct (index_nth times i time_i NaN Htime) as [Htnth _].
        apply bind_inv in H. destruct H as (d1 & w8 & t15 & t16 & Hrec & H & _).
        unfold lift in Hrec. injection Hrec as Hrec _ _.
        destruct (record_sample_dict _ _ _ _ _ _ _ Hlen Hrec) as (xs & Hxs & ->).
        destruct (snoc_each_length cs xs n ltac:(lia) Hall) as [Hall' Hlen'].
        assert (Hlen7 : List.length (snoc_each cs xs) = 7%nat) by lia.
        destruct (IH _ _ _ (Datatypes.S n) _ _ _ _ Hlen7 Hall' H)
          as (cs' & Hcs' & Hall'' & ->).
        exists cs'. split; [exact Hcs'|]. split.
        -- cbn [List.length]. replace (n + Datatypes.S (List.length (fetched rest)))%nat
             with (Datatypes.S n + List.length (fetched rest))%nat by lia.
           exact Hall''.
        -- cbn [map]. rewrite Htnth, Hnth, <- !app_assoc. reflexivity.
Qed.

(** When the loop is left by its [return], the warning is the last thing
    that happened. *)
Lemma series_loop_returned (steps : list nat) :
  forall (d : list (string * list pyfloat)) (w w' : world) (trace : list event),
    series_loop times dt_times alt lat lon res_alt verbose steps d w
    = (Ret Returned, w', trace) ->
    exists before,
      trace = (before ++ [DisplayWarning "run_iri_profile failed"])%list.
Proof.
  induction steps as [|i rest IH]; intros d w w' trace H.
  - discriminate H.
  - cbn [series_loop] in H.
    apply bind_inv in H. destruct H as ([] & w1 & t1 & t2 & _ & H & ->).
    apply bind_inv in H. destruct H as (dt_i & w2 & t3 & t4 & _ & H & ->).
    apply bind_inv in H. destruct H as (lon_i & w3 & t5 & t6 & _ & H & ->).
    apply bind_inv in H. destruct H as (lat_i & w4 & t7 & t8 & _ & H & ->).
    apply bind_inv in H. destruct H as (alt_i & w5 & t9 & t10 & _ & H & ->).
    assert (Hwrap : forall t,
               (exists before, t = (before ++ [DisplayWarning "run_iri_profile failed"])%list) ->
               exists before,
                 (t1 ++ t3 ++ t5 ++ t7 ++ t9 ++ t)%list
                 = (before ++ [DisplayWarning "run_iri_profile failed"])%list).
    { intros t [before ->]. exists (t1 ++ t3 ++ t5 ++ t7 ++ t9 ++ before)%list.
      rewrite <- !app_assoc. reflexivity. }
    apply Hwrap.
    destruct (np_isnan alt_i).
    + apply (IH _ _ _ _ H).
    + apply bind_inv in H. destruct H as (ret_code & w6 & t11 & t12 & _ & H & ->).
      destruct (negb (ret_code =? 0)).
      * apply bind_inv in H. destruct H as ([] & w7 & t13 & t14 & Hwarn & H & ->).
        unfold emit in Hwarn. injection Hwarn as _ <-.
        unfold ret in H. injection H as _ <-.
        exists t11. reflexivity.
      * apply bind_inv in H. destruct H as (time_i & w7 & t13 & t14 & _ & H & ->).
        apply bind_inv in H. destruct H as (d1 & w8 & t15 & t16 & _ & H & ->).
        destruct (IH _ _ _ _ H) as [before ->].
        exists (t11 ++ t13 ++ t15 ++ before)%list.
        rewrite <- !app_assoc. reflexivity.
Qed.

End OutputShape.

Lemma lift_inv {A : Type} (r : outcome A) (w w1 : world) (a : A) (t : list event) :
  lift r w = (Ret a, w1, t) -> r = Ret a /\ w1 = w /\ t = [].
Proof. unfold lift. intros [= -> <- <-]. auto. Qed.

Lemma masked_nth (l : list pyfloat) :
  forall i,
    nth i (map (fun a => py_scale a e3) (where_above l l)) NaN
    = py_scale (if py_gtb (nth i l NaN) max_alt_km then NaN else nth i l NaN) e3.
Proof.
  induction l as [|a l IH]; intros [|i]; try reflexivity.
  unfold where_above in *. cbn [combine map nth fst snd]. apply IH.
Qed.

Lemma masked_is_nan (a : pyfloat) :
  np_isnan (py_scale (if py_gtb a max_alt_km then NaN else a) e3)
  = np_isnan a || py_gtb a max_alt_km.
Proof. destruct (py_gtb a max_alt_km); destruct a; reflexivity. Qed.

Section GetdataOutcomes.

Context {ext : Externals}.

(** X17: the dictionary [getdata] returns has the nine keys [times],
    [altitude] and those of [vars], in this order, and one entry under each
    of them for every timestep whose altitude is a number not above
    2000 km, in the order of the timesteps: under [times] the time of the
    timestep, under [altitude] its own altitude in metres (not the altitude
    of the profile row that was taken).  The other timesteps leave no
    entry. *)
Theorem one_entry_per_sample_below_ceiling
    (times : list pyfloat) (rmlatmlt : ndarray) (res_alt : pyfloat) (verbose : bool)
    (w w' : world) (d : list (string * list pyfloat)) (trace : list event) :
  getdata times rmlatmlt res_alt verbose w = (Ret (Some d), w', trace) ->
  exists r mlat mlt cs,
    take_axis1 rmlatmlt 0 = Ret r
    /\ take_axis1 rmlatmlt 1 = Ret mlat
    /\ take_axis1 rmlatmlt 2 = Ret mlt
    /\ let alt_km := map (fun e => fst (fst e)) (geom2rmlatmlt times r mlat mlt) in
       let fetched :=
         filter (fun i => negb (np_isnan (nth i alt_km NaN)
                                || py_gtb (nth i alt_km NaN) max_alt_km))
                (seq 0 (List.length times)) in
       d = dict_of (map (fun i => nth i times NaN) fetched)
                   (map (fun i => py_scale (nth i alt_km NaN) e3) fetched) cs
       /\ List.length cs = 7%nat
       /\ Forall (fun c => List.length c = List.length fetched) cs.
Proof.
  unfold getdata. intros H.
  apply bind_inv in H. destruct H as (n & w1 & t1 & t2 & _ & H & _).
  destruct (negb (List.length times =? n)%nat).
  { apply bind_inv in H. destruct H as (? & ? & ? & ? & _ & H & _). discriminate H. }
  apply bind_inv in H. destruct H as (bad & w2 & t3 & t4 & _ & H & _).
  destruct bad.
  { apply bind_inv in H. destruct H as (? & ? & ? & ? & _ & H & _). discriminate H. }
  apply bind_inv in H. destruct H as (r & w3 & t5 & t6 & Hr & H & _).
  apply bind_inv in H. destruct H as (mlat & w4 & t7 & t8 & Hmlat & H & _).
  apply bind_inv in H. destruct H as (mlt & w5 & t9 & t10 & Hmlt & H & _).
  apply lift_inv in Hr. apply lift_inv in Hmlat. apply lift_inv in Hmlt.
  destruct Hr as [Hr _], Hmlat as [Hmlat _], Hmlt as [Hmlt _].
  cbv zeta in H.
  apply bind_inv in H. destruct H as (exit & w6 & t11 & t12 & Hloop & H & _).
  destruct exit as [dict_return|]; [|discriminate H].
  apply bind_inv in H. destruct H as ([] & w7 & t13 & t14 & _ & H & _).
  apply bind_inv in H. destruct H as ([] & w8 & t15 & t16 & _ & H & _).
  unfold ret in H. injection H as <- _ _.
  change empty_dict with (dict_of [] [] [[]; []; []; []; []; []; []]) in Hloop.
  apply (series_loop_dict _ _ _ _ _ _ _ _ _ _ _ 0%nat) in Hloop;
    [|reflexivity|repeat constructor].
  destruct Hloop as (cs & Hcs & Hall & ->).
  exists r, mlat, mlt, cs.
  split; [exact Hr|]. split; [exact Hmlat|]. split; [exact Hmlt|]. cbv zeta.
  set (alt_km := map (fun e => fst (fst e)) (geom2rmlatmlt times r mlat mlt)) in *.
  assert (Hfilter :
            filter (fun i => negb (np_isnan
                                     (nth i (map (fun a => py_scale a e3)
                                                 (where_above alt_km alt_km)) NaN)))
                   (seq 0 (List.length times))
            = filter (fun i => negb (np_isnan (nth i alt_km NaN)
                                     || py_gtb (nth i alt_km NaN) max_alt_km))
                     (seq 0 (List.length times))).
  { apply filter_ext. intros i. rewrite masked_nth, masked_is_nan. reflexivity. }
  rewrite Hfilter in *. cbn [app Nat.add] in *.
  split; [|split; [exact Hcs|exact Hall]].
  f_equal. apply map_ext_in. intros i Hi.
  apply filter_In in Hi. destruct Hi as [_ Hi].
  apply negb_true_iff, orb_false_elim in Hi. destruct Hi as [_ Hgt].
  rewrite masked_nth, Hgt. reflexivity.
Qed.

(** X18: [getdata] never returns [None] silently.  It does so in three
    cases only: the lengths of its two arguments differ, or the shape check
    fails (in both cases the error is displayed and nothing else has
    happened), or a query has failed, and then the warning is the last
    thing that happened. *)
Theorem none_is_never_returned_silently
    (times : list pyfloat) (rmlatmlt : ndarray) (res_alt : pyfloat) (verbose : bool)
    (w w' : world) (trace : list event) :
  getdata times rmlatmlt res_alt verbose w = (Ret None, w', trace) ->
  (trace = [DisplayError "The lengths of times and rmlatmlt must be same"] /\ w' = w)
  \/ (trace = [DisplayError "rmlatmlt shape error"] /\ w' = w)
  \/ (exists before,
        trace = (before ++ [DisplayWarning "run_iri_profile failed"])%list).
Proof.
  unfold getdata. intros H.
  apply bind_inv in H. destruct H as (n & w1 & t1 & t2 & Hn & H & ->).
  apply lift_inv in Hn. destruct Hn as (_ & -> & ->).
  destruct (negb (List.length times =? n)%nat).
  { left. unfold bind, emit, ret in H. injection H as <- <-. auto. }
  apply bind_inv in H. destruct H as (bad & w2 & t3 & t4 & Hbad & H & ->).
  apply lift_inv in Hbad. destruct Hbad as (_ & -> & ->).
  destruct bad.
  { right. left. unfold bind, emit, ret in H. injection H as <- <-. auto. }
  apply bind_inv in H. destruct H as (r & w3 & t5 & t6 & Hr & H & ->).
  apply bind_inv in H. destruct H as (mlat & w4 & t7 & t8 & Hmlat & H & ->).
  apply bind_inv in H. destruct H as (mlt & w5 & t9 & t10 & Hmlt & H & ->).
  apply lift_inv in Hr. apply lift_inv in Hmlat. apply lift_inv in Hmlt.
  destruct Hr as (_ & _ & ->), Hmlat as (_ & _ & ->), Hmlt as (_ & _ & ->).
  cbv zeta in H.
  apply bind_inv in H. destruct H as (exit & w6 & t11 & t12 & Hloop & H & ->).
  right. right. destruct exit as [dict_return|].
  - apply bind_inv in H. destruct H as ([] & w7 & t13 & t14 & _ & H & _).
    apply bind_inv in H. destruct H as ([] & w8 & t15 & t16 & _ & H & _).
    discriminate H.
  - apply series_loop_returned in Hloop. destruct Hloop as [before ->].
    unfold ret in H. injection H as _ <-.
    exists before. cbn [app]. rewrite app_nil_r. reflexivity.
Qed.

End GetdataOutcomes.

(** Two timesteps, the first at 300 km and the second at 3000 km. *)
Definition two_samples : ndarray :=
  mk_ndarray [2; 3]%nat
             [Fin (300 # 1); Fin (35 # 1); Fin (135 # 1);
              Fin (3000 # 1); Fin (35 # 1); Fin (135 # 1)].

Definition run_two_samples
    : outcome (option (list (string * list pyfloat))) * world * list event :=
  Eval vm_compute in
    getdata (ext := demo_ext) [Fin 0; Fin (60 # 1)] two_samples (Fin (50 # 1)) false
            (mk_world no_files [good_session]).

Definition dict_two_samples : list (string * list pyfloat) :=
  Eval vm_compute in
    match run_two_samples with
    | (Ret (Some d), _, _) => d
    | _ => []
    end.

Lemma one_entry_per_sample_below_ceiling_witness :
  List.length dict_two_samples = 9%nat
  /\ exists r mlat mlt cs,
       take_axis1 two_samples 0 = Ret r
       /\ take_axis1 two_samples 1 = Ret mlat
       /\ take_axis1 two_samples 2 = Ret mlt
       /\ let alt_km :=
            map (fun e => fst (fst e))
                (geom2rmlatmlt (Externals := demo_ext) [Fin 0; Fin (60 # 1)] r mlat mlt) in
          let fetched :=
            filter (fun i => negb (np_isnan (nth i alt_km NaN)
                                   || py_gtb (nth i alt_km NaN) max_alt_km))
                   (seq 0 2) in
          dict_two_samples
          = dict_of (map (fun i => nth i [Fin 0; Fin (60 # 1)] NaN) fetched)
                    (map (fun i => py_scale (nth i alt_km NaN) e3) fetched) cs
          /\ List.length cs = 7%nat
          /\ Forall (fun c => List.length c = List.length fetched) cs.
Proof.
  split; [reflexivity|].
  apply (one_entry_per_sample_below_ceiling (ext := demo_ext)
           [Fin 0; Fin (60 # 1)] two_samples (Fin (50 # 1)) false
           (mk_world no_files [good_session])
           (snd (fst run_two_samples)) dict_two_samples (snd run_two_samples)).
  vm_compute. reflexivity.
Defined.

Definition run_with_failed_query
    : outcome (option (list (string * list pyfloat))) * world * list event :=
  Eval vm_compute in
    getdata (ext := demo_ext) [Fin 0; Fin (60 # 1)] (triples 2) (Fin (50 # 1)) false
            (mk_world no_files [good_session; dead_session; dead_session; dead_session]).

Lemma none_is_never_returned_silently_witness :
  fst (fst run_with_failed_query) = Ret None
  /\ exists before,
       snd run_with_failed_query
       = (before ++ [DisplayWarning "run_iri_profile failed"])%list.
Proof.
  split; [reflexivity|].
  destruct (none_is_never_returned_silently (ext := demo_ext)
              [Fin 0; Fin (60 # 1)] (triples 2) (Fin (50 # 1)) false
              (mk_world no_files [good_session; dead_session; dead_session; dead_session])
              (snd (fst run_with_failed_query)) (snd run_with_failed_query))
    as [[H _]|[[H _]|H]].
  - vm_compute. reflexivity.
  - vm_compute in H. discriminate H.
  - vm_compute in H. discriminate H.
  - exact H.
Defined.

(* ================================================================== *)
(** * Further properties of [_downloader.py]: browsers across retries *)
(* ================================================================== *)

Definition is_start (e : event) : bool :=
  match e with ChromeStarted => true | _ => false end.

Definition is_quit (e : event) : bool :=
  match e with Quit => true | _ => false end.

(** The number of events of [trace] that satisfy [p]. *)
Definition count (p : event -> bool) (trace : list event) : nat :=
  List.length (filter p trace).

Lemma count_app (p : event -> bool) (t1 t2 : list event) :
  count p (t1 ++ t2) = (count p t1 + count p t2)%nat.
Proof. unfold count. rewrite filter_app, length_app. reflexivity. Qed.

Lemma count_none (p : event -> bool) (P : event -> Prop) (trace : list event) :
  (forall e, P e -> p e = false) -> Forall P trace -> count p trace = 0%nat.
Proof.
  intros Hp Hall. unfold count. induction Hall as [|e l He _ IH]; [reflexivity|].
  cbn [filter]. rewrite (Hp e He). exact IH.
Qed.

Lemma count_banner (p : event -> bool) (q : query) :
  (forall msg, p (Print msg) = false) ->
  count p (banner q) = 0%nat /\ count p (exception_report q) = 0%nat.
Proof.
  intros Hp. unfold count, banner, exception_report.
  destruct (info q); cbn [filter]; rewrite ?Hp; split; reflexivity.
Qed.

(** One attempt starts at most one browser, and quits the one it started. *)
Lemma attempt_balance (q : query) (timeout : pyfloat) (w : world) :
  let trace := snd (_run_iri_profile_selenium q timeout w) in
  count is_start trace = count is_quit trace /\ (count is_start trace <= 1)%nat.
Proof.
  cbv zeta.
  destruct (count_banner is_start q (fun _ => eq_refl)) as [Hb1 Hr1].
  destruct (count_banner is_quit q (fun _ => eq_refl)) as [Hb2 Hr2].
  assert (Hbody : forall body, Forall (drive_event q timeout) body ->
                               count is_start body = 0%nat /\ count is_quit body = 0%nat).
  { intros body Hall. split; apply (count_none _ (drive_event q timeout)); try exact Hall;
      intros [] He; try reflexivity; destruct He. }
  destruct (attempt_trace q timeout w) as [H|[(body & H & Hall)|(body & H & Hall)]];
    rewrite H; clear H.
  - rewrite !count_app, Hb1, Hr1, Hb2, Hr2. split; [reflexivity|lia].
  - destruct (Hbody body Hall) as [H1 H2].
    rewrite !count_app. change (ChromeStarted :: body ++ exception_report q)
      with ([ChromeStarted] ++ body ++ exception_report q)%list.
    rewrite !count_app, Hb1, Hr1, Hb2, Hr2, H1, H2. cbn. split; [reflexivity|lia].
  - destruct (Hbody body Hall) as [H1 H2].
    rewrite !count_app. change (ChromeStarted :: body)
      with ([ChromeStarted] ++ body)%list.
    rewrite !count_app, Hb1, Hb2, H1, H2. cbn. split; [reflexivity|lia].
Qed.

Section RetryCounting.

Context {S : Type}.
Variable submit : query -> pyfloat -> S -> Z * S.
Variable host_sleep : Z -> S -> S.
Variable host_print : string -> S -> S.
Variable q : query.
Variable timeout : pyfloat.
Variable size : S -> nat.

Hypothesis print_keeps : forall msg s, size (host_print msg s) = size s.
Hypothesis sleep_keeps : forall secs s, size (host_sleep secs s) = size s.
Hypothesis submit_adds_one :
  forall t s, (size (snd (submit q t s)) <= Datatypes.S (size s))%nat.

Lemma host_say_size (b : bool) (msg : string) (s : S) :
  size (host_say host_print b msg s) = size s.
Proof. unfold host_say. destruct b; [apply print_keeps|reflexivity]. Qed.

(** A quantity that every attempt raises by at most one, and that nothing
    else changes, grows by at most the number of attempts left. *)
Lemma retry_measure (n : Z) (attempts : list Z) :
  forall (s : S) (log : list retry_event),
    (size (snd (fst (retry_loop submit host_sleep host_print q timeout n attempts s log)))
     <= size s + List.length attempts)%nat.
Proof.
  induction attempts as [|attempt rest IH]; intros s log.
  - cbn [retry_loop fst snd List.length]. rewrite host_say_size. lia.
  - rewrite loop_cons.
    pose proof (submit_adds_one (py_scale timeout 2)
                  (host_say host_print (info q && (0 <? attempt)) "RETRY ATTEMPT" s))
      as Hs.
    rewrite host_say_size in Hs.
    destruct (submit q (py_scale timeout 2) _) as [st s1]. cbn [fst snd] in Hs.
    cbn [List.length].
    destruct (st =? 0); [cbn [fst snd]; lia|].
    destruct (attempt <? n - 1).
    + eapply Nat.le_trans; [apply IH|]. rewrite sleep_keeps, host_say_size. lia.
    + eapply Nat.le_trans; [apply IH|]. lia.
Qed.

End RetryCounting.

(** X19: across all its attempts [run_iri_profile] starts at most
    [max_retries] browsers, and it quits every browser it has started:
    when it returns, whatever the attempts met, as many browsers have been
    quit as were started. *)
Theorem every_started_browser_is_quit (q : query) (timeout : pyfloat)
    (max_retries : Z) (w : world) :
  let trace := snd (run_iri_profile_selenium q timeout max_retries w) in
  count is_start trace = count is_quit trace
  /\ (count is_start trace <= Z.to_nat max_retries)%nat.
Proof.
  cbv zeta. unfold run_iri_profile_selenium, run_iri_profile. split.
  - pose proof (retry_invariant attempt_on_host
                  (fun secs => host_emit (Slept (inject_Z secs)))
                  (fun msg => host_emit (Print msg)) q timeout
                  (fun h => count is_start (snd h) = count is_quit (snd h))
                  (fun h => count is_start (snd h) = count is_quit (snd h)))
      as H.
    assert (Hemit : forall e (h : host),
               is_start e = false -> is_quit e = false ->
               count is_start (snd h) = count is_quit (snd h) ->
               count is_start (snd (host_emit e h))
               = count is_quit (snd (host_emit e h))).
    { intros e h H1 H2 Hh. cbn [host_emit snd]. rewrite !count_app, Hh.
      unfold count. cbn [filter]. rewrite H1, H2. reflexivity. }
    assert (Hattempt : forall t (h : host),
               count is_start (snd h) = count is_quit (snd h) ->
               count is_start (snd (snd (attempt_on_host q t h)))
               = count is_quit (snd (snd (attempt_on_host q t h)))).
    { intros t h Hh. unfold attempt_on_host.
      pose proof (attempt_balance q t (fst h)) as [Hb _].
      destruct (_run_iri_profile_selenium q t (fst h)) as [[st w1] tr].
      cbn [fst snd] in *. rewrite !count_app, Hh, Hb. reflexivity. }
    specialize (H (fun _ msg h => Hemit (Print msg) h eq_refl eq_refl)
                  (fun secs h => Hemit (Slept (inject_Z secs)) h eq_refl eq_refl)
                  (fun t h Hh => conj (fun _ => Hattempt t h Hh)
                                      (fun _ => Hattempt t h Hh))
                  max_retries (py_range max_retries) (w, []) [] eq_refl).
    cbv zeta in H.
    destruct (retry_loop attempt_on_host _ _ q timeout max_retries
                         (py_range max_retries) (w, []) []) as [[status h] log].
    cbn [fst snd] in *. destruct H as [[_ H]|[_ H]]; exact H.
  - pose proof (retry_measure attempt_on_host
                  (fun secs => host_emit (Slept (inject_Z secs)))
                  (fun msg => host_emit (Print msg)) q timeout
                  (fun h => count is_start (snd h))) as H.
    assert (Hemit : forall e (h : host),
               is_start e = false ->
               count is_start (snd (host_emit e h)) = count is_start (snd h)).
    { intros e h H1. cbn [host_emit snd]. rewrite count_app.
      unfold count at 2. cbn [filter]. rewrite H1. cbn [List.length]. lia. }
    assert (Hattempt : forall t (h : host),
               (count is_start (snd (snd (attempt_on_host q t h)))
                <= Datatypes.S (count is_start (snd h)))%nat).
    { intros t h. unfold attempt_on_host.
      pose proof (attempt_balance q t (fst h)) as [_ Hb].
      destruct (_run_iri_profile_selenium q t (fst h)) as [[st w1] tr].
      cbn [fst snd] in *. rewrite count_app. lia. }
    specialize (H (fun msg h => Hemit (Print msg) h eq_refl)
                  (fun secs h => Hemit (Slept (inject_Z secs)) h eq_refl)
                  Hattempt max_retries (py_range max_retries) (w, []) []).
    destruct (retry_loop attempt_on_host _ _ q timeout max_retries
                         (py_range max_retries) (w, []) []) as [[status h] log].
    cbn [fst snd] in *. unfold py_range in H.
    rewrite length_map, length_seq in H. exact H.
Qed.

(* ================================================================== *)
(** * Further properties of [_downloader.py]: the fields of the form *)
(* ================================================================== *)

Definition is_filled (e : event) : bool :=
  match e with Filled _ _ => true | _ => false end.

(** The fillings of the fields [fields], in order. *)
Definition fillings (fields : list (string * field_value)) : list event :=
  map (fun nv => Filled (fst nv) (snd nv)) fields.

Definition returned {A : Type} (r : outcome A) : Prop :=
  match r with Ret _ => True | Raise _ => False end.

(** The fillings of a run are those of the first fields of the form, of all
    of them when the run returns. *)
Definition fills_in_order {A : Type} (q : query)
    (r : outcome A * world * list event) : Prop :=
  exists n,
    filter is_filled (snd r) = fillings (firstn n (form_values q))
    /\ (returned (fst (fst r)) -> n = List.length (form_values q)).

Section FieldsInOrder.

Variables (s : session) (q : query).

Lemma silent_no_fill {A : Type} (m : M A) (w : world) :
  emits_only (fun e => is_filled e = false) m -> filter is_filled (snd (m w)) = [].
Proof.
  intros H. specialize (H w). induction H as [|e l He _ IH]; [reflexivity|].
  cbn [filter]. rewrite He. exact IH.
Qed.

Lemma fills_after_silence {A B : Type} (m : M A) (k : A -> M B) (w : world) :
  emits_only (fun e => is_filled e = false) m ->
  (forall a w1, fills_in_order q (k a w1)) ->
  fills_in_order q (bind m k w).
Proof.
  intros Hm Hk. pose proof (silent_no_fill m w Hm) as Hsilent. unfold bind.
  destruct (m w) as [[[a|e] w1] t1]; cbn [snd] in Hsilent.
  - destruct (Hk a w1) as (n & Hn & Hret).
    destruct (k a w1) as [[r w2] t2]. cbn [fst snd] in *.
    exists n. cbn [fst snd]. rewrite filter_app, Hsilent. split; [exact Hn|exact Hret].
  - exists 0%nat. cbn [fst snd firstn fillings map]. split; [exact Hsilent|].
    intros [].
Qed.

Lemma fill_all_fills (verbose : bool) (fields : list (string * field_value))
    (w : world) :
  exists n,
    filter is_filled (snd (fill_all s verbose fields w)) = fillings (firstn n fields)
    /\ (returned (fst (fst (fill_all s verbose fields w))) -> n = List.length fields).
Proof.
  induction fields as [|[name value] rest IH].
  - exists 0%nat. split; [reflexivity|]. intros _. reflexivity.
  - cbn [fill_all]. destruct (field_ok s name) eqn:Hok.
    + rewrite (bind_ret_eq _ _ _ _ _ _ (safe_fill_ok s verbose name value w Hok)).
      destruct IH as (n & Hn & Hret). exists (Datatypes.S n).
      cbn [fst snd firstn fillings map filter is_filled app].
      rewrite filter_app, Hn.
      assert (Hprint : filter is_filled
                         (if verbose then [Print ("  " ++ name ++ " = ...")] else [])
                       = []) by (destruct verbose; reflexivity).
      rewrite Hprint. split; [reflexivity|].
      intros H. cbn [List.length]. rewrite (Hret H). reflexivity.
    + rewrite (bind_raise_eq _ _ _ _ _ _ (safe_fill_fault s verbose name value w Hok)).
      exists 0%nat. split; [reflexivity|]. intros [].
Qed.

Lemma drive_fills (timeout : pyfloat) (w : world) :
  fills_in_order q (drive s q timeout w).
Proof.
  unfold drive.
  apply fills_after_silence; [apply emits_emit; reflexivity|intros _ w1].
  apply fills_after_silence; [apply emits_driver_call|intros _ w2].
  apply fills_after_silence; [apply emits_emit; reflexivity|intros _ w3].
  apply fills_after_silence; [apply emits_say; reflexivity|intros _ w4].
  pose proof (tail_events s q (fun e => is_filled e = false)) as Htail.
  assert (Hsilent : forall e, tail_event q e -> is_filled e = false).
  { intros [] He; try reflexivity. destruct He. }
  specialize (Htail Hsilent timeout).
  destruct (fill_all_fills (info q) (form_values q) w4) as (n & Hn & Hret).
  unfold fills_in_order.
  destruct (fill_all s (info q) (form_values q) w4) as [[[[]|e] w5] t1] eqn:Ef;
    cbn [fst snd] in Hn, Hret.
  - rewrite (bind_ret_eq _ _ _ _ _ _ Ef). exists n. cbn [fst snd].
    rewrite filter_app, Hn, (silent_no_fill _ w5 Htail), app_nil_r.
    split; [reflexivity|]. intros _. apply Hret. exact I.
  - rewrite (bind_raise_eq _ _ _ _ _ _ Ef). exists n. cbn [fst snd].
    split; [exact Hn|]. intros [].
Qed.

End FieldsInOrder.

(** X20: the fields an attempt fills are the first fields of the form, in
    the order lat, lon, start, stop, step, datetime, each filled once and
    with the value computed for it; filling stops at the first field that
    cannot be filled.  An attempt that returns 0 has filled all six. *)
Theorem fields_are_filled_in_order (q : query) (timeout : pyfloat) (w : world) :
  exists n,
    filter is_filled (snd (_run_iri_profile_selenium q timeout w))
    = fillings (firstn n (form_values q))
    /\ (fst (fst (_run_iri_profile_selenium q timeout w)) = 0 -> n = 6%nat).
Proof.
  assert (Hb : filter is_filled (banner q) = []).
  { unfold banner. destruct (info q); reflexivity. }
  assert (Hr : filter is_filled (exception_report q) = []).
  { unfold exception_report. destruct (info q); reflexivity. }
  destruct w as [fs [|s rest]].
  - rewrite attempt_without_browser. fold (banner q) (exception_report q).
    exists 0%nat. cbn [fst snd]. rewrite filter_app, Hb, Hr.
    split; [reflexivity|discriminate].
  - rewrite attempt_unfold. cbv zeta. fold (banner q) (exception_report q).
    destruct (chrome_starts s).
    + destruct (drive_fills s q timeout (mk_world fs rest)) as (n & Hn & Hret).
      destruct (drive s q timeout (mk_world fs rest)) as [[[status|e] w1] body];
        cbn [fst snd] in *; exists n.
      * rewrite filter_app. cbn [filter is_filled].
        rewrite filter_app, Hb, Hn. cbn [filter is_filled].
        rewrite app_nil_r. split; [reflexivity|]. intros _. apply Hret. exact I.
      * rewrite filter_app. cbn [filter is_filled].
        rewrite !filter_app, Hb, Hr, Hn. cbn [filter is_filled].
        rewrite !app_nil_r. split; [reflexivity|discriminate].
    + exists 0%nat. cbn [fst snd]. rewrite filter_app, Hb, Hr.
      split; [reflexivity|discriminate].
Qed.

(* ================================================================== *)
(** * From [getdata.py] to the form: the longitude of a sample *)
(* ================================================================== *)

Lemma longitude_written_in_range (x : Q) :
  (0 <= x < 360 # 1)%Q -> (0 <= round_to 6 x <= 360 # 1)%Q.
Proof.
  intros Hx.
  assert (H : (inject_Z 0 <= x * pow10 6 <= inject_Z 360000000)%Q).
  { change (pow10 6) with (1000000 # 1)%Q. change (inject_Z 0) with 0%Q.
    change (inject_Z 360000000) with (360000000 # 1)%Q. split; lra. }
  destruct (round_to_between 6 x 0 360000000 H) as [L U].
  change (pow10 6) with (1000000 # 1)%Q in L, U.
  change (inject_Z 0) with 0%Q in L.
  change (inject_Z 360000000) with (360000000 # 1)%Q in U.
  assert (E0 : (0 / (1000000 # 1) == 0)%Q) by reflexivity.
  assert (E1 : ((360000000 # 1) / (1000000 # 1) == 360 # 1)%Q) by reflexivity.
  rewrite E0 in L. rewrite E1 in U. split; assumption.
Qed.

(** X21: whatever the (finite) longitude of a sample, the query [getdata]
    builds for it puts a longitude from 0 to 360 into the form.  Where the
    [np.fmod] of [getdata] leaves a negative value, the corrections of the
    attempt bring it back into [0, 360); written with six decimals it can
    reach 360.000000, and is never negative. *)
Theorem sample_longitude_reaches_the_form_in_range
    (dt : datetime) (lon : Q) (lat_i res_alt : pyfloat) (verbose : bool) :
  let lon_i := np_fmod (py_add (Fin lon) (Fin (360 # 1))) (360 # 1) in
  let q := mk_query dt lon_i lat_i (Fin 0) (Fin (2000 # 1)) res_alt
                    "IRI 2020" scratch "UTC" "geom" verbose in
  exists x,
    submitted q "lon" = Some (FNum 6 (Fin x))
    /\ (0 <= x < 360 # 1)%Q
    /\ received q "lon" = Some (round_to 6 x)
    /\ (0 <= round_to 6 x <= 360 # 1)%Q.
Proof.
  cbv zeta. cbn [py_add np_fmod].
  destruct (longitude_normalized (Qfmod (lon + (360 # 1)) (360 # 1)))
    as (x & Hx & Hrange & _).
  exists x. unfold received.
  change (submitted _ "lon")
    with (Some (FNum 6 (lon_val (correct_longitude
                                   (Fin (Qfmod (lon + (360 # 1)) (360 # 1))))))).
  rewrite Hx. cbn [written].
  repeat split; try apply Hrange.
  - apply longitude_written_in_range; exact Hrange.
  - apply longitude_written_in_range; exact Hrange.
Qed.
